(** * Recipe segmentation dashboard ([Tarea 2/dashboard_app.py])

    A shallow embedding of the dashboard script: the table read from the
    CSV file, the pandas aggregations the script performs on it, the
    chart descriptions it hands to plotly, and the sequence of elements
    it writes to the page.  The script runs top to bottom on every
    interaction; one such run is a computation in a state-and-exception
    monad whose state holds the DataFrame objects and the page. *)

From Stdlib Require Import String Ascii ZArith QArith Bool Arith Lia List.
From Stdlib Require Import Sorted Permutation DecimalString.
Import ListNotations.

Local Open Scope string_scope.
Local Open Scope list_scope.
Local Infix "+++" := String.append (right associativity, at level 60).

(** ** Values held in a table cell *)

(** A cell of a parsed CSV: a missing value, an integer, a float (kept
    as its exact rational value), a boolean, or text. *)
Inductive cell : Type :=
| VNaN
| VInt (z : Z)
| VFloat (q : Q)
| VBool (b : bool)
| VStr (s : string).

(** Python's numeric reading of a value ([True] is 1, [False] is 0). *)
Definition num_of (c : cell) : option Q :=
  match c with
  | VInt z => Some (inject_Z z)
  | VFloat q => Some q
  | VBool b => Some (if b then 1 else 0)%Q
  | VNaN | VStr _ => None
  end.

Definition is_nan (c : cell) : bool :=
  match c with VNaN => true | _ => false end.

Definition is_str (c : cell) : bool :=
  match c with VStr _ => true | _ => false end.

Definition is_number (c : cell) : bool :=
  match num_of c with Some _ => true | None => false end.

(** Equality of values as keys of a pandas hash table: numbers by value
    (so [1], [1.0] and [True] are one key), text by content, and all
    missing values as one key. *)
Definition cell_eqb (a b : cell) : bool :=
  match num_of a, num_of b with
  | Some p, Some q => Qeq_bool p q
  | None, None =>
      match a, b with
      | VStr s, VStr t => String.eqb s t
      | VNaN, VNaN => true
      | _, _ => false
      end
  | _, _ => false
  end.

(** Python's [<=] between two numbers or between two texts. *)
Definition cell_leb (a b : cell) : bool :=
  match num_of a, num_of b with
  | Some p, Some q => Qle_bool p q
  | _, _ =>
      match a, b with
      | VStr s, VStr t => String.leb s t
      | _, _ => false
      end
  end.

(** ** Exceptions and results *)

Inductive exn : Type :=
| FileNotFoundError
| StopException
| KeyError (key : string)
| TypeError
| ValueError
| NameError.

Inductive result (A : Type) : Type :=
| Ok (a : A)
| Raise (e : exn).
Arguments Ok {A} a.
Arguments Raise {A} e.

Definition rbind {A B} (r : result A) (k : A -> result B) : result B :=
  match r with
  | Ok a => k a
  | Raise e => Raise e
  end.

(** ** DataFrames *)

(** A DataFrame: the column names and the rows, each row holding one
    cell per column in the order of the names. *)
Record DataFrame : Type := mkFrame {
  columns : list string;
  rows : list (list cell)
}.

(** A labelled Series (the result of an aggregation): index label and
    value, in order. *)
Definition series : Type := list (cell * cell).

Fixpoint col_index (name : string) (cols : list string) : option nat :=
  match cols with
  | [] => None
  | c :: t =>
      if String.eqb c name then Some O
      else match col_index name t with
           | Some i => Some (S i)
           | None => None
           end
  end.

(** [name in df.columns] *)
Definition has_col (name : string) (df : DataFrame) : bool :=
  match col_index name (columns df) with Some _ => true | None => false end.

Definition cell_at (i : nat) (row : list cell) : cell := nth i row VNaN.

(** [df[name]]: the values of one column, top to bottom. *)
Definition column (name : string) (df : DataFrame) : result (list cell) :=
  match col_index name (columns df) with
  | Some i => Ok (map (cell_at i) (rows df))
  | None => Raise (KeyError name)
  end.

(** [df[[n1, n2, ...]]]: the sub-table of the named columns; the first
    name that is not a column raises [KeyError]. *)
Fixpoint col_indices (names : list string) (cols : list string)
  : result (list nat) :=
  match names with
  | [] => Ok []
  | n :: t =>
      match col_index n cols with
      | None => Raise (KeyError n)
      | Some i => rbind (col_indices t cols) (fun l => Ok (i :: l))
      end
  end.

Definition select_cols (names : list string) (df : DataFrame)
  : result DataFrame :=
  rbind (col_indices names (columns df)) (fun idx =>
    Ok (mkFrame names (map (fun r => map (fun i => cell_at i r) idx) (rows df)))).

(** Writing a cell at a position of a row (a short row is padded). *)
Fixpoint set_nth (i : nat) (v : cell) (row : list cell) : list cell :=
  match i, row with
  | O, [] => [v]
  | O, _ :: t => v :: t
  | S j, [] => VNaN :: set_nth j v []
  | S j, c :: t => c :: set_nth j v t
  end.

Fixpoint zip_rows (f : cell -> list cell -> list cell)
  (vals : list cell) (rs : list (list cell)) : list (list cell) :=
  match vals, rs with
  | v :: vt, r :: rt => f v r :: zip_rows f vt rt
  | _, _ => []
  end.

(** [df[name] = values]: replaces the column when it exists, adds it as
    the last column otherwise; the lengths must agree. *)
Definition set_column (name : string) (vals : list cell) (df : DataFrame)
  : result DataFrame :=
  if negb (length vals =? length (rows df))%nat then Raise ValueError
  else
    match col_index name (columns df) with
    | Some i => Ok (mkFrame (columns df) (zip_rows (set_nth i) vals (rows df)))
    | None =>
        Ok (mkFrame (columns df ++ [name])
              (zip_rows (fun v r => set_nth (length (columns df)) v r)
                 vals (rows df)))
    end.

(** [df.columns = names] *)
Definition rename_columns (names : list string) (df : DataFrame)
  : result DataFrame :=
  if (length names =? length (columns df))%nat
  then Ok (mkFrame names (rows df))
  else Raise ValueError.

(** [series == value], element by element: a missing value equals
    nothing. *)
Definition series_eq (vals : list cell) (v : cell) : list bool :=
  map (fun c => negb (is_nan c) && cell_eqb c v) vals.

(** [df[mask]]: the rows at which the boolean mask is true. *)
Fixpoint mask_rows (mask : list bool) (rs : list (list cell))
  : list (list cell) :=
  match mask, rs with
  | b :: mt, r :: rt => if b then r :: mask_rows mt rt else mask_rows mt rt
  | _, _ => []
  end.

Definition mask_select (mask : list bool) (df : DataFrame) : DataFrame :=
  mkFrame (columns df) (mask_rows mask (rows df)).

(** ** Aggregations *)

Definition dropna (vals : list cell) : list cell :=
  filter (fun c => negb (is_nan c)) vals.

(** One more occurrence of key [k] in a table of counts kept in order of
    first appearance. *)
Fixpoint bump (k : cell) (acc : list (cell * nat)) : list (cell * nat) :=
  match acc with
  | [] => [(k, 1%nat)]
  | (k', n) :: t =>
      if cell_eqb k' k then (k', S n) :: t else (k', n) :: bump k t
  end.

Definition tally (vals : list cell) : list (cell * nat) :=
  fold_left (fun acc k => bump k acc) vals [].

(** Stable insertion sort. *)
Fixpoint insert_by {A} (leb : A -> A -> bool) (x : A) (l : list A) : list A :=
  match l with
  | [] => [x]
  | y :: t => if leb x y then x :: y :: t else y :: insert_by leb x t
  end.

Definition sort_by {A} (leb : A -> A -> bool) (l : list A) : list A :=
  fold_right (insert_by leb) [] l.

Definition total_count (t : list (cell * nat)) : nat :=
  fold_right (fun kn acc => (snd kn + acc)%nat) O t.

(** [Series.value_counts(normalize=...)]: missing values are dropped,
    the distinct values are counted and listed by decreasing count,
    values with the same count in order of first appearance; with
    [normalize] each count is divided by the sum of the counts. *)
Definition value_counts (normalize : bool) (vals : list cell) : series :=
  let counts :=
    sort_by (fun a b => (snd b <=? snd a)%nat) (tally (dropna vals)) in
  let total := total_count counts in
  map (fun kn =>
         (fst kn,
          if normalize
          then VFloat (inject_Z (Z.of_nat (snd kn)) /
                       inject_Z (Z.of_nat total))
          else VInt (Z.of_nat (snd kn))))
      counts.

(** Python can order a list when it holds only text or only numbers. *)
Definition sortable (keys : list cell) : bool :=
  forallb is_str keys || forallb is_number keys.

(** [sorted(values)] *)
Definition py_sorted (keys : list cell) : result (list cell) :=
  if sortable keys then Ok (sort_by cell_leb keys) else Raise TypeError.

Definition by_label (a b : cell * cell) : bool := cell_leb (fst a) (fst b).

(** [Series.sort_index()] *)
Definition sort_index (s : series) : result series :=
  if sortable (map fst s) then Ok (sort_by by_label s) else Raise TypeError.

(** [Series.unique()]: the distinct values in order of first
    appearance. *)
Fixpoint mem_cell (c : cell) (l : list cell) : bool :=
  match l with
  | [] => false
  | d :: t => cell_eqb d c || mem_cell c t
  end.

Definition unique (vals : list cell) : list cell :=
  fold_left (fun acc c => if mem_cell c acc then acc else acc ++ [c]) vals [].

(** [a + b] as [sum] applies it to the cells of a column: numbers add,
    a missing operand gives a missing result, and a text operand is
    reported as [TypeError] (the sum of a column of text is not
    modelled).  Integers add exactly, without the wrap-around of 64-bit
    integers, and floats as exact rationals. *)
Definition add_cell (a b : cell) : result cell :=
  match a, b with
  | VStr _, _ | _, VStr _ => Raise TypeError
  | VNaN, _ | _, VNaN => Ok VNaN
  | VFloat p, _ =>
      match num_of b with Some q => Ok (VFloat (p + q)) | None => Raise TypeError end
  | _, VFloat q =>
      match num_of a with Some p => Ok (VFloat (p + q)) | None => Raise TypeError end
  | _, _ =>
      match num_of a, num_of b with
      | Some p, Some q => Ok (VInt (Qnum p + Qnum q))
      | _, _ => Raise TypeError
      end
  end.

(** Python's [n - b] for an integer [n]. *)
Definition sub_from (n : Z) (b : cell) : result cell :=
  match b with
  | VInt z => Ok (VInt (n - z))
  | VBool x => Ok (VInt (n - (if x then 1 else 0)))
  | VFloat q => Ok (VFloat (inject_Z n - q))
  | VNaN => Ok VNaN
  | VStr _ => Raise TypeError
  end.

Fixpoint sum_from (acc : cell) (vals : list cell) : result cell :=
  match vals with
  | [] => Ok acc
  | v :: t => rbind (add_cell acc v) (fun acc' => sum_from acc' t)
  end.

(** [Series.sum()]: missing values are skipped; the sum of nothing is
    0. *)
Definition col_sum (vals : list cell) : result cell :=
  sum_from (VInt 0) (dropna vals).

(** [Series.mean()]: missing values are skipped; the mean of nothing is
    a missing value. *)
Definition col_mean (vals : list cell) : result cell :=
  let present := dropna vals in
  rbind (col_sum vals) (fun total =>
    match present, num_of total with
    | [], _ => Ok VNaN
    | _, Some q => Ok (VFloat (q / inject_Z (Z.of_nat (length present))))
    | _, None => Raise TypeError
    end).

(** [DataFrame.mean()]: the mean of every column, labelled by the column
    name. *)
Fixpoint means_of (names : list string) (df : DataFrame) : result series :=
  match names with
  | [] => Ok []
  | n :: t =>
      rbind (column n df) (fun c =>
      rbind (col_mean c) (fun m =>
      rbind (means_of t df) (fun rest => Ok ((VStr n, m) :: rest))))
  end.

Definition frame_mean (df : DataFrame) : result series :=
  means_of (columns df) df.

(** [Series.reset_index()]: a two-column table of the labels and the
    values; pandas derives the two names from the series. *)
Definition reset_index (index_name value_name : string) (s : series)
  : DataFrame :=
  mkFrame [index_name; value_name] (map (fun kv => [fst kv; snd kv]) s).

(** [Series.to_frame(name=...)] keeps the labels as the index and names
    the single column of values. *)
Record named_series : Type := mkNamed {
  value_name : string;
  items : series
}.

Definition to_frame (name : string) (s : series) : named_series :=
  mkNamed name s.

(** ** Chart descriptions (plotly express) *)

Record point : Type := mkPoint {
  point_x : cell;
  point_y : cell;
  point_color : cell;
  point_hover : list cell
}.

(** What a figure draws: its kind, its title and its data.  Colour
    palettes and axis captions are left out. *)
Inductive figure : Type :=
| Bar (title : string) (bars : list (cell * cell))
| Pie (title : string) (slices : list (cell * cell))
| Scatter (title : string) (points : list point).

(** plotly reports an argument that is not a column of the table with
    [ValueError]. *)
Definition plot_column (name : string) (df : DataFrame) : result (list cell) :=
  match column name df with
  | Ok c => Ok c
  | Raise _ => Raise ValueError
  end.

(** [px.bar(df, x=..., y=..., title=...)] *)
Definition px_bar (df : DataFrame) (x y title : string) : result figure :=
  rbind (plot_column x df) (fun xs =>
  rbind (plot_column y df) (fun ys =>
  Ok (Bar title (combine xs ys)))).

(** [px.bar(series, x=series.index, y=series.values, title=...)];
    plotly rejects a series without any entry with [ValueError]. *)
Definition px_bar_series (s : series) (title : string) : result figure :=
  match s with
  | [] => Raise ValueError
  | _ :: _ => Ok (Bar title (combine (map fst s) (map snd s)))
  end.

(** [px.pie(df, values=..., names=..., title=...)] *)
Definition px_pie (df : DataFrame) (values names title : string)
  : result figure :=
  rbind (plot_column values df) (fun vs =>
  rbind (plot_column names df) (fun ns =>
  Ok (Pie title (combine ns vs)))).

Fixpoint hover_columns (names : list string) (df : DataFrame)
  : result (list (list cell)) :=
  match names with
  | [] => Ok []
  | n :: t =>
      rbind (plot_column n df) (fun c =>
      rbind (hover_columns t df) (fun cs => Ok (c :: cs)))
  end.

(** The hover values of row [i]: one from each hover column. *)
Definition hover_at (cs : list (list cell)) (i : nat) : list cell :=
  map (fun c => nth i c VNaN) cs.

Fixpoint scatter_points (i : nat) (xs ys colors : list cell)
  (hover : list (list cell)) : list point :=
  match xs, ys, colors with
  | x :: xt, y :: yt, c :: ct =>
      mkPoint x y c (hover_at hover i) :: scatter_points (S i) xt yt ct hover
  | _, _, _ => []
  end.

(** [px.scatter(df, x=..., y=..., color=..., hover_data=[...],
    title=...)]: one point for every row of [df].  The points are listed
    here in the order of the rows; plotly keeps them grouped by colour. *)
Definition px_scatter (df : DataFrame) (x y color : string)
  (hover_data : list string) (title : string) : result figure :=
  rbind (plot_column x df) (fun xs =>
  rbind (plot_column y df) (fun ys =>
  rbind (plot_column color df) (fun cs =>
  rbind (hover_columns hover_data df) (fun hs =>
  Ok (Scatter title (scatter_points O xs ys cs hs)))))).

(** ** The page and the objects of one run *)

(** What the script puts on the page, in the order of the calls. *)
Inductive element : Type :=
| PageConfig (page_title layout sidebar : string)
| Title (text : string)
| Markdown (text : string)
| Header (text : string)
| Subheader (text : string)
| SidebarHeader (text : string)
| SidebarSubheader (text : string)
| SidebarWrite (text : string)
| SidebarDataframe (table : named_series)
| SidebarSelectbox (label : string) (shown : list string) (chosen : nat)
| PlotlyChart (fig : figure)
| Info (text : string)
| Warning (text : string)
| Error (text : string)
| Write (text : string)
| WriteSeries (s : series).

(** A DataFrame variable of the script is a reference to an object; two
    variables may name the same object. *)
Definition ref : Type := nat.

Record state : Type := mkState {
  heap : list DataFrame;
  screen : list element
}.

Definition M (A : Type) : Type := state -> result A * state.

Definition ret {A} (a : A) : M A := fun s => (Ok a, s).

Definition raise {A} (e : exn) : M A := fun s => (Raise e, s).

Definition bind {A B} (m : M A) (k : A -> M B) : M B :=
  fun s =>
    match m s with
    | (Ok a, s') => k a s'
    | (Raise e, s') => (Raise e, s')
    end.

(** [try: m except: handler] *)
Definition try_except {A} (m : M A) (handler : exn -> M A) : M A :=
  fun s =>
    match m s with
    | (Ok a, s') => (Ok a, s')
    | (Raise e, s') => handler e s'
    end.

Definition lift {A} (r : result A) : M A := fun s => (r, s).

Declare Scope run_scope.
Delimit Scope run_scope with run.
Notation "x <- m ;; k" := (bind m (fun x => k))
  (at level 61, m at next level, right associativity) : run_scope.
Notation "m ;; k" := (bind m (fun _ => k))
  (at level 61, right associativity) : run_scope.
Local Open Scope run_scope.

(** A new object. *)
Definition alloc (df : DataFrame) : M ref :=
  fun s => (Ok (length (heap s)), mkState (heap s ++ [df]) (screen s)).

(** The object a variable names. *)
Definition deref (r : ref) : M DataFrame :=
  fun s =>
    match nth_error (heap s) r with
    | Some df => (Ok df, s)
    | None => (Raise NameError, s)
    end.

Fixpoint update {A} (l : list A) (i : nat) (x : A) : list A :=
  match l, i with
  | [], _ => []
  | _ :: t, O => x :: t
  | y :: t, S j => y :: update t j x
  end.

(** An update of an object in place: every variable that names it sees
    the change. *)
Definition mutate (r : ref) (f : DataFrame -> result DataFrame) : M unit :=
  df <- deref r ;;
  df' <- lift (f df) ;;
  fun s => (Ok tt, mkState (update (heap s) r df') (screen s)).

Definition emit (e : element) : M unit :=
  fun s => (Ok tt, mkState (heap s) (screen s ++ [e])).

(** [df[name]] on a variable. *)
Definition getitem (r : ref) (name : string) : M (list cell) :=
  df <- deref r ;; lift (column name df).

(** [df[name] = values] on a variable. *)
Definition setitem (r : ref) (name : string) (vals : list cell) : M unit :=
  mutate r (set_column name vals).

(** [df.columns = names] on a variable. *)
Definition set_columns (r : ref) (names : list string) : M unit :=
  mutate r (rename_columns names).

(** [name in df.columns] on a variable. *)
Definition in_columns (name : string) (r : ref) : M bool :=
  df <- deref r ;; ret (has_col name df).

(** [len(df)] on a variable. *)
Definition len (r : ref) : M Z :=
  df <- deref r ;; ret (Z.of_nat (length (rows df))).

(** ** Streamlit calls *)

Definition st_set_page_config (t l sb : string) : M unit := emit (PageConfig t l sb).
Definition st_title (t : string) : M unit := emit (Title t).
Definition st_markdown (t : string) : M unit := emit (Markdown t).
Definition st_header (t : string) : M unit := emit (Header t).
Definition st_subheader (t : string) : M unit := emit (Subheader t).
Definition st_sidebar_header (t : string) : M unit := emit (SidebarHeader t).
Definition st_sidebar_subheader (t : string) : M unit := emit (SidebarSubheader t).
Definition st_sidebar_write (t : string) : M unit := emit (SidebarWrite t).
Definition st_sidebar_dataframe (t : named_series) : M unit := emit (SidebarDataframe t).
Definition st_plotly_chart (f : figure) : M unit := emit (PlotlyChart f).
Definition st_info (t : string) : M unit := emit (Info t).
Definition st_warning (t : string) : M unit := emit (Warning t).
Definition st_error (t : string) : M unit := emit (Error t).
Definition st_write (t : string) : M unit := emit (Write t).
Definition st_write_series (s : series) : M unit := emit (WriteSeries s).

(** [st.stop()] ends the run. *)
Definition st_stop {A} : M A := raise StopException.

(** [st.sidebar.selectbox(label, options, format_func)]: the widget
    shows the formatted options and returns the option the user has
    picked, the first one until they pick. *)
Definition st_sidebar_selectbox (label : string) (options : list cell)
  (format_func : cell -> string) (choice : nat) : M cell :=
  let i := if (choice <? length options)%nat then choice else O in
  emit (SidebarSelectbox label (map format_func options) i) ;;
  ret (nth i options VNaN).

(** Charts drawn from a DataFrame variable. *)
Definition plot_bar (r : ref) (x y title : string) : M figure :=
  df <- deref r ;; lift (px_bar df x y title).

Definition plot_pie (r : ref) (values names title : string) : M figure :=
  df <- deref r ;; lift (px_pie df values names title).

Definition plot_scatter (r : ref) (x y color : string)
  (hover_data : list string) (title : string) : M figure :=
  df <- deref r ;; lift (px_scatter df x y color hover_data title).

(** The state in which a run starts: no object, an empty page. *)
Definition fresh_run : state := mkState [] [].

(** ** The script *)

Section Dashboard.

(** Python's [repr] of a float, which [astype(str)] applies to a float
    column. *)
Variable float_repr : Q -> string.

(** The files the script can read: the table a CSV file parses to, for
    every path that exists. *)
Variable disk : string -> option DataFrame.

(** Python's [str] of a cell value. *)
Definition py_str (c : cell) : string :=
  match c with
  | VNaN => "nan"
  | VInt z => NilZero.string_of_int (Z.to_int z)
  | VFloat q => float_repr q
  | VBool b => if b then "True" else "False"
  | VStr s => s
  end.

(** [Series.astype(str)] *)
Definition astype_str (vals : list cell) : list cell :=
  map (fun c => VStr (py_str c)) vals.

(** [pd.read_csv(path)] *)
Definition read_csv (path : string) : M ref :=
  match disk path with
  | Some df => alloc df
  | None => raise FileNotFoundError
  end.

(** [load_data] (lines 13-20).  [st.cache_data] hands every run its own
    copy of the parsed table. *)
Definition load_data (path : string) : M ref :=
  try_except
    (df <- read_csv path ;;
     ret df)
    (fun e =>
       match e with
       | FileNotFoundError =>
           st_error ("Error: The file '" +++ path +++
                     "' was not found. Make sure the CSV is in the same folder as this script.") ;;
           st_stop
       | _ => raise e
       end).

Definition csv_path : string := "recipes_clustered_for_dashboard.csv".

Definition intro_text : string := "
This interactive dashboard presents the results of the K-Means clustering analysis.
I have segmented recipes into **4 distinct groups** based on their nutritional characteristics, categories, and servings.
Use the filters in the sidebar to explore the data.
".

(** Lines 26-31. *)
Definition page_intro : M unit :=
  st_title "Tasty Bites - Recipe Segmentation Dashboard" ;;
  st_markdown intro_text.

(** Lines 33-48: the per-cluster counts in the sidebar and their bar
    chart. *)
Definition cluster_summary (df_clustered : ref) : M unit :=
  st_sidebar_header "Visualization Options" ;;
  st_sidebar_subheader "Cluster Summary" ;;
  labels <- getitem df_clustered "Cluster" ;;
  cluster_counts <- lift (sort_index (value_counts false labels)) ;;
  st_sidebar_write "Number of Recipes per Cluster:" ;;
  st_sidebar_dataframe (to_frame "Recipes" cluster_counts) ;;
  fig_counts <-
    lift (px_bar_series cluster_counts "Distribution of Recipes by Cluster") ;;
  st_plotly_chart fig_counts.

Definition format_func (x : cell) : string :=
  if negb (cell_eqb x (VStr "All")) then "Cluster " +++ py_str x
  else "All Clusters".

(** Lines 51-58: the selector. *)
Definition cluster_selector (df_clustered : ref) (choice : nat) : M cell :=
  st_header "Detailed Cluster Analysis" ;;
  labels <- getitem df_clustered "Cluster" ;;
  all_clusters <- lift (py_sorted (unique labels)) ;;
  st_sidebar_selectbox "Select a Cluster to view its characteristics:"
    (VStr "All" :: all_clusters) format_func choice.

(** Lines 60-65: the view and the suffix of the chart titles. *)
Definition select_view (df_clustered : ref) (selected_cluster_id : cell)
  : M (ref * string) :=
  if cell_eqb selected_cluster_id (VStr "All") then
    ret (df_clustered, " (All Clusters)")
  else
    labels <- getitem df_clustered "Cluster" ;;
    df <- deref df_clustered ;;
    display_data <- alloc (mask_select (series_eq labels selected_cluster_id) df) ;;
    ret (display_data, " (Cluster " +++ py_str selected_cluster_id +++ ")").

Definition nutrition_columns : list string :=
  ["calories"; "carbohydrate"; "sugar"; "protein"; "servings_numeric"].

(** [display_data[[...]].mean()] *)
Definition mean_of (display_data : ref) (names : list string) : M series :=
  df <- deref display_data ;;
  sub <- lift (select_cols names df) ;;
  lift (frame_mean sub).

(** Lines 69-72. *)
Definition avg_numeric_features (selected_cluster_id : cell)
  (display_data : ref) : M series :=
  if cell_eqb selected_cluster_id (VStr "All") then
    mean_of display_data nutrition_columns
  else
    mean_of display_data nutrition_columns.

(** Lines 67-85. *)
Definition nutrition_section (selected_cluster_id : cell)
  (display_data : ref) (chart_title_suffix : string) : M unit :=
  st_subheader ("Average Nutritional Values" +++ chart_title_suffix) ;;
  avg <- avg_numeric_features selected_cluster_id display_data ;;
  df_avg_numeric <- alloc (reset_index "index" "0" avg) ;;
  set_columns df_avg_numeric ["Characteristic"; "Average Value"] ;;
  fig_avg_nutrients <-
    plot_bar df_avg_numeric "Characteristic" "Average Value"
      ("Average Nutritional Values" +++ chart_title_suffix) ;;
  st_plotly_chart fig_avg_nutrients.

(** Lines 87-99. *)
Definition category_section (display_data : ref)
  (chart_title_suffix : string) : M unit :=
  st_subheader ("Category Distribution" +++ chart_title_suffix) ;;
  cats <- getitem display_data "category" ;;
  category_counts <-
    alloc (reset_index "category" "proportion" (value_counts true cats)) ;;
  set_columns category_counts ["Category"; "Proportion"] ;;
  fig_category <-
    plot_bar category_counts "Category" "Proportion"
      ("Proportion of Recipe Categories" +++ chart_title_suffix) ;;
  st_plotly_chart fig_category.

Definition traffic_notice : string :=
  "The original 'high_traffic' column was not found in the loaded data for this visualization.".

(** Lines 101-136. *)
Definition traffic_section (df_clustered display_data : ref)
  (chart_title_suffix : string) : M unit :=
  st_subheader ("High Traffic Distribution" +++ chart_title_suffix) ;;
  has_traffic <- in_columns "high_traffic" df_clustered ;;
  if has_traffic : bool then
    traffic <- getitem display_data "high_traffic" ;;
    traffic_counts <-
      alloc (reset_index "high_traffic" "proportion" (value_counts true traffic)) ;;
    set_columns traffic_counts ["Traffic Type"; "Proportion"] ;;
    fig_traffic <-
      plot_pie traffic_counts "Proportion" "Traffic Type"
        ("Proportion of Recipe Traffic" +++ chart_title_suffix) ;;
    st_plotly_chart fig_traffic
  else
    st_info traffic_notice ;;
    has_ohe <- in_columns "high_traffic_High" df_clustered ;;
    if has_ohe : bool then
      high <- getitem display_data "high_traffic_High" ;;
      high_traffic_count <- lift (col_sum high) ;;
      has_other <- in_columns "high_traffic_No_Traffic_Info" df_clustered ;;
      no_traffic_info_count <-
        (if has_other : bool then
           other <- getitem display_data "high_traffic_No_Traffic_Info" ;;
           lift (col_sum other)
         else
           n <- len display_data ;;
           lift (sub_from n high_traffic_count)) ;;
      traffic_data <-
        alloc (mkFrame ["Traffic Type"; "Count"]
                 [[VStr "High Traffic"; high_traffic_count];
                  [VStr "No Traffic Info"; no_traffic_info_count]]) ;;
      fig_traffic_ohe <-
        plot_pie traffic_data "Count" "Traffic Type"
          ("Proportion of Recipe Traffic" +++ chart_title_suffix) ;;
      st_plotly_chart fig_traffic_ohe
    else
      ret tt.

Definition pca_warning : string :=
  "PCA components (PC1, PC2) are not available in the loaded data file. To see this visualization, please ensure PCA components are saved in the CSV.".

Definition pca_text : string := "
This graph shows how the clusters are distributed in a reduced two-dimensional space
thanks to Principal Component Analysis (PCA).
".

(** Lines 139-160. *)
Definition pca_section (df_clustered : ref) : M unit :=
  st_header " Cluster Visualization (PCA)" ;;
  st_markdown pca_text ;;
  has_pc1 <- in_columns "PC1" df_clustered ;;
  has_pc2 <- (if has_pc1 : bool then in_columns "PC2" df_clustered
              else ret false) ;;
  if has_pc2 : bool then
    fig_pca <-
      plot_scatter df_clustered "PC1" "PC2" "Cluster"
        ["calories"; "protein"; "category"; "servings_numeric"]
        "Recipe Clusters Reduced with PCA" ;;
    st_plotly_chart fig_pca
  else
    st_warning pca_warning ;;
    st_write "Unique values in high_traffic for current display_data:".

(** Line 161, outside every test. *)
Definition traffic_dump (display_data : ref) : M unit :=
  traffic <- getitem display_data "high_traffic" ;;
  st_write_series (value_counts false traffic).

(** Lines 26-161: everything the script does with the loaded table. *)
Definition render (df_clustered : ref) (choice : nat) : M unit :=
  page_intro ;;
  cluster_summary df_clustered ;;
  selected_cluster_id <- cluster_selector df_clustered choice ;;
  view <- select_view df_clustered selected_cluster_id ;;
  nutrition_section selected_cluster_id (fst view) (snd view) ;;
  category_section (fst view) (snd view) ;;
  traffic_section df_clustered (fst view) (snd view) ;;
  pca_section df_clustered ;;
  traffic_dump (fst view).

(** One run of the script, given the option the user has picked in the
    selector. *)
Definition script (choice : nat) : M unit :=
  st_set_page_config "Recipe Segmentation Dashboard" "wide" "expanded" ;;
  df_clustered <- load_data csv_path ;;
  labels <- getitem df_clustered "Cluster" ;;
  setitem df_clustered "Cluster" (astype_str labels) ;;
  render df_clustered choice.


(** ** The input contract and what is read off a page *)

(** Every cell of the column is a number or missing. *)
Definition numeric_col (name : string) (df : DataFrame) : bool :=
  match column name df with
  | Ok c => forallb (fun x => is_number x || is_nan x) c
  | Raise _ => false
  end.

(** The [Cluster] column exists and holds text only, as it does after
    line 24. *)
Definition labels_str (df : DataFrame) : bool :=
  match column "Cluster" df with
  | Ok c => forallb is_str c
  | Raise _ => false
  end.

Definition optional_numeric (name : string) (df : DataFrame) : bool :=
  negb (has_col name df) || numeric_col name df.

(** The required columns of the input file are there, the nutrition
    columns are numeric, and a one-hot traffic column, when there is
    one, is numeric as well. *)
Definition schema_ok (df : DataFrame) : bool :=
  labels_str df
  && forallb (fun n => numeric_col n df) nutrition_columns
  && has_col "category" df
  && optional_numeric "high_traffic_High" df
  && optional_numeric "high_traffic_No_Traffic_Info" df.

(** The scatter charts on a page. *)
Definition scatter_charts (page : list element) : list (list point) :=
  flat_map (fun e => match e with
                     | PlotlyChart (Scatter _ pts) => [pts]
                     | _ => []
                     end) page.

(** The charts on a page. *)
Definition charts (page : list element) : list figure :=
  flat_map (fun e => match e with PlotlyChart f => [f] | _ => [] end) page.

(** The cell of a row in a named column of [df]. *)
Definition value_at (df : DataFrame) (name : string) (row : list cell)
  : cell :=
  match col_index name (columns df) with
  | Some i => cell_at i row
  | None => VNaN
  end.

Definition cluster_of (df : DataFrame) (row : list cell) : cell :=
  value_at df "Cluster" row.

(** The sum of the values of a chart's bars, as an exact rational. *)
Definition bar_total (bars : list (cell * cell)) : Q :=
  fold_right (fun kv acc => match num_of (snd kv) with
                            | Some q => q + acc
                            | None => acc
                            end) 0 bars.

(** The table of counts after the values [seen]: text keys, each once,
    each with the number of its occurrences, and every value seen has
    its key. *)
Definition counted (acc : list (cell * nat)) (seen : list cell) : Prop :=
  Forall (fun kn => is_str (fst kn) = true) acc /\
  NoDup (map fst acc) /\
  (forall k n, In (k, n) acc ->
     n = length (filter (cell_eqb k) seen) /\ (0 < n)%nat) /\
  (forall x, In x seen -> In x (map fst acc)).

(** What the PCA part of a page must show for the table [T]. *)
Definition pca_shown (T : DataFrame) (out : list element) : Prop :=
  (has_col "PC1" T && has_col "PC2" T = true ->
   exists pts,
     scatter_charts out = [pts] /\
     length pts = length (rows T) /\
     forall i row, nth_error (rows T) i = Some row ->
       exists p, nth_error pts i = Some p /\
         point_x p = value_at T "PC1" row /\
         point_y p = value_at T "PC2" row /\
         point_color p = cluster_of T row) /\
  (has_col "PC1" T && has_col "PC2" T = false ->
   scatter_charts out = [] /\ In (Warning pca_warning) out).

(** A view of [T]: the same columns, and rows taken from [T]. *)
Definition view_of (T V : DataFrame) : Prop :=
  columns V = columns T /\ incl (rows V) (rows T).

(** Lines 53-65 as one step: the option picked and the table that
    [display_data] names afterwards. *)
Definition chosen_view (df_clustered : ref) (choice : nat)
  : M (cell * DataFrame) :=
  selected_cluster_id <- cluster_selector df_clustered choice ;;
  view <- select_view df_clustered selected_cluster_id ;;
  display_data <- deref (fst view) ;;
  ret (selected_cluster_id, display_data).

(** ** Sample tables *)

Definition required_columns : list string :=
  ["Cluster"; "calories"; "carbohydrate"; "sugar"; "protein";
   "servings_numeric"; "category"].

(** Three recipes with the required columns only, as parsed from the
    file. *)
Definition recipes_csv : DataFrame :=
  mkFrame required_columns
    [[VInt 0; VFloat (35 # 1); VFloat (38 # 1); VFloat (1 # 2);
      VFloat (9 # 10); VInt 4; VStr "Potato"];
     [VInt 1; VFloat (914 # 1); VFloat (42 # 1); VFloat (3 # 1);
      VFloat (2 # 1); VInt 1; VStr "Breakfast"];
     [VInt 0; VFloat (97 # 1); VFloat (30 # 1); VFloat (38 # 1);
      VFloat (1 # 50); VInt 4; VStr "Beverages"]].

(** The same recipes after line 24. *)
Definition recipes : DataFrame :=
  mkFrame required_columns
    [[VStr "0"; VFloat (35 # 1); VFloat (38 # 1); VFloat (1 # 2);
      VFloat (9 # 10); VInt 4; VStr "Potato"];
     [VStr "1"; VFloat (914 # 1); VFloat (42 # 1); VFloat (3 # 1);
      VFloat (2 # 1); VInt 1; VStr "Breakfast"];
     [VStr "0"; VFloat (97 # 1); VFloat (30 # 1); VFloat (38 # 1);
      VFloat (1 # 50); VInt 4; VStr "Beverages"]].

(** With the traffic column and the two projection coordinates. *)
Definition recipes_full : DataFrame :=
  mkFrame (required_columns ++ ["high_traffic"; "PC1"; "PC2"])
    [[VStr "0"; VFloat (35 # 1); VFloat (38 # 1); VFloat (1 # 2);
      VFloat (9 # 10); VInt 4; VStr "Potato"; VStr "High";
      VFloat (1 # 4); VFloat (-3 # 4)];
     [VStr "1"; VFloat (914 # 1); VFloat (42 # 1); VFloat (3 # 1);
      VFloat (2 # 1); VInt 1; VStr "Breakfast"; VNaN;
      VFloat (5 # 2); VFloat (1 # 8)];
     [VStr "0"; VFloat (97 # 1); VFloat (30 # 1); VFloat (38 # 1);
      VFloat (1 # 50); VInt 4; VStr "Beverages"; VStr "High";
      VFloat (-1 # 2); VFloat (2 # 1)]].

(** With the traffic column but only one projection coordinate. *)
Definition recipes_traffic : DataFrame :=
  mkFrame (required_columns ++ ["high_traffic"; "PC1"])
    [[VStr "0"; VFloat (35 # 1); VFloat (38 # 1); VFloat (1 # 2);
      VFloat (9 # 10); VInt 4; VStr "Potato"; VStr "High"; VFloat (1 # 4)];
     [VStr "1"; VFloat (914 # 1); VFloat (42 # 1); VFloat (3 # 1);
      VFloat (2 # 1); VInt 1; VStr "Breakfast"; VNaN; VFloat (5 # 2)]].

(** With the one-hot traffic column only. *)
Definition recipes_onehot : DataFrame :=
  mkFrame (required_columns ++ ["high_traffic_High"])
    [[VStr "0"; VFloat (35 # 1); VFloat (38 # 1); VFloat (1 # 2);
      VFloat (9 # 10); VInt 4; VStr "Potato"; VBool true];
     [VStr "1"; VFloat (914 # 1); VFloat (42 # 1); VFloat (3 # 1);
      VFloat (2 # 1); VInt 1; VStr "Breakfast"; VBool false];
     [VStr "0"; VFloat (97 # 1); VFloat (30 # 1); VFloat (38 # 1);
      VFloat (1 # 50); VInt 4; VStr "Beverages"; VBool true]].

(** A table in which one cluster is labelled with the text [All]. *)
Definition recipes_all_label : DataFrame :=
  mkFrame required_columns
    [[VStr "All"; VFloat (35 # 1); VFloat (38 # 1); VFloat (1 # 2);
      VFloat (9 # 10); VInt 4; VStr "Potato"];
     [VStr "0"; VFloat (914 # 1); VFloat (42 # 1); VFloat (3 # 1);
      VFloat (2 # 1); VInt 1; VStr "Breakfast"]].

(** A table whose only recipe has no category. *)
Definition recipes_no_category : DataFrame :=
  mkFrame required_columns
    [[VStr "0"; VFloat (35 # 1); VFloat (38 # 1); VFloat (1 # 2);
      VFloat (9 # 10); VInt 4; VNaN]].

Definition sample_repr (q : Q) : string := "0.5".

Definition sample_disk (path : string) : option DataFrame :=
  if String.eqb path csv_path then Some recipes_csv else None.

Definition empty_disk (path : string) : option DataFrame := None.

(** ** More to read off a table and a page *)

(** The sum of the numbers in a list of cells, as an exact rational. *)
Definition num_total (vals : list cell) : Q :=
  fold_right (fun c acc => match num_of c with
                           | Some q => q + acc
                           | None => acc
                           end) 0 vals.

(** The texts of the title, the headers and the subheaders of a page. *)
Definition headings (page : list element) : list string :=
  flat_map (fun e => match e with
                     | Title t | Header t | Subheader t => [t]
                     | _ => []
                     end) page.

(** What [st.write] has put on a page. *)
Definition written (page : list element) : list element :=
  filter (fun e => match e with
                   | Write _ | WriteSeries _ => true
                   | _ => false
                   end) page.

(** A table without the [Cluster] column. *)
Definition recipes_no_cluster : DataFrame :=
  mkFrame ["calories"; "category"]
    [[VFloat (35 # 1); VStr "Potato"]; [VFloat (914 # 1); VStr "Breakfast"]].

Definition no_cluster_disk (path : string) : option DataFrame :=
  if String.eqb path csv_path then Some recipes_no_cluster else None.

(** A view without the [protein] column. *)
Definition recipes_no_protein : DataFrame :=
  mkFrame ["Cluster"; "calories"; "carbohydrate"; "sugar";
           "servings_numeric"; "category"]
    [[VStr "0"; VFloat (35 # 1); VFloat (38 # 1); VFloat (1 # 2); VInt 4;
      VStr "Potato"]].

(** A bar is at least as high as the next one. *)
Definition not_below (a b : cell * cell) : Prop :=
  exists p q, num_of (snd a) = Some p /\ num_of (snd b) = Some q /\ q <= p.

(** A cell of a one-hot column: a boolean, 0 or 1, or missing. *)
Definition is_flag (c : cell) : bool :=
  match c with
  | VBool _ | VNaN => true
  | VInt z => (z =? 0)%Z || (z =? 1)%Z
  | VFloat q => Qeq_bool q 0 || Qeq_bool q 1
  | VStr _ => false
  end.

(** Every cell of the column is a flag. *)
Definition flag_col (name : string) (df : DataFrame) : bool :=
  match column name df with
  | Ok c => forallb is_flag c
  | Raise _ => false
  end.

(** A table with the columns of the file and no row. *)
Definition recipes_header_only : DataFrame := mkFrame required_columns [].

(** ** Reasoning about runs *)

(** [s] has been reached from [s0] by creating objects and writing to
    the page: the objects and the page of [s0] are still there,
    unchanged. *)
Definition extends (s0 s : state) : Prop :=
  (exists fs, heap s = heap s0 ++ fs) /\
  (exists es, screen s = screen s0 ++ es).

(** [m] keeps what [s0] holds, whether it returns or raises, and a
    value it returns satisfies [post]. *)
Definition safe (s0 : state) {A} (m : M A) (post : A -> Prop) : Prop :=
  forall s, extends s0 s ->
    extends s0 (snd (m s)) /\ forall a, fst (m s) = Ok a -> post a.

Definition fresh_for (s0 : state) (r : ref) : Prop :=
  (length (heap s0) <= r)%nat.

Definition any {A} (_ : A) : Prop := True.

Lemma extends_refl s : extends s s.
Proof.
  split; exists []; now rewrite app_nil_r.
Qed.

Lemma extends_trans s0 s1 s2 :
  extends s0 s1 -> extends s1 s2 -> extends s0 s2.
Proof.
  intros [[f1 H1] [e1 E1]] [[f2 H2] [e2 E2]]. split.
  - exists (f1 ++ f2). now rewrite H2, H1, app_assoc.
  - exists (e1 ++ e2). now rewrite E2, E1, app_assoc.
Qed.

Lemma extends_lookup s0 s r T :
  extends s0 s -> nth_error (heap s0) r = Some T ->
  nth_error (heap s) r = Some T.
Proof.
  intros [[fs H] _] L. rewrite H, nth_error_app1; auto.
  apply nth_error_Some. congruence.
Qed.

Lemma update_app_fresh {A} (h t : list A) r x :
  (length h <= r)%nat -> update (h ++ t) r x = h ++ update t (r - length h) x.
Proof.
  revert r. induction h as [|y h IH]; intros r Hr; simpl.
  - now rewrite Nat.sub_0_r.
  - destruct r as [|r]; simpl in *; [lia|]. now rewrite IH by lia.
Qed.

Lemma safe_ret s0 A (a : A) (post : A -> Prop) :
  post a -> safe s0 (ret a) post.
Proof.
  intros P s E. split; [exact E|]. simpl. intros b [= <-]. exact P.
Qed.

Lemma safe_raise s0 A e (post : A -> Prop) : safe s0 (raise e) post.
Proof.
  intros s E. split; [exact E|]. simpl. discriminate.
Qed.

Lemma safe_lift s0 A (r : result A) : safe s0 (lift r) (fun a => r = Ok a).
Proof.
  intros s E. split; [exact E|]. simpl. auto.
Qed.

Lemma safe_weaken s0 A (m : M A) (p q : A -> Prop) :
  safe s0 m p -> (forall a, p a -> q a) -> safe s0 m q.
Proof.
  intros H W s E. destruct (H s E) as [X Y]. split; auto.
Qed.

Lemma safe_bind s0 A B (m : M A) (k : A -> M B) p q :
  safe s0 m p -> (forall a, p a -> safe s0 (k a) q) ->
  safe s0 (bind m k) q.
Proof.
  intros Hm Hk s E. destruct (Hm s E) as [X Y]. unfold bind.
  destruct (m s) as [[a|e] s1]; simpl in *.
  - apply (Hk a (Y a eq_refl) s1 X).
  - split; [exact X|discriminate].
Qed.

Lemma safe_try s0 A (m : M A) (h : exn -> M A) p :
  safe s0 m p -> (forall e, safe s0 (h e) p) -> safe s0 (try_except m h) p.
Proof.
  intros Hm Hh s E. destruct (Hm s E) as [X Y]. unfold try_except.
  destruct (m s) as [[a|e] s1]; simpl in *.
  - split; [exact X|]. intros b [= <-]. auto.
  - apply (Hh e s1 X).
Qed.

Lemma safe_emit s0 e : safe s0 (emit e) any.
Proof.
  intros s [[fs H] [es E]]. split; [|unfold any; auto]. split; simpl.
  - now exists fs.
  - exists (es ++ [e]). now rewrite E, app_assoc.
Qed.

Lemma safe_deref s0 r : safe s0 (deref r) any.
Proof.
  intros s E. unfold deref. destruct (nth_error (heap s) r); simpl;
    (split; [exact E|unfold any; auto]).
Qed.

Lemma safe_alloc s0 df : safe s0 (alloc df) (fresh_for s0).
Proof.
  intros s [[fs H] [es E]]. split; simpl.
  - split; simpl; [|now exists es]. exists (fs ++ [df]).
    now rewrite H, app_assoc.
  - intros a [= <-]. unfold fresh_for. rewrite H, length_app. lia.
Qed.

Lemma safe_mutate s0 r f : fresh_for s0 r -> safe s0 (mutate r f) any.
Proof.
  intros Hr s E. unfold mutate, bind, deref, lift.
  destruct (nth_error (heap s) r) as [df|]; simpl;
    [|split; [exact E|discriminate]].
  destruct (f df) as [df'|e]; simpl; [|split; [exact E|discriminate]].
  split; [|unfold any; auto]. destruct E as [[fs H] [es E]]. split; simpl.
  - exists (update fs (r - length (heap s0)) df').
    rewrite H. now apply update_app_fresh.
  - now exists es.
Qed.


Lemma safe_lift_any s0 A (r : result A) : safe s0 (lift r) any.
Proof.
  eapply safe_weaken; [apply safe_lift|]. now unfold any.
Qed.

Lemma safe_ret_any s0 A (a : A) : safe s0 (ret a) any.
Proof.
  apply safe_ret. exact I.
Qed.

Lemma safe_any s0 A (m : M A) p : safe s0 m p -> safe s0 m any.
Proof.
  intros H. eapply safe_weaken; [exact H|]. now unfold any.
Qed.

Create HintDb run_defs.
#[local] Hint Unfold getitem setitem set_columns in_columns len
  plot_bar plot_pie plot_scatter st_set_page_config st_title st_markdown
  st_header st_subheader st_sidebar_header st_sidebar_subheader
  st_sidebar_write st_sidebar_dataframe st_plotly_chart st_info st_warning
  st_error st_write st_write_series st_stop st_sidebar_selectbox : run_defs.

(** Walks through a computation built from the primitive steps. *)
Ltac safe_leaf :=
  first
    [ apply safe_emit | apply safe_deref | apply safe_alloc
    | apply safe_lift_any | apply safe_ret_any | apply safe_raise
    | apply safe_mutate; assumption
    | eapply safe_any; apply safe_alloc ].

Ltac safe_walk :=
  lazymatch goal with
  | |- safe _ (bind _ _) _ =>
      eapply safe_bind; [safe_walk | intros; safe_walk]
  | |- safe _ (try_except _ _) _ =>
      apply safe_try; [safe_walk | intros; safe_walk]
  | |- safe _ (if ?b then _ else _) _ => destruct b; safe_walk
  | |- safe _ (match ?e with FileNotFoundError => _ | _ => _ end) _ =>
      destruct e; safe_walk
  | |- safe _ (match ?o with Some _ => _ | None => _ end) _ =>
      destruct o; safe_walk
  | |- _ => safe_leaf
  end.

Lemma page_intro_safe s0 : safe s0 page_intro any.
Proof.
  unfold page_intro. autounfold with run_defs. safe_walk.
Qed.

Lemma cluster_summary_safe s0 df : safe s0 (cluster_summary df) any.
Proof.
  unfold cluster_summary. autounfold with run_defs. safe_walk.
Qed.

Lemma cluster_selector_safe s0 df choice :
  safe s0 (cluster_selector df choice) any.
Proof.
  unfold cluster_selector. autounfold with run_defs. safe_walk.
Qed.

Lemma select_view_safe s0 df sel : safe s0 (select_view df sel) any.
Proof.
  unfold select_view. autounfold with run_defs. safe_walk.
Qed.

Lemma nutrition_section_safe s0 sel disp suffix :
  safe s0 (nutrition_section sel disp suffix) any.
Proof.
  unfold nutrition_section, avg_numeric_features, mean_of.
  autounfold with run_defs. safe_walk.
Qed.

Lemma category_section_safe s0 disp suffix :
  safe s0 (category_section disp suffix) any.
Proof.
  unfold category_section. autounfold with run_defs. safe_walk.
Qed.

Lemma traffic_section_safe s0 df disp suffix :
  safe s0 (traffic_section df disp suffix) any.
Proof.
  unfold traffic_section. autounfold with run_defs. safe_walk.
Qed.

Lemma pca_section_safe s0 df : safe s0 (pca_section df) any.
Proof.
  unfold pca_section. autounfold with run_defs. safe_walk.
Qed.

Lemma traffic_dump_safe s0 disp : safe s0 (traffic_dump disp) any.
Proof.
  unfold traffic_dump. autounfold with run_defs. safe_walk.
Qed.

Ltac safe_sections :=
  repeat first
    [ apply page_intro_safe | apply cluster_summary_safe
    | apply cluster_selector_safe | apply select_view_safe
    | apply nutrition_section_safe | apply category_section_safe
    | apply traffic_section_safe | apply pca_section_safe
    | apply traffic_dump_safe
    | eapply safe_bind; [|intros] ].

Lemma render_safe s0 df choice : safe s0 (render df choice) any.
Proof.
  unfold render. safe_sections.
Qed.

Lemma script_safe s0 choice : safe s0 (script choice) any.
Proof.
  unfold script, load_data, read_csv. autounfold with run_defs.
  eapply safe_bind; [safe_walk|intros _ _].
  eapply safe_bind with (p := fresh_for s0).
  - apply safe_try; [|intros e; destruct e; safe_walk].
    eapply safe_bind; [destruct (disk csv_path); safe_walk|].
    intros r Hr. now apply safe_ret.
  - intros r Hr. eapply safe_bind; [safe_walk|intros].
    eapply safe_bind; [safe_walk|intros]. apply render_safe.
Qed.


(** ** Facts about tables and aggregations *)

Lemma has_col_index name df :
  has_col name df = true -> exists i, col_index name (columns df) = Some i.
Proof.
  unfold has_col. destruct (col_index name (columns df)) as [i|];
    [eauto|discriminate].
Qed.

Lemma has_col_false name df :
  has_col name df = false -> col_index name (columns df) = None.
Proof.
  unfold has_col. now destruct (col_index name (columns df)).
Qed.

Lemma column_missing name df :
  has_col name df = false -> column name df = Raise (KeyError name).
Proof.
  intros H. unfold column. now rewrite (has_col_false _ _ H).
Qed.

Lemma has_col_same_columns name V T :
  columns V = columns T -> has_col name V = has_col name T.
Proof.
  unfold has_col. now intros ->.
Qed.

Lemma add_cell_number a b :
  is_number a = true -> is_number b = true ->
  exists c, add_cell a b = Ok c /\ is_number c = true.
Proof.
  destruct a, b; simpl; try discriminate; intros _ _; eauto.
Qed.

Lemma sum_from_number l : forall acc,
  is_number acc = true -> forallb is_number l = true ->
  exists v, sum_from acc l = Ok v /\ is_number v = true.
Proof.
  induction l as [|x l IH]; simpl; intros acc Ha Hl; [eauto|].
  apply andb_prop in Hl. destruct Hl as [Hx Hl].
  destruct (add_cell_number acc x Ha Hx) as [c [-> Hc]]. simpl. auto.
Qed.

Lemma dropna_numbers c :
  forallb (fun x => is_number x || is_nan x) c = true ->
  forallb is_number (dropna c) = true.
Proof.
  induction c as [|x c IH]; simpl; [auto|]. intros H.
  apply andb_prop in H. destruct H as [Hx Hc].
  destruct x; simpl in *; try discriminate; auto.
Qed.

Lemma col_sum_numeric c :
  forallb (fun x => is_number x || is_nan x) c = true ->
  exists v, col_sum c = Ok v /\ is_number v = true.
Proof.
  intros H. unfold col_sum. apply sum_from_number; [reflexivity|].
  now apply dropna_numbers.
Qed.

Lemma col_mean_numeric c :
  forallb (fun x => is_number x || is_nan x) c = true ->
  exists v, col_mean c = Ok v.
Proof.
  intros H. unfold col_mean. destruct (col_sum_numeric c H) as [v [-> Hv]].
  simpl. unfold is_number in Hv. destruct (dropna c); [eauto|].
  destruct (num_of v); [eauto|discriminate].
Qed.

Lemma forallb_incl {A} (f : A -> bool) (l l' : list A) :
  incl l l' -> forallb f l' = true -> forallb f l = true.
Proof.
  intros I H. rewrite forallb_forall in *. auto.
Qed.

Lemma forallb_map_comp {A B} (f : B -> bool) (g : A -> B) (l : list A) :
  forallb f (map g l) = forallb (fun x => f (g x)) l.
Proof.
  induction l as [|x l IH]; simpl; [reflexivity|]. now rewrite IH.
Qed.

Lemma numeric_col_view name V T :
  columns V = columns T -> incl (rows V) (rows T) ->
  numeric_col name T = true -> numeric_col name V = true.
Proof.
  unfold numeric_col, column. intros -> I.
  destruct (col_index name (columns T)); [|discriminate].
  rewrite !forallb_map_comp. now apply forallb_incl.
Qed.


(** ** Running the script step by step *)

Lemma bind_bind {A B C} (m : M A) (f : A -> M B) (k : B -> M C) s :
  bind (bind m f) k s = bind m (fun a => bind (f a) k) s.
Proof.
  unfold bind. now destruct (m s) as [[a|e] s1].
Qed.

Lemma bind_ret {A B} (a : A) (k : A -> M B) s : bind (ret a) k s = k a s.
Proof. reflexivity. Qed.

Lemma bind_emit {B} e (k : unit -> M B) h scr :
  bind (emit e) k (mkState h scr) = k tt (mkState h (scr ++ [e])).
Proof. reflexivity. Qed.

Lemma bind_alloc {B} df (k : ref -> M B) h scr :
  bind (alloc df) k (mkState h scr) = k (length h) (mkState (h ++ [df]) scr).
Proof. reflexivity. Qed.

Lemma bind_lift_ok {A B} (a : A) (k : A -> M B) s :
  bind (lift (Ok a)) k s = k a s.
Proof. reflexivity. Qed.

Lemma bind_lift_raise {A B} e (k : A -> M B) s :
  bind (lift (Raise e)) k s = (Raise e, s).
Proof. reflexivity. Qed.

Lemma bind_deref {B} r df (k : DataFrame -> M B) h scr :
  nth_error h r = Some df ->
  bind (deref r) k (mkState h scr) = k df (mkState h scr).
Proof.
  intros H. unfold bind, deref. simpl. now rewrite H.
Qed.

Lemma bind_mutate {B} r f df df' (k : unit -> M B) h scr :
  nth_error h r = Some df -> f df = Ok df' ->
  bind (mutate r f) k (mkState h scr) = k tt (mkState (update h r df') scr).
Proof.
  intros H F. unfold mutate. rewrite bind_bind, (bind_deref _ _ _ _ _ H).
  rewrite bind_bind, F. reflexivity.
Qed.

Lemma lookup_new (h : list DataFrame) df t :
  nth_error (h ++ df :: t) (length h) = Some df.
Proof.
  rewrite nth_error_app2 by lia. now rewrite Nat.sub_diag.
Qed.

Lemma lookup_old (h : list DataFrame) t r df :
  nth_error h r = Some df -> nth_error (h ++ t) r = Some df.
Proof.
  intros H. rewrite nth_error_app1; auto. apply nth_error_Some. congruence.
Qed.

Lemma update_new (h : list DataFrame) df df' t :
  update (h ++ df :: t) (length h) df' = h ++ df' :: t.
Proof.
  rewrite update_app_fresh by lia. now rewrite Nat.sub_diag.
Qed.

Lemma run_emit e h scr : emit e (mkState h scr) = (Ok tt, mkState h (scr ++ [e])).
Proof. reflexivity. Qed.

(** A chart of a series: the series is laid out as a two-column table,
    the columns are renamed, and the chart reads them back. *)
Lemma px_bar_two a b t (s : series) :
  a <> b ->
  px_bar (mkFrame [a; b] (map (fun kv => [fst kv; snd kv]) s)) a b t
  = Ok (Bar t s).
Proof.
  intros N. unfold px_bar, plot_column, column. simpl.
  rewrite String.eqb_refl. apply String.eqb_neq in N. rewrite N.
  rewrite String.eqb_refl. simpl. rewrite !map_map. simpl.
  f_equal. f_equal. induction s as [|[k v] s IH]; simpl; [reflexivity|].
  now rewrite IH.
Qed.

Lemma px_pie_two a b t (s : series) :
  a <> b ->
  px_pie (mkFrame [a; b] (map (fun kv => [fst kv; snd kv]) s)) b a t
  = Ok (Pie t s).
Proof.
  intros N. unfold px_pie, plot_column, column. simpl.
  rewrite String.eqb_refl. apply String.eqb_neq in N. rewrite N.
  rewrite String.eqb_refl. simpl. rewrite !map_map. simpl.
  f_equal. f_equal. induction s as [|[k v] s IH]; simpl; [reflexivity|].
  now rewrite IH.
Qed.

Lemma series_chart_run i0 v0 a b t (ser : series) h scr :
  a <> b ->
  (r <- alloc (reset_index i0 v0 ser) ;;
   set_columns r [a; b] ;;
   fig <- plot_bar r a b t ;;
   st_plotly_chart fig) (mkState h scr)
  = (Ok tt,
     mkState (h ++ [mkFrame [a; b] (map (fun kv => [fst kv; snd kv]) ser)])
       (scr ++ [PlotlyChart (Bar t ser)])).
Proof.
  intros N. rewrite bind_alloc. unfold set_columns.
  erewrite bind_mutate; [|apply lookup_new|reflexivity].
  rewrite update_new. unfold plot_bar. rewrite bind_bind.
  erewrite bind_deref by apply lookup_new.
  simpl rows. rewrite px_bar_two by exact N. rewrite bind_lift_ok.
  reflexivity.
Qed.

Lemma series_pie_run i0 v0 a b t (ser : series) h scr :
  a <> b ->
  (r <- alloc (reset_index i0 v0 ser) ;;
   set_columns r [a; b] ;;
   fig <- plot_pie r b a t ;;
   st_plotly_chart fig) (mkState h scr)
  = (Ok tt,
     mkState (h ++ [mkFrame [a; b] (map (fun kv => [fst kv; snd kv]) ser)])
       (scr ++ [PlotlyChart (Pie t ser)])).
Proof.
  intros N. rewrite bind_alloc. unfold set_columns.
  erewrite bind_mutate; [|apply lookup_new|reflexivity].
  rewrite update_new. unfold plot_pie. rewrite bind_bind.
  erewrite bind_deref by apply lookup_new.
  simpl rows. rewrite px_pie_two by exact N. rewrite bind_lift_ok.
  reflexivity.
Qed.


(** ** Sorting *)

Lemma insert_by_perm {A} (leb : A -> A -> bool) x l :
  Permutation (insert_by leb x l) (x :: l).
Proof.
  induction l as [|y l IH]; simpl; [apply Permutation_refl|].
  destruct (leb x y); [apply Permutation_refl|].
  eapply perm_trans; [apply perm_skip, IH|apply perm_swap].
Qed.

Lemma sort_by_perm {A} (leb : A -> A -> bool) l :
  Permutation (sort_by leb l) l.
Proof.
  induction l as [|x l IH]; simpl; [apply perm_nil|].
  eapply perm_trans; [apply insert_by_perm|now apply perm_skip].
Qed.

Lemma sort_by_in {A} (leb : A -> A -> bool) l x :
  In x (sort_by leb l) <-> In x l.
Proof.
  split; apply Permutation_in;
    [apply sort_by_perm|apply Permutation_sym, sort_by_perm].
Qed.

Lemma insert_by_hd {A} (leb : A -> A -> bool) x y l :
  leb y x = true ->
  HdRel (fun a b => leb a b = true) y l ->
  HdRel (fun a b => leb a b = true) y (insert_by leb x l).
Proof.
  intros Hyx H. destruct l as [|z l]; simpl; [now constructor|].
  destruct (leb x z); constructor; auto. now inversion H.
Qed.

Lemma insert_by_sorted {A} (leb : A -> A -> bool) x l :
  (forall y, In y l -> leb x y = false -> leb y x = true) ->
  Sorted (fun a b => leb a b = true) l ->
  Sorted (fun a b => leb a b = true) (insert_by leb x l).
Proof.
  intros T S. induction S as [|y l S IH H]; simpl.
  - repeat constructor.
  - destruct (leb x y) eqn:E.
    + constructor; [now constructor|now constructor].
    + constructor.
      * apply IH. intros z Hz. apply T. now right.
      * apply insert_by_hd; [|exact H]. apply T; [now left|exact E].
Qed.

Lemma sort_by_sorted {A} (leb : A -> A -> bool) l :
  (forall x y, In x l -> In y l -> leb x y = false -> leb y x = true) ->
  Sorted (fun a b => leb a b = true) (sort_by leb l).
Proof.
  induction l as [|x l IH]; simpl; intros T; [constructor|].
  apply insert_by_sorted.
  - intros y Hy. apply T; [now left|right]. now apply sort_by_in in Hy.
  - apply IH. intros a b Ha Hb. apply T; now right.
Qed.

(** ** Counting the values of a column *)

Lemma total_count_bump k acc :
  total_count (bump k acc) = S (total_count acc).
Proof.
  induction acc as [|[k' n] acc IH]; simpl; [reflexivity|].
  destruct (cell_eqb k' k); simpl; [reflexivity|]. rewrite IH. lia.
Qed.

Lemma total_count_fold l : forall acc,
  total_count (fold_left (fun acc k => bump k acc) l acc)
  = (length l + total_count acc)%nat.
Proof.
  induction l as [|x l IH]; simpl; intros acc; [reflexivity|].
  rewrite IH, total_count_bump. lia.
Qed.

Lemma total_count_tally l : total_count (tally l) = length l.
Proof.
  unfold tally. rewrite total_count_fold. simpl. lia.
Qed.

Lemma total_count_perm t t' :
  Permutation t t' -> total_count t = total_count t'.
Proof.
  induction 1; simpl; try lia.
Qed.


Lemma cell_eqb_str_eq x k :
  is_str x = true -> (cell_eqb x k = true <-> x = k).
Proof.
  destruct x; try discriminate. intros _.
  destruct k; unfold cell_eqb; cbn [num_of];
    try (split; [discriminate|intros [= ]]).
  rewrite String.eqb_eq. split; [now intros ->|now intros [= ->]].
Qed.

Lemma cell_eqb_str_neq x k :
  is_str x = true -> x <> k -> cell_eqb x k = false.
Proof.
  intros H N. destruct (cell_eqb x k) eqn:E; [|reflexivity].
  apply cell_eqb_str_eq in E; [contradiction|exact H].
Qed.

Lemma cell_eqb_sym_str x k :
  is_str x = true -> cell_eqb k x = cell_eqb x k.
Proof.
  destruct x; try discriminate. intros _.
  destruct k; unfold cell_eqb; cbn [num_of]; auto.
  apply String.eqb_sym.
Qed.

Lemma cell_eqb_refl_str x : is_str x = true -> cell_eqb x x = true.
Proof.
  intros H. now apply cell_eqb_str_eq.
Qed.

Lemma bump_absent x acc :
  Forall (fun kn => is_str (fst kn) = true) acc ->
  ~ In x (map fst acc) -> bump x acc = acc ++ [(x, 1%nat)].
Proof.
  induction acc as [|[k n] acc IH]; simpl; intros F N; [reflexivity|].
  apply Forall_cons_iff in F. destruct F as [Fk F]. simpl in Fk.
  rewrite cell_eqb_str_neq by tauto. rewrite IH; auto.
Qed.

Lemma bump_present x acc :
  Forall (fun kn => is_str (fst kn) = true) acc ->
  NoDup (map fst acc) -> In x (map fst acc) ->
  exists pre n post,
    acc = pre ++ (x, n) :: post /\ bump x acc = pre ++ (x, S n) :: post /\
    ~ In x (map fst pre) /\ ~ In x (map fst post).
Proof.
  induction acc as [|[k n] acc IH]; simpl; intros F D I; [contradiction|].
  apply Forall_cons_iff in F. destruct F as [Fk F]. simpl in Fk.
  apply NoDup_cons_iff in D. destruct D as [Dk D].
  destruct (cell_eqb k x) eqn:E.
  - apply cell_eqb_str_eq in E; auto. subst k.
    exists [], n, acc. simpl. auto.
  - destruct I as [->|I].
    + rewrite cell_eqb_refl_str in E by auto. discriminate.
    + destruct (IH F D I) as (pre & m & post & -> & -> & P1 & P2).
      exists ((k, n) :: pre), m, post. simpl. repeat split; auto.
      intros [Hk|?]; [|contradiction]. subst k.
      rewrite cell_eqb_refl_str in E by auto. discriminate.
Qed.

Lemma filter_snoc {A} (f : A -> bool) l x :
  filter f (l ++ [x]) = filter f l ++ (if f x then [x] else []).
Proof.
  rewrite filter_app. reflexivity.
Qed.


Lemma mem_cell_in x l :
  is_str x = true -> (mem_cell x l = true <-> In x l).
Proof.
  intros Sx. induction l as [|d l IH]; simpl; [split; [discriminate|tauto]|].
  rewrite orb_true_iff, IH, (cell_eqb_sym_str x d Sx), (cell_eqb_str_eq x d Sx).
  split; intros [?|?]; auto.
Qed.

Lemma filter_none {A} (f : A -> bool) l :
  (forall y, In y l -> f y = false) -> filter f l = [].
Proof.
  induction l as [|y l IH]; simpl; intros H; [reflexivity|].
  rewrite (H y) by now left. apply IH. intros z Hz. apply H. now right.
Qed.

Lemma counted_bump acc seen x :
  is_str x = true -> counted acc seen -> counted (bump x acc) (seen ++ [x]).
Proof.
  intros Sx (F & D & C & K).
  destruct (mem_cell x (map fst acc)) eqn:E.
  - apply mem_cell_in in E; [|exact Sx].
    destruct (bump_present x acc F D E) as (pre & n & post & -> & -> & P1 & P2).
    repeat split.
    + apply Forall_app in F. destruct F as [F1 F2]. apply Forall_app. split; auto.
      inversion F2; subst. constructor; auto.
    + rewrite map_app in *. simpl in *. exact D.
    + apply in_app_or in H. rewrite filter_snoc, length_app.
      destruct H as [H|[H|H]].
      * destruct (C k n0) as [-> _]; [apply in_or_app; now left|].
        rewrite cell_eqb_sym_str, cell_eqb_str_neq; simpl; auto.
        intros <-. apply P1. now apply (in_map fst) in H.
      * injection H as <- <-. destruct (C x n) as [-> _]; [apply in_or_app; right; now left|].
        rewrite cell_eqb_refl_str by auto. simpl. lia.
      * destruct (C k n0) as [-> _]; [apply in_or_app; right; now right|].
        rewrite cell_eqb_sym_str, cell_eqb_str_neq; simpl; auto.
        intros <-. apply P2. now apply (in_map fst) in H.
    + apply in_app_or in H. destruct H as [H|[H|H]].
      * apply (C k n0). apply in_or_app; now left.
      * injection H as <- <-. lia.
      * apply (C k n0). apply in_or_app; right; now right.
    + intros y Hy. rewrite map_app in *. simpl in *.
      apply in_app_or in Hy. destruct Hy as [Hy|[<-|[]]].
      * apply K in Hy. exact Hy.
      * apply in_or_app. right. now left.
  - assert (N : ~ In x (map fst acc)).
    { intros I. apply mem_cell_in in I; [congruence|exact Sx]. }
    rewrite (bump_absent x acc F N). repeat split.
    + apply Forall_app. split; auto.
    + rewrite map_app. simpl.
      apply (Permutation_NoDup (Permutation_cons_append (map fst acc) x)).
      now constructor.
    + apply in_app_or in H. rewrite filter_snoc, length_app.
      destruct H as [H|[H|[]]].
      * destruct (C k n) as [-> _]; [exact H|].
        rewrite cell_eqb_sym_str, cell_eqb_str_neq; simpl; auto.
        intros <-. apply N. now apply (in_map fst) in H.
      * injection H as <- <-. rewrite cell_eqb_refl_str by auto.
        rewrite filter_none; [reflexivity|].
        intros y Hy. apply cell_eqb_str_neq; [exact Sx|].
        intros <-. apply N, K, Hy.
    + apply in_app_or in H. destruct H as [H|[H|[]]].
      * now apply (C k n).
      * injection H as <- <-. lia.
    + intros y Hy. rewrite map_app. simpl. apply in_or_app.
      apply in_app_or in Hy. destruct Hy as [Hy|[<-|[]]]; [left|right]; auto.
      now left.
Qed.

Lemma counted_fold l : forall acc seen,
  forallb is_str l = true -> counted acc seen ->
  counted (fold_left (fun acc k => bump k acc) l acc) (seen ++ l).
Proof.
  induction l as [|x l IH]; simpl; intros acc seen Hl Hc.
  - now rewrite app_nil_r.
  - apply andb_prop in Hl. destruct Hl as [Hx Hl].
    replace (seen ++ x :: l) with ((seen ++ [x]) ++ l)
      by now rewrite <- app_assoc.
    apply IH; [exact Hl|]. now apply counted_bump.
Qed.

Lemma counted_tally l : forallb is_str l = true -> counted (tally l) l.
Proof.
  intros H. apply (counted_fold l [] [] H).
  split; [constructor|]. split; [constructor|].
  split; [intros k n []|intros x []].
Qed.

Lemma dropna_str l : forallb is_str l = true -> dropna l = l.
Proof.
  induction l as [|x l IH]; simpl; [reflexivity|]. intros H.
  apply andb_prop in H. destruct H as [Hx Hl].
  destruct x; try discriminate. simpl. now rewrite IH.
Qed.

Lemma cell_leb_total_str a b :
  is_str a = true -> is_str b = true ->
  cell_leb a b = false -> cell_leb b a = true.
Proof.
  destruct a, b; try discriminate. intros _ _.
  unfold cell_leb; cbn [num_of]. intros H.
  destruct (String.leb_total s s0) as [T|T]; congruence.
Qed.

(** The counts of a text column, as [value_counts] lists them. *)
Lemma value_counts_spec b l :
  forallb is_str l = true ->
  Forall (fun kv => is_str (fst kv) = true) (value_counts b l) /\
  NoDup (map fst (value_counts b l)) /\
  (forall x, In x l -> In x (map fst (value_counts b l))) /\
  (b = false -> forall k v, In (k, v) (value_counts b l) ->
     v = VInt (Z.of_nat (length (filter (cell_eqb k) l)))
     /\ (0 < length (filter (cell_eqb k) l))%nat).
Proof.
  intros H. unfold value_counts. rewrite (dropna_str l H).
  destruct (counted_tally l H) as (F & D & C & K).
  set (srt := sort_by _ (tally l)).
  assert (P : Permutation srt (tally l)) by apply sort_by_perm.
  split; [|split; [|split]].
  - apply Forall_map. simpl.
    eapply Permutation_Forall; [apply Permutation_sym, P|exact F].
  - rewrite map_map. simpl.
    eapply Permutation_NoDup; [apply Permutation_sym, Permutation_map, P|exact D].
  - intros x Hx. rewrite map_map. simpl.
    eapply Permutation_in; [apply Permutation_sym, Permutation_map, P|auto].
  - intros -> k v I. apply in_map_iff in I. destruct I as [[k' n] [E I]].
    simpl in E. injection E as <- <-.
    apply (Permutation_in _ P) in I. destruct (C _ _ I) as [E L].
    rewrite <- E. now split.
Qed.

Lemma sort_index_str (s : series) :
  Forall (fun kv => is_str (fst kv) = true) s ->
  sort_index s = Ok (sort_by by_label s) /\
  Sorted (fun a b => by_label a b = true) (sort_by by_label s).
Proof.
  intros F. split.
  - unfold sort_index, sortable.
    replace (forallb is_str (map fst s)) with true; [reflexivity|].
    symmetry. rewrite forallb_forall. intros x Hx.
    apply in_map_iff in Hx. destruct Hx as [kv [<- I]].
    rewrite Forall_forall in F. now apply F.
  - apply sort_by_sorted. intros x y Hx Hy. rewrite Forall_forall in F.
    unfold by_label. apply cell_leb_total_str; auto.
Qed.

Lemma py_sorted_str l :
  forallb is_str l = true -> py_sorted l = Ok (sort_by cell_leb l).
Proof.
  intros H. unfold py_sorted, sortable. now rewrite H.
Qed.

Lemma unique_fold l : forall acc,
  forallb is_str l = true ->
  (forall x, In x (fold_left (fun acc c => if mem_cell c acc then acc else acc ++ [c]) l acc)
     <-> In x acc \/ In x l).
Proof.
  induction l as [|c l IH]; simpl; intros acc H x; [tauto|].
  apply andb_prop in H. destruct H as [Hc Hl]. rewrite IH by exact Hl.
  destruct (mem_cell c acc) eqn:E.
  - apply mem_cell_in in E; [|exact Hc]. split; [tauto|].
    intros [?|[<-|?]]; auto.
  - rewrite in_app_iff. simpl. tauto.
Qed.

Lemma unique_in l x :
  forallb is_str l = true -> (In x (unique l) <-> In x l).
Proof.
  intros H. unfold unique. rewrite unique_fold by exact H. simpl. tauto.
Qed.

Lemma unique_str l :
  forallb is_str l = true -> forallb is_str (unique l) = true.
Proof.
  intros H. rewrite forallb_forall in *. intros x Hx. apply H.
  apply unique_in; [now apply forallb_forall|exact Hx].
Qed.

Lemma bar_total_normalized (t : list (cell * nat)) (N : nat) :
  bar_total
    (map (fun kn => (fst kn,
                     VFloat (inject_Z (Z.of_nat (snd kn)) /
                             inject_Z (Z.of_nat N)))) t)
  == inject_Z (Z.of_nat (total_count t)) / inject_Z (Z.of_nat N).
Proof.
  induction t as [|[k n] t IH]; simpl.
  - unfold Qdiv. ring.
  - rewrite IH, Nat2Z.inj_add, inject_Z_plus. unfold Qdiv. ring.
Qed.

Lemma value_counts_total l :
  dropna l <> [] -> bar_total (value_counts true l) == 1.
Proof.
  intros N. unfold value_counts.
  set (srt := sort_by _ (tally (dropna l))).
  rewrite bar_total_normalized.
  assert (E : total_count srt = length (dropna l)).
  { unfold srt. rewrite (total_count_perm _ _ (sort_by_perm _ _)).
    apply total_count_tally. }
  rewrite E. apply Qmult_inv_r.
  destruct (dropna l); [congruence|]. simpl length.
  rewrite Nat2Z.inj_succ. unfold Qeq. simpl. lia.
Qed.



(** ** Means of the nutrition columns *)

Lemma col_indices_lookup names cols : forall idx n k,
  col_indices names cols = Ok idx -> col_index n names = Some k ->
  exists i, nth_error idx k = Some i /\ col_index n cols = Some i.
Proof.
  induction names as [|m names IH]; simpl; intros idx n k Hi Hk;
    [discriminate|].
  destruct (col_index m cols) as [i0|] eqn:Em; [|discriminate].
  destruct (col_indices names cols) as [rest|] eqn:Er; [|discriminate].
  simpl in Hi. injection Hi as <-.
  destruct (String.eqb m n) eqn:E.
  - apply String.eqb_eq in E. subst m. injection Hk as <-.
    exists i0. now split.
  - destruct (col_index n names) as [k'|] eqn:Ek; [|discriminate].
    injection Hk as <-. destruct (IH rest n k' eq_refl Ek) as [i [Hn Hc]].
    exists i. now split.
Qed.

Lemma select_cols_column names V sub n k :
  select_cols names V = Ok sub -> col_index n names = Some k ->
  column n sub = column n V.
Proof.
  unfold select_cols. intros Hs Hk.
  destruct (col_indices names (columns V)) as [idx|] eqn:Ei; [|discriminate].
  simpl in Hs. injection Hs as <-.
  destruct (col_indices_lookup _ _ _ _ _ Ei Hk) as [i [Hn Hc]].
  unfold column. simpl. rewrite Hk, Hc. f_equal. rewrite map_map.
  apply map_ext. intros r. unfold cell_at at 1.
  apply nth_error_nth. rewrite nth_error_map, Hn. reflexivity.
Qed.

Lemma col_indices_total names cols :
  (forall n, In n names -> col_index n cols <> None) ->
  exists idx, col_indices names cols = Ok idx.
Proof.
  induction names as [|m names IH]; simpl; intros H; [eauto|].
  destruct (col_index m cols) as [i0|] eqn:E;
    [|now elim (H m (or_introl eq_refl))].
  destruct IH as [idx ->]; [intros n Hn; apply H; now right|].
  simpl. eauto.
Qed.

Lemma numeric_col_present n df :
  numeric_col n df = true -> col_index n (columns df) <> None.
Proof.
  unfold numeric_col, column. now destruct (col_index n (columns df)).
Qed.

Lemma col_index_self n names :
  In n names -> exists k, col_index n names = Some k.
Proof.
  induction names as [|m names IH]; simpl; intros H; [contradiction|].
  destruct (String.eqb m n) eqn:E; [eauto|].
  destruct H as [->|H]; [now rewrite String.eqb_refl in E|].
  destruct (IH H) as [k ->]. eauto.
Qed.

Lemma means_of_numeric names df :
  (forall n, In n names -> numeric_col n df = true) ->
  exists avg, means_of names df = Ok avg.
Proof.
  induction names as [|m names IH]; simpl; intros H; [eauto|].
  pose proof (H m (or_introl eq_refl)) as Hm. unfold numeric_col in Hm.
  destruct (column m df) as [c|]; [|discriminate]. simpl.
  destruct (col_mean_numeric c Hm) as [v ->]. simpl.
  destruct IH as [rest ->]; [intros n Hn; apply H; now right|].
  simpl. eauto.
Qed.

Lemma frame_mean_numeric names V :
  forallb (fun n => numeric_col n V) names = true ->
  exists sub avg, select_cols names V = Ok sub /\ frame_mean sub = Ok avg.
Proof.
  intros H. rewrite forallb_forall in H.
  destruct (col_indices_total names (columns V)) as [idx Hi].
  { intros n Hn. now apply numeric_col_present, H. }
  assert (Hs : select_cols names V
               = Ok (mkFrame names
                       (map (fun r => map (fun i => cell_at i r) idx) (rows V)))).
  { unfold select_cols. now rewrite Hi. }
  destruct (means_of_numeric names
              (mkFrame names
                 (map (fun r => map (fun i => cell_at i r) idx) (rows V))))
    as [avg Ha].
  { intros n Hn. destruct (col_index_self n names Hn) as [k Hk].
    unfold numeric_col. rewrite (select_cols_column _ _ _ _ _ Hs Hk).
    now apply H. }
  eauto.
Qed.

(** ** What each part of the script does on a well-formed table *)

Lemma page_intro_run h scr :
  page_intro (mkState h scr)
  = (Ok tt,
     mkState h (scr ++ [Title "Tasty Bites - Recipe Segmentation Dashboard";
                        Markdown intro_text])).
Proof.
  unfold page_intro, st_title, st_markdown. rewrite bind_emit, run_emit.
  now rewrite <- app_assoc.
Qed.

Lemma labels_str_column T :
  labels_str T = true ->
  exists labels, column "Cluster" T = Ok labels /\ forallb is_str labels = true.
Proof.
  unfold labels_str. destruct (column "Cluster" T); [eauto|discriminate].
Qed.

Lemma px_bar_series_items (s : series) t :
  s <> [] -> px_bar_series s t = Ok (Bar t s).
Proof.
  intros N. destruct s as [|kv s]; [congruence|]. unfold px_bar_series.
  do 2 f_equal. clear N. generalize (kv :: s). clear kv s. intros s.
  induction s as [|[k v] s IH]; simpl; [reflexivity|]. now rewrite IH.
Qed.

Lemma sort_by_nil {A} (leb : A -> A -> bool) l : sort_by leb l = [] -> l = [].
Proof.
  intros E. pose proof (Permutation_length (sort_by_perm leb l)) as L.
  rewrite E in L. now destruct l.
Qed.

Lemma cluster_counts_nonempty labels :
  forallb is_str labels = true -> labels <> [] ->
  sort_by by_label (value_counts false labels) <> [].
Proof.
  intros S N E. apply sort_by_nil in E.
  destruct (value_counts_spec false labels S) as (_ & _ & K & _).
  destruct labels as [|x l]; [congruence|].
  pose proof (K x (or_introl eq_refl)) as I. rewrite E in I. destruct I.
Qed.

Lemma cluster_summary_run h scr df T labels :
  nth_error h df = Some T -> column "Cluster" T = Ok labels ->
  forallb is_str labels = true -> labels <> [] ->
  cluster_summary df (mkState h scr)
  = (Ok tt,
     mkState h
       (scr ++ [SidebarHeader "Visualization Options";
                SidebarSubheader "Cluster Summary";
                SidebarWrite "Number of Recipes per Cluster:";
                SidebarDataframe
                  (mkNamed "Recipes"
                     (sort_by by_label (value_counts false labels)));
                PlotlyChart
                  (Bar "Distribution of Recipes by Cluster"
                     (sort_by by_label (value_counts false labels)))])).
Proof.
  intros L C S N. unfold cluster_summary. autounfold with run_defs.
  rewrite !bind_emit, bind_bind, (bind_deref _ _ _ _ _ L), C, bind_lift_ok.
  destruct (value_counts_spec false labels S) as (F & _).
  destruct (sort_index_str _ F) as [-> _].
  rewrite bind_lift_ok, !bind_emit.
  rewrite (px_bar_series_items _ _ (cluster_counts_nonempty labels S N)).
  rewrite bind_lift_ok, run_emit. unfold to_frame.
  now rewrite <- !app_assoc.
Qed.

(** On a table without any row the counts are empty: the sidebar shows
    an empty table and the bar chart of line 40 raises. *)
Lemma cluster_summary_empty h scr df T :
  nth_error h df = Some T -> column "Cluster" T = Ok [] ->
  cluster_summary df (mkState h scr)
  = (Raise ValueError,
     mkState h
       (scr ++ [SidebarHeader "Visualization Options";
                SidebarSubheader "Cluster Summary";
                SidebarWrite "Number of Recipes per Cluster:";
                SidebarDataframe (mkNamed "Recipes" [])])).
Proof.
  intros L C. unfold cluster_summary. autounfold with run_defs.
  rewrite !bind_emit, bind_bind, (bind_deref _ _ _ _ _ L), C, bind_lift_ok.
  change (sort_index (value_counts false [])) with (@Ok series []).
  rewrite bind_lift_ok, !bind_emit. unfold px_bar_series.
  rewrite bind_lift_raise. unfold to_frame. now rewrite <- !app_assoc.
Qed.


Lemma cluster_selector_run h scr df T labels choice :
  nth_error h df = Some T -> column "Cluster" T = Ok labels ->
  forallb is_str labels = true ->
  let options := VStr "All" :: sort_by cell_leb (unique labels) in
  let i := if (choice <? length options)%nat then choice else O in
  cluster_selector df choice (mkState h scr)
  = (Ok (nth i options VNaN),
     mkState h
       (scr ++ [Header "Detailed Cluster Analysis";
                SidebarSelectbox
                  "Select a Cluster to view its characteristics:"
                  (map format_func options) i])).
Proof.
  intros L C S options i. unfold cluster_selector. autounfold with run_defs.
  rewrite bind_emit, bind_bind, (bind_deref _ _ _ _ _ L), C, bind_lift_ok.
  rewrite (py_sorted_str _ (unique_str _ S)), bind_lift_ok, bind_emit.
  unfold ret. now rewrite <- app_assoc.
Qed.

Lemma select_view_all h scr df sel :
  cell_eqb sel (VStr "All") = true ->
  select_view df sel (mkState h scr)
  = (Ok (df, " (All Clusters)"), mkState h scr).
Proof.
  intros E. unfold select_view. now rewrite E.
Qed.

Lemma select_view_one h scr df T labels sel :
  cell_eqb sel (VStr "All") = false ->
  nth_error h df = Some T -> column "Cluster" T = Ok labels ->
  select_view df sel (mkState h scr)
  = (Ok (length h, " (Cluster " +++ py_str sel +++ ")"),
     mkState (h ++ [mask_select (series_eq labels sel) T]) scr).
Proof.
  intros E L C. unfold select_view. rewrite E. autounfold with run_defs.
  rewrite bind_bind, (bind_deref _ _ _ _ _ L), C, bind_lift_ok.
  rewrite (bind_deref _ _ _ _ _ L), bind_alloc. reflexivity.
Qed.

Lemma avg_numeric_features_run h scr sel disp V sub avg :
  nth_error h disp = Some V ->
  select_cols nutrition_columns V = Ok sub -> frame_mean sub = Ok avg ->
  avg_numeric_features sel disp (mkState h scr) = (Ok avg, mkState h scr).
Proof.
  intros L S A.
  assert (E : mean_of disp nutrition_columns (mkState h scr)
              = (Ok avg, mkState h scr)).
  { unfold mean_of. rewrite (bind_deref _ _ _ _ _ L), S, bind_lift_ok, A.
    reflexivity. }
  unfold avg_numeric_features.
  now destruct (cell_eqb sel (VStr "All")).
Qed.

Lemma bind_run {A B} (m : M A) (k : A -> M B) a s s' :
  m s = (Ok a, s') -> bind m k s = k a s'.
Proof.
  intros E. unfold bind. now rewrite E.
Qed.

Lemma nutrition_section_run h scr sel disp V sfx :
  nth_error h disp = Some V ->
  forallb (fun n => numeric_col n V) nutrition_columns = true ->
  exists avg fs,
    nutrition_section sel disp sfx (mkState h scr)
    = (Ok tt,
       mkState (h ++ fs)
         (scr ++ [Subheader ("Average Nutritional Values" +++ sfx);
                  PlotlyChart
                    (Bar ("Average Nutritional Values" +++ sfx) avg)])).
Proof.
  intros L N. destruct (frame_mean_numeric _ _ N) as (sub & avg & S & A).
  exists avg. eexists. unfold nutrition_section, st_subheader.
  rewrite bind_emit.
  rewrite (bind_run _ _ _ _ _ (avg_numeric_features_run _ _ sel _ _ _ _ L S A)).
  rewrite series_chart_run by discriminate. now rewrite <- app_assoc.
Qed.

Lemma category_section_run h scr disp V cats sfx :
  nth_error h disp = Some V -> column "category" V = Ok cats ->
  exists fs,
    category_section disp sfx (mkState h scr)
    = (Ok tt,
       mkState (h ++ fs)
         (scr ++ [Subheader ("Category Distribution" +++ sfx);
                  PlotlyChart
                    (Bar ("Proportion of Recipe Categories" +++ sfx)
                       (value_counts true cats))])).
Proof.
  intros L C. eexists. unfold category_section, st_subheader, getitem.
  rewrite bind_emit, bind_bind, (bind_deref _ _ _ _ _ L), C, bind_lift_ok.
  rewrite series_chart_run by discriminate. now rewrite <- app_assoc.
Qed.

Lemma in_columns_run {B} name r df (k : bool -> M B) h scr :
  nth_error h r = Some df ->
  bind (in_columns name r) k (mkState h scr) = k (has_col name df) (mkState h scr).
Proof.
  intros L. unfold in_columns. now rewrite bind_bind, (bind_deref _ _ _ _ _ L).
Qed.

Lemma getitem_run {B} name r df c (k : list cell -> M B) h scr :
  nth_error h r = Some df -> column name df = Ok c ->
  bind (getitem r name) k (mkState h scr) = k c (mkState h scr).
Proof.
  intros L C. unfold getitem.
  now rewrite bind_bind, (bind_deref _ _ _ _ _ L), C, bind_lift_ok.
Qed.

(** The traffic section when the table has a [high_traffic] column. *)
Lemma traffic_section_column h scr df disp T V traffic sfx :
  nth_error h df = Some T -> nth_error h disp = Some V ->
  has_col "high_traffic" T = true -> column "high_traffic" V = Ok traffic ->
  exists fs,
    traffic_section df disp sfx (mkState h scr)
    = (Ok tt,
       mkState (h ++ fs)
         (scr ++ [Subheader ("High Traffic Distribution" +++ sfx);
                  PlotlyChart
                    (Pie ("Proportion of Recipe Traffic" +++ sfx)
                       (value_counts true traffic))])).
Proof.
  intros L LV H C. eexists. unfold traffic_section, st_subheader.
  rewrite bind_emit, (in_columns_run _ _ _ _ _ _ L), H.
  rewrite (getitem_run _ _ _ _ _ _ _ LV C).
  rewrite series_pie_run by discriminate. now rewrite <- app_assoc.
Qed.

(** The traffic section when the table has neither a [high_traffic] nor
    a [high_traffic_High] column. *)
Lemma traffic_section_none h scr df disp T sfx :
  nth_error h df = Some T ->
  has_col "high_traffic" T = false -> has_col "high_traffic_High" T = false ->
  traffic_section df disp sfx (mkState h scr)
  = (Ok tt,
     mkState h
       (scr ++ [Subheader ("High Traffic Distribution" +++ sfx);
                Info traffic_notice])).
Proof.
  intros L H1 H2. unfold traffic_section, st_subheader, st_info.
  rewrite bind_emit, (in_columns_run _ _ _ _ _ _ L), H1.
  rewrite bind_emit, (in_columns_run _ _ _ _ _ _ L), H2.
  unfold ret. now rewrite <- app_assoc.
Qed.


(** The traffic section when only the one-hot columns are there. *)
Lemma traffic_section_onehot h scr df disp T V high hc nc sfx :
  nth_error h df = Some T -> nth_error h disp = Some V ->
  has_col "high_traffic" T = false -> has_col "high_traffic_High" T = true ->
  column "high_traffic_High" V = Ok high -> col_sum high = Ok hc ->
  (if has_col "high_traffic_No_Traffic_Info" T
   then rbind (column "high_traffic_No_Traffic_Info" V) col_sum
   else sub_from (Z.of_nat (length (rows V))) hc) = Ok nc ->
  exists fs,
    traffic_section df disp sfx (mkState h scr)
    = (Ok tt,
       mkState (h ++ fs)
         (scr ++ [Subheader ("High Traffic Distribution" +++ sfx);
                  Info traffic_notice;
                  PlotlyChart
                    (Pie ("Proportion of Recipe Traffic" +++ sfx)
                       [(VStr "High Traffic", hc);
                        (VStr "No Traffic Info", nc)])])).
Proof.
  intros L LV H1 H2 C S N. eexists.
  unfold traffic_section, st_subheader, st_info.
  rewrite bind_emit, (in_columns_run _ _ _ _ _ _ L), H1.
  rewrite bind_emit, (in_columns_run _ _ _ _ _ _ L), H2.
  rewrite (getitem_run _ _ _ _ _ _ _ LV C), S, bind_lift_ok.
  rewrite (in_columns_run _ _ _ _ _ _ L).
  assert (E : forall B (k : cell -> M B) st,
            st = mkState h (scr ++ [Subheader ("High Traffic Distribution" +++ sfx)]
                              ++ [Info traffic_notice]) ->
            bind (if has_col "high_traffic_No_Traffic_Info" T
                  then other <- getitem disp "high_traffic_No_Traffic_Info" ;;
                       lift (col_sum other)
                  else n <- len disp ;; lift (sub_from n hc)) k st
            = k nc st).
  { intros B k st ->. destruct (has_col "high_traffic_No_Traffic_Info" T).
    - destruct (column "high_traffic_No_Traffic_Info" V) as [oc|] eqn:Eo;
        [|discriminate]. simpl in N.
      rewrite bind_bind, (getitem_run _ _ _ _ _ _ _ LV Eo), N.
      now rewrite bind_lift_ok.
    - unfold len.
      rewrite !bind_bind, (bind_deref _ _ _ _ _ LV), bind_ret, N.
      now rewrite bind_lift_ok. }
  rewrite <- app_assoc. rewrite E by reflexivity.
  rewrite bind_alloc. unfold plot_pie.
  rewrite bind_bind. erewrite bind_deref by apply lookup_new.
  change (mkFrame ["Traffic Type"; "Count"]
            [[VStr "High Traffic"; hc]; [VStr "No Traffic Info"; nc]])
    with (mkFrame ["Traffic Type"; "Count"]
            (map (fun kv : cell * cell => [fst kv; snd kv])
               [(VStr "High Traffic", hc); (VStr "No Traffic Info", nc)])).
  rewrite px_pie_two by discriminate. rewrite bind_lift_ok.
  unfold st_plotly_chart. rewrite run_emit. now rewrite <- !app_assoc.
Qed.

Lemma plot_column_index name df i :
  col_index name (columns df) = Some i ->
  plot_column name df = Ok (map (cell_at i) (rows df)).
Proof.
  intros H. unfold plot_column, column. now rewrite H.
Qed.

Lemma hover_columns_total names df :
  (forall n, In n names -> has_col n df = true) ->
  exists hs, hover_columns names df = Ok hs.
Proof.
  induction names as [|m names IH]; simpl; intros H; [eauto|].
  destruct (has_col_index m df (H m (or_introl eq_refl))) as [i Hi].
  rewrite (plot_column_index _ _ _ Hi). simpl.
  destruct IH as [hs ->]; [intros n Hn; apply H; now right|]. simpl. eauto.
Qed.

Lemma scatter_points_rows (fx fy fc : list cell -> cell) hs rs : forall k,
  let pts := scatter_points k (map fx rs) (map fy rs) (map fc rs) hs in
  length pts = length rs /\
  forall i row, nth_error rs i = Some row ->
    nth_error pts i = Some (mkPoint (fx row) (fy row) (fc row)
                              (hover_at hs (k + i))).
Proof.
  induction rs as [|r rs IH]; intros k; simpl.
  - split; [reflexivity|]. intros [|i] row; discriminate.
  - destruct (IH (S k)) as [Hl Hn]. split; [now rewrite Hl|].
    intros [|i] row; simpl.
    + intros [= <-]. now rewrite Nat.add_0_r.
    + intros Hr. rewrite (Hn i row Hr). now rewrite Nat.add_succ_r.
Qed.

(** [px.scatter] on a table that has the columns it is asked for: one
    point for every row, in the order of the rows. *)
Lemma px_scatter_rows T x y c hover ttl ix iy ic :
  col_index x (columns T) = Some ix -> col_index y (columns T) = Some iy ->
  col_index c (columns T) = Some ic ->
  (forall n, In n hover -> has_col n T = true) ->
  exists pts,
    px_scatter T x y c hover ttl = Ok (Scatter ttl pts) /\
    length pts = length (rows T) /\
    forall i row, nth_error (rows T) i = Some row ->
      exists p, nth_error pts i = Some p /\
        point_x p = cell_at ix row /\ point_y p = cell_at iy row /\
        point_color p = cell_at ic row.
Proof.
  intros Hx Hy Hc Hh. unfold px_scatter.
  rewrite (plot_column_index _ _ _ Hx), (plot_column_index _ _ _ Hy),
    (plot_column_index _ _ _ Hc). simpl.
  destruct (hover_columns_total hover T Hh) as [hs ->]. simpl.
  destruct (scatter_points_rows (cell_at ix) (cell_at iy) (cell_at ic)
              hs (rows T) O) as [Hl Hn].
  eexists. split; [reflexivity|]. split; [exact Hl|].
  intros i row Hr. eexists. split; [apply (Hn i row Hr)|]. now simpl.
Qed.

Lemma pca_section_scatter h scr df T fig :
  nth_error h df = Some T ->
  has_col "PC1" T = true -> has_col "PC2" T = true ->
  px_scatter T "PC1" "PC2" "Cluster"
    ["calories"; "protein"; "category"; "servings_numeric"]
    "Recipe Clusters Reduced with PCA" = Ok fig ->
  pca_section df (mkState h scr)
  = (Ok tt,
     mkState h
       (scr ++ [Header " Cluster Visualization (PCA)"; Markdown pca_text;
                PlotlyChart fig])).
Proof.
  intros L H1 H2 F. unfold pca_section, st_header, st_markdown.
  rewrite !bind_emit, (in_columns_run _ _ _ _ _ _ L), H1.
  rewrite (in_columns_run _ _ _ _ _ _ L), H2.
  unfold plot_scatter. rewrite bind_bind, (bind_deref _ _ _ _ _ L), F.
  rewrite bind_lift_ok. unfold st_plotly_chart. rewrite run_emit.
  now rewrite <- !app_assoc.
Qed.

Lemma pca_section_missing h scr df T :
  nth_error h df = Some T ->
  has_col "PC1" T && has_col "PC2" T = false ->
  pca_section df (mkState h scr)
  = (Ok tt,
     mkState h
       (scr ++ [Header " Cluster Visualization (PCA)"; Markdown pca_text;
                Warning pca_warning;
                Write "Unique values in high_traffic for current display_data:"])).
Proof.
  intros L H. unfold pca_section, st_header, st_markdown.
  rewrite !bind_emit, (in_columns_run _ _ _ _ _ _ L).
  assert (E : forall B (k : bool -> M B) st,
            st = mkState h ((scr ++ [Header " Cluster Visualization (PCA)"])
                              ++ [Markdown pca_text]) ->
            bind (if has_col "PC1" T then in_columns "PC2" df else ret false)
              k st = k false st).
  { intros B k st ->. destruct (has_col "PC1" T); simpl in H.
    - now rewrite (in_columns_run _ _ _ _ _ _ L), H.
    - reflexivity. }
  rewrite E by reflexivity. unfold st_warning, st_write.
  rewrite bind_emit, run_emit. now rewrite <- !app_assoc.
Qed.

Lemma traffic_dump_column h scr disp V traffic :
  nth_error h disp = Some V -> column "high_traffic" V = Ok traffic ->
  traffic_dump disp (mkState h scr)
  = (Ok tt, mkState h (scr ++ [WriteSeries (value_counts false traffic)])).
Proof.
  intros L C. unfold traffic_dump.
  now rewrite (getitem_run _ _ _ _ _ _ _ L C).
Qed.

Lemma traffic_dump_missing h scr disp V :
  nth_error h disp = Some V -> has_col "high_traffic" V = false ->
  traffic_dump disp (mkState h scr)
  = (Raise (KeyError "high_traffic"), mkState h scr).
Proof.
  intros L H. unfold traffic_dump, getitem.
  rewrite bind_bind, (bind_deref _ _ _ _ _ L), (column_missing _ _ H).
  reflexivity.
Qed.


(** ** A whole run on a well-formed table *)

Lemma schema_ok_parts T :
  schema_ok T = true ->
  labels_str T = true /\
  forallb (fun n => numeric_col n T) nutrition_columns = true /\
  has_col "category" T = true /\
  optional_numeric "high_traffic_High" T = true /\
  optional_numeric "high_traffic_No_Traffic_Info" T = true.
Proof.
  unfold schema_ok. rewrite !andb_true_iff. tauto.
Qed.

Lemma mask_rows_incl rs : forall mask, incl (mask_rows mask rs) rs.
Proof.
  induction rs as [|r rs IH]; intros [|b mask]; simpl;
    try (intros x []).
  destruct b; [apply incl_cons; [now left|]|]; apply incl_tl, IH.
Qed.

Lemma view_of_refl T : view_of T T.
Proof.
  split; [reflexivity|apply incl_refl].
Qed.

Lemma view_of_mask T mask : view_of T (mask_select mask T).
Proof.
  split; [reflexivity|apply mask_rows_incl].
Qed.

Lemma view_column name T V i :
  view_of T V -> col_index name (columns T) = Some i ->
  column name V = Ok (map (cell_at i) (rows V)).
Proof.
  intros [C _] H. unfold column. now rewrite C, H.
Qed.

Lemma view_numeric names T V :
  view_of T V ->
  forallb (fun n => numeric_col n T) names = true ->
  forallb (fun n => numeric_col n V) names = true.
Proof.
  intros [C I] H. rewrite forallb_forall in *. intros n Hn.
  apply (numeric_col_view n V T C I). now apply H.
Qed.

Lemma select_view_ok h scr df T sel :
  nth_error h df = Some T -> labels_str T = true ->
  exists disp V sfx fs,
    select_view df sel (mkState h scr) = (Ok (disp, sfx), mkState (h ++ fs) scr)
    /\ nth_error (h ++ fs) disp = Some V /\ view_of T V.
Proof.
  intros L S. destruct (labels_str_column T S) as (labels & C & _).
  destruct (cell_eqb sel (VStr "All")) eqn:E.
  - exists df, T, " (All Clusters)", []. rewrite app_nil_r.
    split; [now apply select_view_all|]. split; [exact L|apply view_of_refl].
  - exists (length h), (mask_select (series_eq labels sel) T).
    do 2 eexists. split; [now apply (select_view_one h scr df T labels)|].
    split; [apply lookup_new|apply view_of_mask].
Qed.

Lemma optional_numeric_col name T V c :
  view_of T V -> optional_numeric name T = true -> has_col name T = true ->
  column name V = Ok c ->
  forallb (fun x => is_number x || is_nan x) c = true.
Proof.
  intros [C I] O H E. unfold optional_numeric in O. rewrite H in O.
  simpl in O. pose proof (numeric_col_view name V T C I O) as N.
  unfold numeric_col in N. now rewrite E in N.
Qed.

Lemma sub_from_number n v :
  is_number v = true -> exists w, sub_from n v = Ok w.
Proof.
  destruct v; simpl; try discriminate; eauto.
Qed.

Lemma traffic_section_ok h scr df disp T V sfx :
  nth_error h df = Some T -> nth_error h disp = Some V -> view_of T V ->
  optional_numeric "high_traffic_High" T = true ->
  optional_numeric "high_traffic_No_Traffic_Info" T = true ->
  exists fs out,
    traffic_section df disp sfx (mkState h scr)
    = (Ok tt, mkState (h ++ fs) (scr ++ out))
    /\ scatter_charts out = [].
Proof.
  intros L LV W O1 O2.
  destruct (has_col "high_traffic" T) eqn:H1.
  - destruct (has_col_index _ _ H1) as [i Hi].
    destruct (traffic_section_column h scr df disp T V _ sfx L LV H1
                (view_column _ _ _ _ W Hi)) as [fs E].
    exists fs. eexists. split; [exact E|reflexivity].
  - destruct (has_col "high_traffic_High" T) eqn:H2.
    + destruct (has_col_index _ _ H2) as [i Hi].
      pose proof (view_column _ _ _ _ W Hi) as C.
      destruct (col_sum_numeric _ (optional_numeric_col _ _ _ _ W O1 H2 C))
        as (hc & S & Nh).
      assert (N : exists nc,
                (if has_col "high_traffic_No_Traffic_Info" T
                 then rbind (column "high_traffic_No_Traffic_Info" V) col_sum
                 else sub_from (Z.of_nat (length (rows V))) hc) = Ok nc).
      { destruct (has_col "high_traffic_No_Traffic_Info" T) eqn:H3.
        - destruct (has_col_index _ _ H3) as [j Hj].
          pose proof (view_column _ _ _ _ W Hj) as Cj. rewrite Cj. simpl.
          destruct (col_sum_numeric _
                      (optional_numeric_col _ _ _ _ W O2 H3 Cj))
            as (nc & -> & _). eauto.
        - now apply sub_from_number. }
      destruct N as [nc N].
      destruct (traffic_section_onehot h scr df disp T V _ hc nc sfx
                  L LV H1 H2 C S N) as [fs E].
      exists fs. eexists. split; [exact E|reflexivity].
    + exists []. eexists. rewrite app_nil_r.
      split; [apply (traffic_section_none h scr df disp T sfx L H1 H2)|].
      reflexivity.
Qed.

Lemma value_at_index T name i row :
  col_index name (columns T) = Some i -> value_at T name row = cell_at i row.
Proof.
  intros H. unfold value_at. now rewrite H.
Qed.

Lemma cluster_of_index T i row :
  col_index "Cluster" (columns T) = Some i -> cluster_of T row = cell_at i row.
Proof.
  apply value_at_index.
Qed.

Lemma pca_section_ok h scr df T :
  nth_error h df = Some T -> labels_str T = true ->
  forallb (fun n => numeric_col n T) nutrition_columns = true ->
  has_col "category" T = true ->
  exists out,
    pca_section df (mkState h scr) = (Ok tt, mkState h (scr ++ out))
    /\ pca_shown T out.
Proof.
  intros L S N C.
  destruct (has_col "PC1" T && has_col "PC2" T) eqn:E.
  - apply andb_prop in E. destruct E as [H1 H2].
    destruct (has_col_index _ _ H1) as [i1 I1].
    destruct (has_col_index _ _ H2) as [i2 I2].
    assert (HC : has_col "Cluster" T = true).
    { unfold labels_str, column in S. unfold has_col.
      now destruct (col_index "Cluster" (columns T)). }
    destruct (has_col_index _ _ HC) as [ic IC].
    destruct (px_scatter_rows T "PC1" "PC2" "Cluster"
                ["calories"; "protein"; "category"; "servings_numeric"]
                "Recipe Clusters Reduced with PCA" i1 i2 ic I1 I2 IC)
      as (pts & F & Hl & Hp).
    { rewrite forallb_forall in N. intros n [<-|[<-|[<-|[<-|[]]]]]; auto;
        unfold has_col;
        match goal with
        | |- context [col_index ?c _] =>
            pose proof (numeric_col_present c T (N c ltac:(simpl; tauto)));
            now destruct (col_index c (columns T))
        end. }
    eexists. split; [apply (pca_section_scatter h scr df T _ L H1 H2 F)|].
    split; [|rewrite H1, H2; discriminate].
    intros _. exists pts. split; [reflexivity|]. split; [exact Hl|].
    intros i row Hr. destruct (Hp i row Hr) as (p & P1 & P2 & P3 & P4).
    exists p. split; [exact P1|].
    now rewrite (value_at_index _ _ _ _ I1), (value_at_index _ _ _ _ I2),
      (cluster_of_index _ _ _ IC).
  - eexists. split; [apply (pca_section_missing h scr df T L E)|].
    split; [intros X; congruence|]. intros _. split; [reflexivity|].
    simpl. tauto.
Qed.


Lemma traffic_dump_ok h scr disp T V :
  nth_error h disp = Some V -> view_of T V ->
  exists out,
    traffic_dump disp (mkState h scr)
    = (if has_col "high_traffic" T then Ok tt
       else Raise (KeyError "high_traffic"),
       mkState h (scr ++ out))
    /\ scatter_charts out = [].
Proof.
  intros L W. destruct (has_col "high_traffic" T) eqn:H.
  - destruct (has_col_index _ _ H) as [i Hi]. eexists.
    split; [apply (traffic_dump_column h scr disp V _ L
                     (view_column _ _ _ _ W Hi))|reflexivity].
  - exists []. rewrite app_nil_r. split; [|reflexivity].
    apply (traffic_dump_missing h scr disp V L).
    destruct W as [C _]. now rewrite (has_col_same_columns _ V T C).
Qed.

Lemma scatter_charts_app a b :
  scatter_charts (a ++ b) = scatter_charts a ++ scatter_charts b.
Proof.
  apply flat_map_app.
Qed.

Lemma app4 {A} (h a b c d : list A) :
  (((h ++ a) ++ b) ++ c) ++ d = h ++ a ++ b ++ c ++ d.
Proof.
  now rewrite <- !app_assoc.
Qed.

Lemma app8 {A} (s a b c d e o3 o4 o5 : list A) :
  (((((((s ++ a) ++ b) ++ c) ++ d) ++ e) ++ o3) ++ o4) ++ o5
  = s ++ (a ++ b ++ c ++ d ++ e ++ o3) ++ o4 ++ o5.
Proof.
  now rewrite <- !app_assoc.
Qed.

Lemma labels_nonempty T labels :
  column "Cluster" T = Ok labels -> rows T <> [] -> labels <> [].
Proof.
  unfold column. destruct (col_index "Cluster" (columns T)); [|discriminate].
  intros [= <-] N E. apply map_eq_nil in E. contradiction.
Qed.

Lemma labels_empty T labels :
  column "Cluster" T = Ok labels -> rows T = [] -> labels = [].
Proof.
  unfold column. destruct (col_index "Cluster" (columns T)); [|discriminate].
  intros [= <-] ->. reflexivity.
Qed.

(** A run on a table that meets the input contract and has a row goes
    through every section; only the last statement can raise. *)
Lemma render_run h scr df T choice :
  nth_error h df = Some T -> schema_ok T = true -> rows T <> [] ->
  exists fs front pca back,
    render df choice (mkState h scr)
    = (if has_col "high_traffic" T then Ok tt
       else Raise (KeyError "high_traffic"),
       mkState (h ++ fs) (scr ++ front ++ pca ++ back))
    /\ scatter_charts front = [] /\ pca_shown T pca
    /\ scatter_charts back = [].
Proof.
  intros L OK NE. destruct (schema_ok_parts T OK) as (S & N & C & O1 & O2).
  destruct (labels_str_column T S) as (labels & CL & SL).
  pose proof (labels_nonempty T labels CL NE) as LN.
  unfold render.
  rewrite (bind_run _ _ _ _ _ (page_intro_run h scr)).
  rewrite (bind_run _ _ _ _ _
             (cluster_summary_run h _ df T labels L CL SL LN)).
  rewrite (bind_run _ _ _ _ _
             (cluster_selector_run h _ df T labels choice L CL SL)).
  set (sel := nth _ _ VNaN).
  match goal with |- context [bind (select_view df sel) _ (mkState h ?p)] =>
    destruct (select_view_ok h p df T sel L S)
      as (disp & V & sfx & fs0 & E0 & LV & W)
  end.
  rewrite (bind_run _ _ _ _ _ E0). cbn [fst snd].
  pose proof (lookup_old h fs0 df T L) as L0.
  match goal with
  | |- context [bind (nutrition_section sel disp sfx) _ (mkState ?g ?p)] =>
    destruct (nutrition_section_run g p sel disp V sfx LV
                (view_numeric _ _ _ W N)) as (avg & fs1 & E1)
  end.
  rewrite (bind_run _ _ _ _ _ E1).
  pose proof (lookup_old _ fs1 _ _ L0) as L1.
  pose proof (lookup_old _ fs1 _ _ LV) as LV1.
  destruct (has_col_index _ _ C) as [ic Hic].
  match goal with
  | |- context [bind (category_section disp sfx) _ (mkState ?g ?p)] =>
    destruct (category_section_run g p disp V _ sfx LV1
                (view_column _ _ _ _ W Hic)) as (fs2 & E2)
  end.
  rewrite (bind_run _ _ _ _ _ E2).
  pose proof (lookup_old _ fs2 _ _ L1) as L2.
  pose proof (lookup_old _ fs2 _ _ LV1) as LV2.
  match goal with
  | |- context [bind (traffic_section df disp sfx) _ (mkState ?g ?p)] =>
    destruct (traffic_section_ok g p df disp T V sfx L2 LV2 W O1 O2)
      as (fs3 & out3 & E3 & X3)
  end.
  rewrite (bind_run _ _ _ _ _ E3).
  pose proof (lookup_old _ fs3 _ _ L2) as L3.
  pose proof (lookup_old _ fs3 _ _ LV2) as LV3.
  match goal with
  | |- context [bind (pca_section df) _ (mkState ?g ?p)] =>
    destruct (pca_section_ok g p df T L3 S N C) as (out4 & E4 & X4)
  end.
  rewrite (bind_run _ _ _ _ _ E4).
  match goal with |- context [traffic_dump disp (mkState ?g ?p)] =>
    destruct (traffic_dump_ok g p disp T V LV3 W) as (out5 & E5 & X5)
  end.
  exists (fs0 ++ fs1 ++ fs2 ++ fs3). eexists. exists out4, out5.
  rewrite E5. split.
  - f_equal. f_equal; [apply app4|apply app8].
  - split; [|split; [exact X4|exact X5]].
    rewrite !scatter_charts_app, X3. reflexivity.
Qed.


(** ** The view a selection produces *)

Lemma mask_rows_filter (f : list cell -> bool) rs :
  mask_rows (map f rs) rs = filter f rs.
Proof.
  induction rs as [|r rs IH]; simpl; [reflexivity|].
  destruct (f r); now rewrite IH.
Qed.

Lemma cell_eqb_to_str c L : cell_eqb c (VStr L) = true <-> c = VStr L.
Proof.
  rewrite (cell_eqb_sym_str (VStr L) c eq_refl).
  rewrite (cell_eqb_str_eq (VStr L) c eq_refl). split; congruence.
Qed.

Lemma mask_select_label T labels i L :
  col_index "Cluster" (columns T) = Some i ->
  labels = map (cell_at i) (rows T) ->
  rows (mask_select (series_eq labels (VStr L)) T)
  = filter (fun row => cell_eqb (cluster_of T row) (VStr L)) (rows T).
Proof.
  intros Hi ->. unfold mask_select, series_eq. simpl.
  rewrite map_map, mask_rows_filter. apply filter_ext. intros row.
  rewrite (cluster_of_index _ _ _ Hi).
  destruct (cell_eqb (cell_at i row) (VStr L)) eqn:E;
    [|now rewrite andb_false_r].
  apply cell_eqb_to_str in E. now rewrite E.
Qed.

Lemma nth_forallb {A} (f : A -> bool) l i d :
  forallb f l = true -> (i < length l)%nat -> f (nth i l d) = true.
Proof.
  intros H Hi. rewrite forallb_forall in H. apply H. now apply nth_In.
Qed.

Lemma sort_by_forallb {A} (f : A -> bool) leb l :
  forallb f l = true -> forallb f (sort_by leb l) = true.
Proof.
  intros H. rewrite forallb_forall in *. intros x Hx. apply H.
  now apply sort_by_in in Hx.
Qed.

Lemma option_is_text labels choice :
  forallb is_str labels = true ->
  let options := VStr "All" :: sort_by cell_leb (unique labels) in
  let i := if (choice <? length options)%nat then choice else O in
  exists L, nth i options VNaN = VStr L.
Proof.
  intros S options i.
  assert (F : forallb is_str options = true).
  { simpl. now apply sort_by_forallb, unique_str. }
  assert (Hi : (i < length options)%nat).
  { unfold i. destruct (choice <? length options)%nat eqn:E.
    - now apply Nat.ltb_lt.
    - simpl. lia. }
  pose proof (nth_forallb is_str options i VNaN F Hi) as X.
  destruct (nth i options VNaN); try discriminate. eauto.
Qed.


(** C1 (as amended).  Whatever the user picks, the selector returns an
    option and the view is determined by it: for the option [All] the
    view is the loaded table itself; for every label [L] other than the
    text [All] the view has the columns of the loaded table and exactly
    its rows whose [Cluster] cell is [L], in their order. *)
Theorem chosen_view_rows s df T choice :
  nth_error (heap s) df = Some T -> labels_str T = true ->
  exists sel V s',
    chosen_view df choice s = (Ok (sel, V), s') /\
    ((sel = VStr "All" /\ V = T) \/
     (exists L, sel = VStr L /\ L <> "All" /\
        columns V = columns T /\
        rows V = filter (fun row => cell_eqb (cluster_of T row) (VStr L))
                   (rows T) /\
        forall row, In row (rows V) <->
                    In row (rows T) /\ cluster_of T row = VStr L)).
Proof.
  destruct s as [h scr]. simpl. intros L S.
  destruct (labels_str_column T S) as (labels & C & SL).
  unfold chosen_view.
  rewrite (bind_run _ _ _ _ _
             (cluster_selector_run h scr df T labels choice L C SL)).
  destruct (option_is_text labels choice SL) as [lbl E]. rewrite E.
  destruct (String.eqb lbl "All") eqn:A.
  - apply String.eqb_eq in A. subst lbl.
    rewrite (bind_run _ _ _ _ _ (select_view_all h _ df (VStr "All") eq_refl)).
    cbn [fst]. rewrite (bind_deref _ _ _ _ _ L).
    do 3 eexists. split; [reflexivity|]. now left.
  - assert (N : cell_eqb (VStr lbl) (VStr "All") = false) by exact A.
    rewrite (bind_run _ _ _ _ _
               (select_view_one h _ df T labels (VStr lbl) N L C)).
    cbn [fst]. erewrite bind_deref by apply lookup_new.
    do 3 eexists. split; [reflexivity|]. right. exists lbl.
    split; [reflexivity|]. split; [now apply String.eqb_neq|].
    split; [reflexivity|].
    assert (R : rows (mask_select (series_eq labels (VStr lbl)) T)
                = filter (fun row => cell_eqb (cluster_of T row) (VStr lbl))
                    (rows T)).
    { unfold column in C.
      destruct (col_index "Cluster" (columns T)) as [i|] eqn:Hi;
        [|discriminate].
      injection C as <-. now apply (mask_select_label T _ i). }
    split; [exact R|]. intros row. rewrite R, filter_In.
    now rewrite cell_eqb_to_str.
Qed.

(** On a table without any row the run ends at the bar chart of the
    cluster counts. *)
Lemma render_empty_run h scr df T choice :
  nth_error h df = Some T -> labels_str T = true -> rows T = [] ->
  render df choice (mkState h scr)
  = (Raise ValueError,
     mkState h
       (scr ++ [Title "Tasty Bites - Recipe Segmentation Dashboard";
                Markdown intro_text;
                SidebarHeader "Visualization Options";
                SidebarSubheader "Cluster Summary";
                SidebarWrite "Number of Recipes per Cluster:";
                SidebarDataframe (mkNamed "Recipes" [])])).
Proof.
  intros L S E. destruct (labels_str_column T S) as (labels & C & _).
  rewrite (labels_empty T labels C E) in C. unfold render.
  rewrite (bind_run _ _ _ _ _ (page_intro_run h scr)).
  unfold bind at 1. rewrite (cluster_summary_empty h _ df T L C).
  now rewrite <- app_assoc.
Qed.

(** C2.  On a table that meets the input contract but has no
    [high_traffic] column, a run goes through every section and then
    ends in [KeyError]: the last statement of the script reads that
    column whatever the table holds.  (On a table without any row the
    run ends earlier, in the [ValueError] of the first bar chart.) *)
Theorem render_raises_without_high_traffic s df T choice :
  nth_error (heap s) df = Some T -> schema_ok T = true ->
  has_col "high_traffic" T = false ->
  fst (render df choice s)
  = Raise (match rows T with
           | [] => ValueError
           | _ :: _ => KeyError "high_traffic"
           end).
Proof.
  destruct s as [h scr]. simpl. intros L OK H.
  destruct (rows T) as [|r rs] eqn:R.
  - destruct (schema_ok_parts T OK) as (S & _).
    now rewrite (render_empty_run h scr df T choice L S R).
  - assert (NE : rows T <> []) by (rewrite R; discriminate).
    destruct (render_run h scr df T choice L OK NE)
      as (fs & a & b & c & E & _).
    now rewrite E, H.
Qed.

(** With a [high_traffic] column the run completes, whether or not the
    projection coordinates are there. *)
Lemma render_completes_with_high_traffic s df T choice :
  nth_error (heap s) df = Some T -> schema_ok T = true -> rows T <> [] ->
  has_col "high_traffic" T = true ->
  fst (render df choice s) = Ok tt.
Proof.
  destruct s as [h scr]. simpl. intros L OK NE H.
  destruct (render_run h scr df T choice L OK NE)
    as (fs & a & b & c & E & _).
  now rewrite E, H.
Qed.

(** C3 (as amended).  The traffic section writes its heading and then:
    with a [high_traffic] column, the pie chart of its normalized
    frequencies and no notice; without it, the notice, followed by the
    fallback pie chart when there is a [high_traffic_High] column and by
    nothing otherwise. *)
Theorem traffic_section_cases s df disp T V sfx :
  nth_error (heap s) df = Some T -> nth_error (heap s) disp = Some V ->
  view_of T V ->
  optional_numeric "high_traffic_High" T = true ->
  optional_numeric "high_traffic_No_Traffic_Info" T = true ->
  exists fs out,
    traffic_section df disp sfx s
    = (Ok tt,
       mkState (heap s ++ fs)
         (screen s ++ Subheader ("High Traffic Distribution" +++ sfx) :: out))
    /\ (has_col "high_traffic" T = true ->
        exists traffic,
          column "high_traffic" V = Ok traffic /\
          out = [PlotlyChart (Pie ("Proportion of Recipe Traffic" +++ sfx)
                                (value_counts true traffic))])
    /\ (has_col "high_traffic" T = false ->
        has_col "high_traffic_High" T = true ->
        exists high hc nc,
          column "high_traffic_High" V = Ok high /\ col_sum high = Ok hc /\
          (if has_col "high_traffic_No_Traffic_Info" T
           then rbind (column "high_traffic_No_Traffic_Info" V) col_sum
           else sub_from (Z.of_nat (length (rows V))) hc) = Ok nc /\
          out = [Info traffic_notice;
                 PlotlyChart (Pie ("Proportion of Recipe Traffic" +++ sfx)
                                [(VStr "High Traffic", hc);
                                 (VStr "No Traffic Info", nc)])])
    /\ (has_col "high_traffic" T = false ->
        has_col "high_traffic_High" T = false ->
        out = [Info traffic_notice]).
Proof.
  destruct s as [h scr]. simpl. intros L LV W O1 O2.
  destruct (has_col "high_traffic" T) eqn:H1.
  - destruct (has_col_index _ _ H1) as [i Hi].
    pose proof (view_column _ _ _ _ W Hi) as C.
    destruct (traffic_section_column h scr df disp T V _ sfx L LV H1 C)
      as [fs E].
    exists fs. eexists. split; [exact E|].
    split; [intros _; eauto|]. split; discriminate.
  - destruct (has_col "high_traffic_High" T) eqn:H2.
    + destruct (has_col_index _ _ H2) as [i Hi].
      pose proof (view_column _ _ _ _ W Hi) as C.
      destruct (col_sum_numeric _ (optional_numeric_col _ _ _ _ W O1 H2 C))
        as (hc & S & Nh).
      assert (N : exists nc,
                (if has_col "high_traffic_No_Traffic_Info" T
                 then rbind (column "high_traffic_No_Traffic_Info" V) col_sum
                 else sub_from (Z.of_nat (length (rows V))) hc) = Ok nc).
      { destruct (has_col "high_traffic_No_Traffic_Info" T) eqn:H3.
        - destruct (has_col_index _ _ H3) as [j Hj].
          pose proof (view_column _ _ _ _ W Hj) as Cj. rewrite Cj. simpl.
          destruct (col_sum_numeric _
                      (optional_numeric_col _ _ _ _ W O2 H3 Cj))
            as (nc & -> & _). eauto.
        - now apply sub_from_number. }
      destruct N as [nc N].
      destruct (traffic_section_onehot h scr df disp T V _ hc nc sfx
                  L LV H1 H2 C S N) as [fs E].
      exists fs. eexists. split; [exact E|].
      split; [discriminate|]. split; [|discriminate].
      intros _ _. exists (map (cell_at i) (rows V)), hc, nc. auto.
    + exists []. eexists. rewrite app_nil_r.
      split; [apply (traffic_section_none h scr df disp T sfx L H1 H2)|].
      split; [discriminate|]. split; [discriminate|reflexivity].
Qed.



Lemma points_of_rows {A B C} (f : A -> C) (g : B -> C) pts rs :
  length pts = length rs ->
  (forall i r, nth_error rs i = Some r ->
     exists p, nth_error pts i = Some p /\ f p = g r) ->
  map f pts = map g rs.
Proof.
  revert rs. induction pts as [|p pts IH]; intros [|r rs] Hl Hp;
    simpl in *; try discriminate; [reflexivity|].
  destruct (Hp O r eq_refl) as (p' & [= <-] & E). rewrite E. f_equal.
  apply IH; [congruence|]. intros i r' Hr. apply (Hp (S i) r' Hr).
Qed.

(** C4.  On a table that meets the input contract and has at least one
    row, whatever the user has picked: when both [PC1] and [PC2] are
    columns of the loaded table, the page gets exactly one scatter
    chart, with one point for every row of the loaded table, at the
    row's coordinates and coloured by its cluster; when one of them is
    missing, the page gets the warning and no scatter chart. *)
Theorem scatter_one_point_per_row s df T choice :
  nth_error (heap s) df = Some T -> schema_ok T = true -> rows T <> [] ->
  exists out,
    screen (snd (render df choice s)) = screen s ++ out /\
    (has_col "PC1" T = true -> has_col "PC2" T = true ->
     exists pts,
       scatter_charts out = [pts] /\
       length pts = length (rows T) /\
       Permutation
         (map (fun p => (point_x p, point_y p, point_color p)) pts)
         (map (fun row => (value_at T "PC1" row, value_at T "PC2" row,
                           cluster_of T row)) (rows T))) /\
    (has_col "PC1" T = false \/ has_col "PC2" T = false ->
     scatter_charts out = [] /\ In (Warning pca_warning) out).
Proof.
  destruct s as [h scr]. simpl. intros L OK NE.
  destruct (render_run h scr df T choice L OK NE)
    as (fs & front & pca & back & E & X1 & [P1 P2] & X2).
  exists (front ++ pca ++ back). rewrite E. split; [reflexivity|].
  rewrite !scatter_charts_app, X1, X2, app_nil_r. simpl. split.
  - intros H1 H2. destruct P1 as (pts & C & N & P); [now rewrite H1, H2|].
    exists pts. split; [exact C|]. split; [exact N|].
    rewrite (points_of_rows
               (fun p => (point_x p, point_y p, point_color p))
               (fun row => (value_at T "PC1" row, value_at T "PC2" row,
                            cluster_of T row)) pts (rows T) N).
    + apply Permutation_refl.
    + intros i r Hr. destruct (P i r Hr) as (p & Hp & Ex & Ey & Ec).
      exists p. split; [exact Hp|]. now rewrite Ex, Ey, Ec.
  - intros H.
    assert (F : has_col "PC1" T && has_col "PC2" T = false).
    { destruct H as [-> | ->]; [reflexivity|apply andb_false_r]. }
    destruct (P2 F) as [Q1 Q2]. split; [exact Q1|].
    apply in_or_app. right. apply in_or_app. now left.
Qed.

(** C5.  When the loaded table has neither a [high_traffic] nor a
    [high_traffic_High] column, the traffic section writes its heading
    and the notice, and no chart. *)
Theorem traffic_notice_without_columns s df disp T sfx :
  nth_error (heap s) df = Some T ->
  has_col "high_traffic" T = false -> has_col "high_traffic_High" T = false ->
  exists out,
    traffic_section df disp sfx s
    = (Ok tt, mkState (heap s) (screen s ++ out)) /\
    out = [Subheader ("High Traffic Distribution" +++ sfx);
           Info traffic_notice] /\
    charts out = [].
Proof.
  destruct s as [h scr]. simpl. intros L H1 H2. eexists.
  split; [apply (traffic_section_none h scr df disp T sfx L H1 H2)|].
  split; reflexivity.
Qed.

(** C6.  When the CSV file does not exist, the run writes the error
    message and stops: it ends in [StopException] with nothing on the
    page after the error, no chart and no table, and no object
    created. *)
Theorem missing_file_stops s choice :
  disk csv_path = None ->
  exists out,
    script choice s = (Raise StopException, mkState (heap s) (screen s ++ out))
    /\ out = [PageConfig "Recipe Segmentation Dashboard" "wide" "expanded";
              Error ("Error: The file '" +++ csv_path +++
                     "' was not found. Make sure the CSV is in the same folder as this script.")]
    /\ charts out = [].
Proof.
  destruct s as [h scr]. simpl. intros D. eexists. split; [|split; reflexivity].
  unfold script, st_set_page_config. rewrite bind_emit.
  unfold load_data, read_csv, try_except, bind. rewrite D. simpl.
  now rewrite <- app_assoc.
Qed.


Lemma filter_map_length {A B} (f : B -> bool) (g : A -> B) l :
  length (filter f (map g l)) = length (filter (fun x => f (g x)) l).
Proof.
  induction l as [|x l IH]; simpl; [reflexivity|].
  destruct (f (g x)); simpl; now rewrite IH.
Qed.

(** C7.  The counts of recipes per cluster are computed from the loaded
    table alone: one entry for every cluster label of the table, each
    with the number of rows of the loaded table that carry the label,
    in increasing order of the labels.  Every run on a table with at
    least one row, whatever the user has picked, shows these same
    counts in the sidebar table, under the name [Recipes], and in the
    bar chart, before anything that depends on the selection. *)
Theorem cluster_counts_of_full_table s df T :
  nth_error (heap s) df = Some T -> labels_str T = true -> rows T <> [] ->
  exists counts : series,
    Sorted (fun a b => by_label a b = true) counts /\
    NoDup (map fst counts) /\
    (forall row, In row (rows T) -> In (cluster_of T row) (map fst counts)) /\
    (forall k v, In (k, v) counts ->
       v = VInt (Z.of_nat
                   (length (filter (fun row => cell_eqb k (cluster_of T row))
                              (rows T))))) /\
    forall choice, exists rest,
      screen (snd (render df choice s))
      = screen s ++
        [Title "Tasty Bites - Recipe Segmentation Dashboard";
         Markdown intro_text;
         SidebarHeader "Visualization Options";
         SidebarSubheader "Cluster Summary";
         SidebarWrite "Number of Recipes per Cluster:";
         SidebarDataframe (mkNamed "Recipes" counts);
         PlotlyChart (Bar "Distribution of Recipes by Cluster" counts)]
        ++ rest.
Proof.
  destruct s as [h scr]. simpl. intros L S NE.
  destruct (labels_str_column T S) as (labels & C & SL).
  pose proof (labels_nonempty T labels C NE) as LN.
  destruct (value_counts_spec false labels SL) as (F & D & K & V).
  destruct (sort_index_str _ F) as [_ Srt].
  exists (sort_by by_label (value_counts false labels)).
  assert (P : Permutation (sort_by by_label (value_counts false labels))
                (value_counts false labels)) by apply sort_by_perm.
  pose proof C as C0. unfold column in C.
  destruct (col_index "Cluster" (columns T)) as [i|] eqn:Hi; [|discriminate].
  injection C as <-.
  split; [exact Srt|]. split.
  { eapply Permutation_NoDup;
      [apply Permutation_sym, Permutation_map, P|exact D]. }
  split.
  { intros row Hr. rewrite (cluster_of_index _ _ _ Hi).
    eapply Permutation_in; [apply Permutation_sym, Permutation_map, P|].
    apply K. now apply in_map. }
  split.
  { intros k v I. apply (Permutation_in _ P) in I.
    destruct (V eq_refl k v I) as [-> _]. rewrite filter_map_length.
    do 3 f_equal. apply filter_ext. intros row.
    now rewrite (cluster_of_index _ _ _ Hi). }
  intros choice. unfold render.
  rewrite (bind_run _ _ _ _ _ (page_intro_run h scr)).
  rewrite (bind_run _ _ _ _ _
             (cluster_summary_run h _ df T _ L C0 SL LN)).
  match goal with |- context [snd (?m ?st)] =>
    assert (X : safe st m any) by safe_sections;
    destruct (X st (extends_refl st)) as [[_ [es E]] _]
  end.
  exists es. rewrite E. simpl. now rewrite <- !app_assoc.
Qed.


(** C8 (as amended).  For every view in which at least one recipe has a
    category, the category section draws the bar chart of the normalized
    category counts, and the proportions it shows sum to exactly 1. *)
Theorem category_proportions_sum_to_one s disp V cats sfx :
  nth_error (heap s) disp = Some V -> column "category" V = Ok cats ->
  dropna cats <> [] ->
  exists fs bars,
    category_section disp sfx s
    = (Ok tt,
       mkState (heap s ++ fs)
         (screen s ++ [Subheader ("Category Distribution" +++ sfx);
                       PlotlyChart
                         (Bar ("Proportion of Recipe Categories" +++ sfx)
                            bars)]))
    /\ bars = value_counts true cats
    /\ bar_total bars == 1.
Proof.
  destruct s as [h scr]. simpl. intros L C N.
  destruct (category_section_run h scr disp V cats sfx L C) as [fs E].
  exists fs, (value_counts true cats). split; [exact E|].
  split; [reflexivity|]. now apply value_counts_total.
Qed.

(** C9.  Whatever the user has picked and however the run ends, the
    loaded table is the same object with the same columns and rows after
    the run as before it, and so is every other object that existed
    before the run. *)
Theorem render_keeps_loaded_table s df T choice :
  nth_error (heap s) df = Some T ->
  nth_error (heap (snd (render df choice s))) df = Some T /\
  exists fs, heap (snd (render df choice s)) = heap s ++ fs.
Proof.
  intros L.
  destruct (render_safe s df choice s (extends_refl s)) as [E _].
  split; [now apply (extends_lookup s)|]. now destruct E.
Qed.

(** C10.  The two branches that compute the average nutrition values
    are the same computation on the current view: whichever way the
    test on the selection goes, the result is the mean of the five
    nutrition columns of the view, so two selections that lead to the
    same view give the same averages. *)
Theorem avg_numeric_features_branches_agree sel sel' display_data s :
  avg_numeric_features sel display_data s
  = mean_of display_data nutrition_columns s
  /\ avg_numeric_features sel display_data s
     = avg_numeric_features sel' display_data s.
Proof.
  unfold avg_numeric_features.
  destruct (cell_eqb sel (VStr "All")), (cell_eqb sel' (VStr "All"));
    split; reflexivity.
Qed.

(** ** From the file to the page *)

Lemma set_nth_same i v row : cell_at i (set_nth i v row) = v.
Proof.
  unfold cell_at. revert row.
  induction i as [|i IH]; intros [|c row]; simpl; auto.
Qed.

Lemma zip_rows_column i vals : forall rs,
  length vals = length rs ->
  map (cell_at i) (zip_rows (set_nth i) vals rs) = vals.
Proof.
  induction vals as [|v vals IH]; intros [|r rs]; simpl; try discriminate;
    [reflexivity|].
  intros [= H]. now rewrite set_nth_same, IH.
Qed.

Lemma astype_str_text vals : forallb is_str (astype_str vals) = true.
Proof.
  unfold astype_str. now induction vals.
Qed.

(** Line 24 leaves a table whose [Cluster] column holds text only. *)
Lemma set_labels_text T0 labels :
  column "Cluster" T0 = Ok labels ->
  exists T,
    set_column "Cluster" (astype_str labels) T0 = Ok T /\
    columns T = columns T0 /\ labels_str T = true.
Proof.
  unfold column, set_column.
  destruct (col_index "Cluster" (columns T0)) as [i|] eqn:Hi; [|discriminate].
  intros [= <-].
  assert (E : length (astype_str (map (cell_at i) (rows T0)))
              = length (rows T0)).
  { unfold astype_str. now rewrite !length_map. }
  rewrite E, Nat.eqb_refl. simpl. eexists. split; [reflexivity|].
  split; [reflexivity|]. unfold labels_str, column. simpl. rewrite Hi.
  rewrite zip_rows_column by exact E. apply astype_str_text.
Qed.

Lemma load_data_run h scr T0 :
  disk csv_path = Some T0 ->
  load_data csv_path (mkState h scr) = (Ok (length h), mkState (h ++ [T0]) scr).
Proof.
  intros D. unfold load_data, read_csv, try_except, bind. now rewrite D.
Qed.

(** When the file is there and has a [Cluster] column, the script
    renders the parsed table with its labels turned into text. *)
Lemma script_reaches_render h scr T0 labels choice :
  disk csv_path = Some T0 -> column "Cluster" T0 = Ok labels ->
  exists T,
    set_column "Cluster" (astype_str labels) T0 = Ok T /\
    labels_str T = true /\
    script choice (mkState h scr)
    = render (length h) choice
        (mkState (h ++ [T])
           (scr ++ [PageConfig "Recipe Segmentation Dashboard" "wide"
                      "expanded"])).
Proof.
  intros D C. destruct (set_labels_text T0 labels C) as (T & E & _ & S).
  exists T. split; [exact E|]. split; [exact S|].
  unfold script, st_set_page_config. rewrite bind_emit.
  rewrite (bind_run _ _ _ _ _ (load_data_run h _ T0 D)).
  rewrite (getitem_run _ _ _ _ _ _ _ (lookup_new h T0 []) C).
  unfold setitem. rewrite (bind_mutate _ _ _ _ _ _ _ (lookup_new h T0 []) E).
  now rewrite update_new.
Qed.

(** ** More about line 24 and the start of a run *)

Lemma set_nth_other i v : forall j row,
  j <> i -> cell_at j (set_nth i v row) = cell_at j row.
Proof.
  unfold cell_at.
  induction i as [|i IH]; intros [|j] [|c row] N; simpl; try congruence;
    try reflexivity.
  - now destruct j.
  - rewrite IH by congruence. now destruct j.
  - apply IH. congruence.
Qed.

Lemma zip_rows_other i j vals : forall rs,
  j <> i -> length vals = length rs ->
  map (cell_at j) (zip_rows (set_nth i) vals rs) = map (cell_at j) rs.
Proof.
  induction vals as [|v vals IH]; intros [|r rs] N; simpl; try discriminate;
    [reflexivity|].
  intros [= H]. now rewrite set_nth_other, IH.
Qed.

Lemma zip_rows_length f vals : forall rs,
  length vals = length rs -> length (zip_rows f vals rs) = length rs.
Proof.
  induction vals as [|v vals IH]; intros [|r rs]; simpl; try discriminate;
    [reflexivity|].
  intros [= H]. now rewrite IH.
Qed.

Lemma col_index_inj cols : forall a b i,
  col_index a cols = Some i -> col_index b cols = Some i -> a = b.
Proof.
  induction cols as [|c cols IH]; simpl; intros a b i Ha Hb; [discriminate|].
  destruct (String.eqb c a) eqn:Ea, (String.eqb c b) eqn:Eb.
  - apply String.eqb_eq in Ea, Eb. congruence.
  - destruct (col_index b cols); [|discriminate]. congruence.
  - destruct (col_index a cols); [|discriminate]. congruence.
  - destruct (col_index a cols) as [ia|] eqn:Ia; [|discriminate].
    destruct (col_index b cols) as [ib|] eqn:Ib; [|discriminate].
    apply (IH a b ia); congruence.
Qed.

(** X1.  When the file is there and has a [Cluster] column, what the
    script renders is the parsed table with the labels replaced by their
    text: the column names, the number of rows and every other column
    are those of the file. *)
Theorem script_renders_text_labels s T0 labels choice :
  disk csv_path = Some T0 -> column "Cluster" T0 = Ok labels ->
  exists T,
    script choice s
    = render (length (heap s)) choice
        (mkState (heap s ++ [T])
           (screen s ++ [PageConfig "Recipe Segmentation Dashboard" "wide"
                           "expanded"]))
    /\ columns T = columns T0
    /\ length (rows T) = length (rows T0)
    /\ column "Cluster" T = Ok (map (fun c => VStr (py_str c)) labels)
    /\ forall name, name <> "Cluster" -> column name T = column name T0.
Proof.
  destruct s as [h scr]. simpl. intros D C.
  destruct (script_reaches_render h scr T0 labels choice D C)
    as (T & E & _ & R).
  exists T. split; [exact R|]. clear R.
  unfold column in C. unfold set_column in E.
  destruct (col_index "Cluster" (columns T0)) as [i|] eqn:Hi; [|discriminate].
  injection C as <-.
  assert (L : length (astype_str (map (cell_at i) (rows T0)))
              = length (rows T0)).
  { unfold astype_str. now rewrite !length_map. }
  rewrite L, Nat.eqb_refl in E. simpl in E. injection E as <-. simpl.
  split; [reflexivity|]. split; [now apply zip_rows_length|]. split.
  - unfold column. simpl. rewrite Hi. now rewrite zip_rows_column.
  - intros name N. unfold column. simpl.
    destruct (col_index name (columns T0)) as [j|] eqn:Hj; [|reflexivity].
    rewrite zip_rows_other; [reflexivity| |exact L].
    intros ->. apply N. symmetry. now apply (col_index_inj _ _ _ _ Hi Hj).
Qed.

(** X2.  When the file is there but has no [Cluster] column, line 24
    raises [KeyError] for it: the table has been loaded, and the page
    holds nothing but its configuration. *)
Theorem missing_cluster_column_raises s T0 choice :
  disk csv_path = Some T0 -> has_col "Cluster" T0 = false ->
  script choice s
  = (Raise (KeyError "Cluster"),
     mkState (heap s ++ [T0])
       (screen s ++ [PageConfig "Recipe Segmentation Dashboard" "wide"
                       "expanded"])).
Proof.
  destruct s as [h scr]. simpl. intros D H.
  unfold script, st_set_page_config. rewrite bind_emit.
  rewrite (bind_run _ _ _ _ _ (load_data_run h _ T0 D)).
  unfold getitem. rewrite bind_bind.
  erewrite bind_deref by apply lookup_new.
  now rewrite (column_missing _ _ H).
Qed.

(** X3.  One run of the whole script, however it ends, leaves every
    object that existed before it as it was and only adds to the page:
    the update of line 24 and the renaming of columns hit objects the
    run itself has created. *)
Theorem script_keeps_existing_objects s choice :
  (exists fs, heap (snd (script choice s)) = heap s ++ fs) /\
  (exists es, screen (snd (script choice s)) = screen s ++ es).
Proof.
  destruct (script_safe s choice s (extends_refl s)) as [E _]. exact E.
Qed.

(** X4.  On a table that meets the input contract, a run completes
    exactly when the table has a [high_traffic] column and at least one
    row; the projection coordinates and the one-hot columns play no part
    in that. *)
Theorem run_completes_iff_high_traffic s df T choice :
  nth_error (heap s) df = Some T -> schema_ok T = true ->
  (fst (render df choice s) = Ok tt <->
   has_col "high_traffic" T = true /\ rows T <> []).
Proof.
  destruct s as [h scr]. simpl. intros L OK.
  destruct (rows T) as [|r rs] eqn:R.
  - destruct (schema_ok_parts T OK) as (S & _).
    rewrite (render_empty_run h scr df T choice L S R). simpl.
    split; [discriminate|]. intros [_ N]. now elim N.
  - assert (NE : rows T <> []) by (rewrite R; discriminate).
    destruct (render_run h scr df T choice L OK NE)
      as (fs & a & b & c & E & _).
    rewrite E. simpl. destruct (has_col "high_traffic" T); split;
      try congruence; try (intros [X _]; congruence).
    intros _. split; [reflexivity|discriminate].
Qed.

(** ** More about the selector and the counts *)

Lemma unique_fold_nodup l : forall acc,
  forallb is_str l = true -> NoDup acc ->
  NoDup (fold_left (fun acc c => if mem_cell c acc then acc else acc ++ [c])
           l acc).
Proof.
  induction l as [|c l IH]; simpl; intros acc H D; [exact D|].
  apply andb_prop in H. destruct H as [Hc Hl]. apply IH; [exact Hl|].
  destruct (mem_cell c acc) eqn:E; [exact D|].
  apply (Permutation_NoDup (Permutation_cons_append acc c)).
  constructor; [|exact D]. intros I.
  apply (mem_cell_in c acc Hc) in I. congruence.
Qed.

Lemma unique_nodup l : forallb is_str l = true -> NoDup (unique l).
Proof.
  intros H. apply unique_fold_nodup; [exact H|constructor].
Qed.

Lemma sorted_labels l :
  forallb is_str l = true ->
  Sorted (fun a b => cell_leb a b = true) (sort_by cell_leb l).
Proof.
  intros H. apply sort_by_sorted. rewrite forallb_forall in H.
  intros x y Hx Hy. apply cell_leb_total_str; auto.
Qed.

(** X5.  The selector offers [All] first and then every cluster label
    of the loaded table exactly once, in increasing order; it returns
    the option at the position the user has picked. *)
Theorem selector_offers_each_label_once s df T labels choice :
  nth_error (heap s) df = Some T -> column "Cluster" T = Ok labels ->
  forallb is_str labels = true ->
  exists all_clusters i,
    cluster_selector df choice s
    = (Ok (nth i (VStr "All" :: all_clusters) VNaN),
       mkState (heap s)
         (screen s ++
          [Header "Detailed Cluster Analysis";
           SidebarSelectbox "Select a Cluster to view its characteristics:"
             (map format_func (VStr "All" :: all_clusters)) i]))
    /\ (choice <= length all_clusters -> i = choice)%nat
    /\ (i <= length all_clusters)%nat
    /\ NoDup all_clusters
    /\ Sorted (fun a b => cell_leb a b = true) all_clusters
    /\ (forall c, In c all_clusters <-> In c labels).
Proof.
  destruct s as [h scr]. simpl. intros L C S.
  exists (sort_by cell_leb (unique labels)).
  exists (if (choice <? length (VStr "All" :: sort_by cell_leb (unique labels)))%nat
          then choice else O).
  split; [apply (cluster_selector_run h scr df T labels choice L C S)|].
  simpl length. split; [|split; [|split; [|split]]].
  - intros H. destruct (choice <? _)%nat eqn:E; [reflexivity|].
    apply Nat.ltb_ge in E. lia.
  - destruct (choice <? _)%nat eqn:E; [|lia]. apply Nat.ltb_lt in E. lia.
  - eapply Permutation_NoDup;
      [apply Permutation_sym, sort_by_perm|now apply unique_nodup].
  - apply sorted_labels. now apply unique_str.
  - intros c. rewrite sort_by_in. now apply unique_in.
Qed.

Lemma chosen_view_run h scr df T labels choice :
  nth_error h df = Some T -> column "Cluster" T = Ok labels ->
  forallb is_str labels = true ->
  let options := VStr "All" :: sort_by cell_leb (unique labels) in
  let i := if (choice <? length options)%nat then choice else O in
  exists s',
    chosen_view df choice (mkState h scr)
    = (Ok (nth i options VNaN,
           if cell_eqb (nth i options VNaN) (VStr "All") then T
           else mask_select (series_eq labels (nth i options VNaN)) T),
       s').
Proof.
  intros L C S options i. unfold chosen_view.
  rewrite (bind_run _ _ _ _ _
             (cluster_selector_run h scr df T labels choice L C S)).
  fold options. fold i.
  destruct (cell_eqb (nth i options VNaN) (VStr "All")) eqn:E.
  - rewrite (bind_run _ _ _ _ _ (select_view_all h _ df _ E)).
    cbn [fst]. rewrite (bind_deref _ _ _ _ _ L). eexists. reflexivity.
  - rewrite (bind_run _ _ _ _ _ (select_view_one h _ df T labels _ E L C)).
    cbn [fst]. erewrite bind_deref by apply lookup_new.
    eexists. reflexivity.
Qed.

(** X6.  Whatever the user picks, the view of a table that has rows has
    rows: every label the selector offers is the label of some recipe. *)
Theorem chosen_view_nonempty s df T choice :
  nth_error (heap s) df = Some T -> labels_str T = true -> rows T <> [] ->
  exists sel V s',
    chosen_view df choice s = (Ok (sel, V), s') /\ rows V <> [].
Proof.
  destruct s as [h scr]. simpl. intros L S N.
  destruct (labels_str_column T S) as (labels & C & SL).
  destruct (chosen_view_run h scr df T labels choice L C SL) as [s' E].
  set (options := VStr "All" :: sort_by cell_leb (unique labels)) in *.
  set (i := if (choice <? length options)%nat then choice else O) in *.
  set (sel := nth i options VNaN) in *.
  do 3 eexists. split; [exact E|].
  destruct (cell_eqb sel (VStr "All")) eqn:A; [exact N|].
  assert (Hi : (i < length options)%nat).
  { unfold i. destruct (choice <? length options)%nat eqn:B.
    - now apply Nat.ltb_lt.
    - simpl. lia. }
  pose proof (nth_In options VNaN Hi) as I. fold sel in I.
  destruct I as [I|I].
  { rewrite <- I in A. discriminate. }
  apply sort_by_in in I. apply (unique_in _ _ SL) in I.
  unfold column in C.
  destruct (col_index "Cluster" (columns T)) as [ic|] eqn:Hc; [|discriminate].
  injection C as <-. apply in_map_iff in I. destruct I as (row & Hr & Ir).
  assert (Ss : is_str sel = true).
  { rewrite forallb_forall in SL. apply SL. rewrite <- Hr. now apply in_map. }
  unfold mask_select, series_eq. simpl. rewrite map_map, mask_rows_filter.
  intros F.
  assert (X : In row (filter (fun x => negb (is_nan (cell_at ic x))
                                     && cell_eqb (cell_at ic x) sel)
                        (rows T))).
  { apply filter_In. split; [exact Ir|]. rewrite Hr.
    rewrite (cell_eqb_refl_str sel Ss). now destruct sel. }
  rewrite F in X. destruct X.
Qed.

Lemma bar_total_perm a b : Permutation a b -> bar_total a == bar_total b.
Proof.
  induction 1 as [|x a b P IH|x y a|a b c P1 IH1 P2 IH2]; simpl.
  - reflexivity.
  - destruct (num_of (snd x)); [now rewrite IH|exact IH].
  - destruct (num_of (snd x)), (num_of (snd y)); try reflexivity. ring.
  - now rewrite IH1.
Qed.

Lemma bar_total_counts (t : list (cell * nat)) :
  bar_total (map (fun kn => (fst kn, VInt (Z.of_nat (snd kn)))) t)
  == inject_Z (Z.of_nat (total_count t)).
Proof.
  induction t as [|[k n] t IH]; simpl; [reflexivity|].
  now rewrite IH, Nat2Z.inj_add, inject_Z_plus.
Qed.

(** X7.  On a table with at least one row, the per-cluster counts
    shown in the sidebar table, under the name [Recipes], and in the bar
    chart add up to the number of recipes of the loaded table. *)
Theorem cluster_counts_add_up s df T :
  nth_error (heap s) df = Some T -> labels_str T = true -> rows T <> [] ->
  exists counts,
    cluster_summary df s
    = (Ok tt,
       mkState (heap s)
         (screen s ++
          [SidebarHeader "Visualization Options";
           SidebarSubheader "Cluster Summary";
           SidebarWrite "Number of Recipes per Cluster:";
           SidebarDataframe (mkNamed "Recipes" counts);
           PlotlyChart (Bar "Distribution of Recipes by Cluster" counts)]))
    /\ bar_total counts == inject_Z (Z.of_nat (length (rows T))).
Proof.
  destruct s as [h scr]. simpl. intros L S NE.
  destruct (labels_str_column T S) as (labels & C & SL).
  pose proof (labels_nonempty T labels C NE) as LN.
  exists (sort_by by_label (value_counts false labels)). split.
  - apply (cluster_summary_run h scr df T labels L C SL LN).
  - rewrite (bar_total_perm _ _ (sort_by_perm _ _)).
    unfold value_counts. rewrite bar_total_counts.
    rewrite (total_count_perm _ _ (sort_by_perm _ _)), total_count_tally.
    rewrite (dropna_str _ SL). unfold column in C.
    destruct (col_index "Cluster" (columns T)); [|discriminate].
    injection C as <-. now rewrite length_map.
Qed.

(** ** More about the nutrition section *)

Lemma add_cell_value a b :
  is_number a = true -> is_number b = true ->
  exists c p q r,
    add_cell a b = Ok c /\ num_of a = Some p /\ num_of b = Some q /\
    num_of c = Some r /\ r == p + q.
Proof.
  destruct a as [|za|qa|ba|sa], b as [|zb|qb|bb|sb];
    try discriminate; intros _ _; do 4 eexists;
    (split; [reflexivity|]); (split; [reflexivity|]);
    (split; [reflexivity|]); (split; [reflexivity|]);
    try reflexivity;
    try (destruct ba); try (destruct bb);
    unfold Qeq, Qplus, inject_Z; cbn [Qnum Qden]; lia.
Qed.

Lemma sum_from_value l : forall acc,
  is_number acc = true -> forallb is_number l = true ->
  exists t p a,
    sum_from acc l = Ok t /\ num_of t = Some p /\ num_of acc = Some a /\
    p == a + num_total l.
Proof.
  induction l as [|x l IH]; simpl; intros acc Ha Hl.
  - unfold is_number in Ha. destruct (num_of acc) as [a|] eqn:E;
      [|discriminate].
    exists acc, a, a. repeat split; auto. ring.
  - apply andb_prop in Hl. destruct Hl as [Hx Hl].
    destruct (add_cell_value acc x Ha Hx)
      as (c & p & q & r & -> & Pa & Px & Pc & E).
    simpl.
    assert (Hc : is_number c = true) by (unfold is_number; now rewrite Pc).
    destruct (IH c Hc Hl) as (t & pt & pc & -> & Pt & Pc' & Et).
    rewrite Pc in Pc'. injection Pc' as <-.
    exists t, pt, p. rewrite Px. repeat split; auto.
    rewrite Et, E. ring.
Qed.

Lemma num_total_dropna c : num_total (dropna c) == num_total c.
Proof.
  induction c as [|x c IH]; simpl; [reflexivity|].
  destruct x; simpl; rewrite ?IH; reflexivity.
Qed.

(** The mean of a numeric column: missing when no cell holds a number,
    and otherwise the number that, times the count of the numbers, gives
    their sum. *)
Lemma col_mean_value c v :
  forallb (fun x => is_number x || is_nan x) c = true ->
  col_mean c = Ok v ->
  (dropna c = [] /\ v = VNaN) \/
  (exists q, v = VFloat q /\
     q * inject_Z (Z.of_nat (length (dropna c))) == num_total c).
Proof.
  intros N. unfold col_mean, col_sum.
  destruct (sum_from_value (dropna c) (VInt 0) eq_refl (dropna_numbers c N))
    as (t & p & a & -> & Pt & Pa & E).
  simpl in Pa. injection Pa as <-. simpl. rewrite Pt.
  destruct (dropna c) as [|x l] eqn:D.
  - intros [= <-]. now left.
  - intros [= <-]. right. eexists. split; [reflexivity|].
    rewrite <- num_total_dropna, D. rewrite E.
    assert (Z : ~ inject_Z (Z.of_nat (length (x :: l))) == 0).
    { simpl length. rewrite Nat2Z.inj_succ. unfold Qeq. simpl. lia. }
    change (Z.pos (Pos.of_succ_nat (length l)))
      with (Z.of_nat (length (x :: l))).
    change (inject_Z 0) with 0.
    set (n := inject_Z (Z.of_nat (length (x :: l)))) in *.
    field. exact Z.
Qed.

Lemma means_of_spec names df : forall avg,
  means_of names df = Ok avg ->
  map fst avg = map VStr names /\
  forall n v, In (VStr n, v) avg ->
    exists c, column n df = Ok c /\ col_mean c = Ok v.
Proof.
  induction names as [|m names IH]; simpl; intros avg H.
  - injection H as <-. split; [reflexivity|]. intros n v [].
  - destruct (column m df) as [c|] eqn:C; [|discriminate]. simpl in H.
    destruct (col_mean c) as [mv|] eqn:M; [|discriminate]. simpl in H.
    destruct (means_of names df) as [rest|]; [|discriminate]. simpl in H.
    injection H as <-. destruct (IH rest eq_refl) as [K V]. split.
    + simpl. now rewrite K.
    + intros n v [I|I]; [|now apply V].
      injection I as <- <-. eauto.
Qed.

Lemma select_cols_columns names V sub :
  select_cols names V = Ok sub -> columns sub = names.
Proof.
  unfold select_cols. destruct (col_indices names (columns V)); [|discriminate].
  simpl. now intros [= <-].
Qed.

(** X8.  On a view whose nutrition columns are numeric, the bar chart
    of the averages has five bars, for calories, carbohydrate, sugar,
    protein and servings in this order; a bar is missing a value when no
    recipe of the view has one in that column, and is otherwise the sum
    of the column's values divided by their number. *)
Theorem nutrition_chart_bars s sel disp V sfx :
  nth_error (heap s) disp = Some V ->
  forallb (fun n => numeric_col n V) nutrition_columns = true ->
  exists avg fs,
    nutrition_section sel disp sfx s
    = (Ok tt,
       mkState (heap s ++ fs)
         (screen s ++ [Subheader ("Average Nutritional Values" +++ sfx);
                       PlotlyChart
                         (Bar ("Average Nutritional Values" +++ sfx) avg)]))
    /\ map fst avg = map VStr nutrition_columns
    /\ forall n v, In (VStr n, v) avg ->
         exists c, column n V = Ok c /\
           ((dropna c = [] /\ v = VNaN) \/
            (exists q, v = VFloat q /\
               q * inject_Z (Z.of_nat (length (dropna c))) == num_total c)).
Proof.
  destruct s as [h scr]. cbn [heap screen]. intros L N.
  destruct (frame_mean_numeric _ _ N) as (sub & avg & S & A).
  exists avg. eexists. split.
  - unfold nutrition_section, st_subheader. rewrite bind_emit.
    rewrite (bind_run _ _ _ _ _
               (avg_numeric_features_run _ _ sel _ _ _ _ L S A)).
    rewrite series_chart_run by discriminate. now rewrite <- app_assoc.
  - unfold frame_mean in A. rewrite (select_cols_columns _ _ _ S) in A.
    destruct (means_of_spec _ _ _ A) as [K M]. split; [exact K|].
    intros n v I. destruct (M n v I) as (c & C & E).
    assert (Hn : In n nutrition_columns).
    { apply (in_map fst) in I. rewrite K in I.
      change (fst (VStr n, v)) with (VStr n) in I.
      apply in_map_iff in I. destruct I as (m & [= <-] & Hm). exact Hm. }
    destruct (col_index_self n _ Hn) as [k Hk].
    rewrite (select_cols_column _ _ _ _ _ S Hk) in C.
    exists c. split; [exact C|]. apply col_mean_value; [|exact E].
    rewrite forallb_forall in N. pose proof (N n Hn) as X.
    unfold numeric_col in X. now rewrite C in X.
Qed.

Lemma col_indices_missing names cols : forall n,
  In n names -> col_index n cols = None ->
  exists k, In k names /\ col_index k cols = None /\
    col_indices names cols = Raise (KeyError k).
Proof.
  induction names as [|m names IH]; simpl; intros n I H; [contradiction|].
  destruct (col_index m cols) as [i|] eqn:E.
  - destruct I as [->|I]; [congruence|].
    destruct (IH n I H) as (k & Ik & Hk & ->). exists k. simpl. auto.
  - exists m. auto.
Qed.

(** X9.  When a nutrition column is missing from the view, the
    nutrition section writes its subheading and raises [KeyError] for a
    missing nutrition column: no chart is drawn and no object is
    created. *)
Theorem nutrition_missing_column_raises s sel disp V sfx n :
  nth_error (heap s) disp = Some V ->
  In n nutrition_columns -> has_col n V = false ->
  exists k,
    In k nutrition_columns /\ has_col k V = false /\
    nutrition_section sel disp sfx s
    = (Raise (KeyError k),
       mkState (heap s)
         (screen s ++ [Subheader ("Average Nutritional Values" +++ sfx)])).
Proof.
  destruct s as [h scr]. cbn [heap screen]. intros L I H.
  destruct (col_indices_missing nutrition_columns (columns V) n I
              (has_col_false _ _ H)) as (k & Ik & Hk & E).
  exists k. split; [exact Ik|]. split; [unfold has_col; now rewrite Hk|].
  unfold nutrition_section, st_subheader. rewrite bind_emit.
  assert (X : forall st, st = mkState h (scr ++ [Subheader ("Average Nutritional Values" +++ sfx)]) ->
            avg_numeric_features sel disp st = (Raise (KeyError k), st)).
  { intros st ->. unfold avg_numeric_features.
    assert (Y : mean_of disp nutrition_columns
                  (mkState h (scr ++ [Subheader ("Average Nutritional Values" +++ sfx)]))
                = (Raise (KeyError k),
                   mkState h (scr ++ [Subheader ("Average Nutritional Values" +++ sfx)]))).
    { unfold mean_of. rewrite (bind_deref _ _ _ _ _ L).
      unfold select_cols. rewrite E. reflexivity. }
    now destruct (cell_eqb sel (VStr "All")). }
  unfold bind. now rewrite X.
Qed.

(** ** More about the category and traffic charts *)

Lemma dropna_text l :
  forallb (fun c => is_str c || is_nan c) l = true ->
  forallb is_str (dropna l) = true.
Proof.
  induction l as [|x l IH]; simpl; [reflexivity|]. intros H.
  apply andb_prop in H. destruct H as [Hx Hl].
  destruct x; simpl in *; try discriminate; auto.
Qed.

Lemma filter_dropna k l :
  is_str k = true -> filter (cell_eqb k) (dropna l) = filter (cell_eqb k) l.
Proof.
  intros S. induction l as [|x l IH]; simpl; [reflexivity|].
  destruct x; simpl; rewrite ?IH; try reflexivity.
  now destruct k.
Qed.

Lemma counted_key_seen acc seen k n :
  counted acc seen -> In (k, n) acc -> In k seen.
Proof.
  intros (F & _ & C & _) I. destruct (C k n I) as [E P].
  rewrite Forall_forall in F. pose proof (F _ I) as S. simpl in S.
  destruct (filter (cell_eqb k) seen) as [|x l] eqn:X;
    [simpl in E; lia|].
  assert (Ix : In x (filter (cell_eqb k) seen)) by (rewrite X; now left).
  apply filter_In in Ix. destruct Ix as [Ix Ex].
  apply (cell_eqb_str_eq k x S) in Ex. now subst x.
Qed.

(** X10.  When the categories of the view are text (or missing), the
    category chart has one bar for every category that occurs in the
    view and no other; the bar of a category is the number of recipes of
    the view in that category divided by the number of recipes of the
    view that have a category. *)
Theorem category_bars_are_shares s disp V cats sfx :
  nth_error (heap s) disp = Some V -> column "category" V = Ok cats ->
  forallb (fun c => is_str c || is_nan c) cats = true ->
  exists fs bars,
    category_section disp sfx s
    = (Ok tt,
       mkState (heap s ++ fs)
         (screen s ++ [Subheader ("Category Distribution" +++ sfx);
                       PlotlyChart
                         (Bar ("Proportion of Recipe Categories" +++ sfx)
                            bars)]))
    /\ NoDup (map fst bars)
    /\ (forall c, In c (map fst bars) <-> In c cats /\ is_nan c = false)
    /\ forall k v, In (k, v) bars ->
         v = VFloat (inject_Z (Z.of_nat (length (filter (cell_eqb k) cats)))
                     / inject_Z (Z.of_nat (length (dropna cats)))).
Proof.
  destruct s as [h scr]. cbn [heap screen]. intros L C T.
  destruct (category_section_run h scr disp V cats sfx L C) as [fs E].
  exists fs, (value_counts true cats). split; [exact E|].
  pose proof (dropna_text cats T) as S.
  pose proof (counted_tally (dropna cats) S) as CT.
  pose proof CT as (F & D & Cn & K).
  unfold value_counts.
  set (srt := sort_by _ (tally (dropna cats))).
  assert (P : Permutation srt (tally (dropna cats))) by apply sort_by_perm.
  assert (Tot : total_count srt = length (dropna cats)).
  { rewrite (total_count_perm _ _ P). apply total_count_tally. }
  rewrite map_map. cbn [fst]. split; [|split].
  - eapply Permutation_NoDup;
      [apply Permutation_sym, Permutation_map, P|exact D].
  - intros c. split.
    + intros I.
      apply (Permutation_in _ (Permutation_map fst P)) in I.
      apply in_map_iff in I. destruct I as ([k n] & <- & I).
      assert (X : In k (dropna cats)).
      { now apply (counted_key_seen (tally (dropna cats)) (dropna cats)
                     k n CT). }
      apply filter_In in X. destruct X as [X1 X2].
      split; [exact X1|]. simpl. now destruct (is_nan k).
    + intros [I N].
      eapply Permutation_in; [apply Permutation_sym, Permutation_map, P|].
      apply K. apply filter_In. split; [exact I|]. now rewrite N.
  - intros k v I. apply in_map_iff in I. destruct I as ([k' n] & X & I).
    cbn [fst snd] in X. injection X as <- <-.
    apply (Permutation_in _ P) in I.
    rewrite Forall_forall in F. pose proof (F _ I) as Sk. simpl in Sk.
    destruct (Cn _ _ I) as [-> _]. rewrite Tot.
    now rewrite (filter_dropna k' cats Sk).
Qed.

Lemma HdRel_map {A B} (R : A -> A -> Prop) (R' : B -> B -> Prop)
  (f : A -> B) x l :
  (forall a b, R a b -> R' (f a) (f b)) ->
  HdRel R x l -> HdRel R' (f x) (map f l).
Proof.
  intros M H. destruct H; simpl; constructor; auto.
Qed.

Lemma Sorted_map {A B} (R : A -> A -> Prop) (R' : B -> B -> Prop)
  (f : A -> B) l :
  (forall a b, R a b -> R' (f a) (f b)) ->
  Sorted R l -> Sorted R' (map f l).
Proof.
  intros M S. induction S as [|x l S IH H]; simpl; constructor; auto.
  now apply (HdRel_map R R').
Qed.

(** X11.  The bars of the category chart come in order of decreasing
    proportion (the charts of [value_counts] list the most frequent
    value first). *)
Theorem category_bars_decrease s disp V cats sfx :
  nth_error (heap s) disp = Some V -> column "category" V = Ok cats ->
  exists fs bars,
    category_section disp sfx s
    = (Ok tt,
       mkState (heap s ++ fs)
         (screen s ++ [Subheader ("Category Distribution" +++ sfx);
                       PlotlyChart
                         (Bar ("Proportion of Recipe Categories" +++ sfx)
                            bars)]))
    /\ Sorted not_below bars.
Proof.
  destruct s as [h scr]. cbn [heap screen]. intros L C.
  destruct (category_section_run h scr disp V cats sfx L C) as [fs E].
  exists fs, (value_counts true cats). split; [exact E|].
  unfold value_counts.
  apply (Sorted_map (fun a b : cell * nat => (snd b <=? snd a)%nat = true)).
  - intros a b H. apply Nat.leb_le in H. unfold not_below. cbn [snd num_of].
    do 2 eexists. split; [reflexivity|]. split; [reflexivity|].
    unfold Qdiv. apply Qmult_le_compat_r.
    + rewrite <- Zle_Qle. lia.
    + apply Qinv_le_0_compat. change 0 with (inject_Z 0).
      rewrite <- Zle_Qle. lia.
  - apply sort_by_sorted. intros x y _ _ H.
    apply Nat.leb_gt in H. apply Nat.leb_le. lia.
Qed.

Lemma bump_keys x acc k :
  In k (map fst (bump x acc)) -> k = x \/ In k (map fst acc).
Proof.
  induction acc as [|[k' n] acc IH]; simpl.
  - intros [<-|[]]. now left.
  - destruct (cell_eqb k' x); simpl; intros [<-|I]; auto.
    destruct (IH I); auto.
Qed.

Lemma tally_fold_keys l : forall acc k,
  In k (map fst (fold_left (fun acc k => bump k acc) l acc)) ->
  In k l \/ In k (map fst acc).
Proof.
  induction l as [|x l IH]; simpl; intros acc k I; [now right|].
  destruct (IH _ _ I) as [H|H]; [now left; right|].
  destruct (bump_keys _ _ _ H) as [->|H']; auto.
Qed.

Lemma value_counts_keys b vals k v :
  In (k, v) (value_counts b vals) -> In k vals /\ is_nan k = false.
Proof.
  unfold value_counts. intros I. apply in_map_iff in I.
  destruct I as ([k' n] & X & I). cbn [fst snd] in X.
  assert (k' = k) by congruence. subst k'.
  apply sort_by_in in I. apply (in_map fst) in I. cbn [fst] in I.
  destruct (tally_fold_keys _ _ _ I) as [H|[]].
  apply filter_In in H. destruct H as [H1 H2]. split; [exact H1|].
  now destruct (is_nan k).
Qed.

(** X12.  With a [high_traffic] column, the traffic section draws one
    pie chart, of the normalized value counts of the column in the view:
    a slice is a non-missing value of the column; when some recipe of
    the view has a value the slices sum to 1, as an exact rational
    statement over the normalized value counts (the fractions
    count/total, not their floating-point roundings); and there is no
    slice at all when none has. *)
Theorem traffic_pie_slices s df disp T V traffic sfx :
  nth_error (heap s) df = Some T -> nth_error (heap s) disp = Some V ->
  has_col "high_traffic" T = true -> column "high_traffic" V = Ok traffic ->
  exists fs slices,
    traffic_section df disp sfx s
    = (Ok tt,
       mkState (heap s ++ fs)
         (screen s ++ [Subheader ("High Traffic Distribution" +++ sfx);
                       PlotlyChart
                         (Pie ("Proportion of Recipe Traffic" +++ sfx)
                            slices)]))
    /\ slices = value_counts true traffic
    /\ (forall k v, In (k, v) slices -> In k traffic /\ is_nan k = false)
    /\ (dropna traffic <> [] -> bar_total slices == 1)
    /\ (dropna traffic = [] -> slices = []).
Proof.
  destruct s as [h scr]. cbn [heap screen]. intros L LV H C.
  destruct (traffic_section_column h scr df disp T V traffic sfx L LV H C)
    as [fs E].
  exists fs, (value_counts true traffic). split; [exact E|].
  split; [reflexivity|].
  split; [intros k v; apply value_counts_keys|].
  split; [apply value_counts_total|].
  intros D. unfold value_counts. now rewrite D.
Qed.

Lemma sub_from_value n hc p :
  num_of hc = Some p ->
  exists nc q,
    sub_from n hc = Ok nc /\ num_of nc = Some q /\ p + q == inject_Z n.
Proof.
  destruct hc as [|z|f|b|t]; simpl; try discriminate; intros [= <-];
    do 2 eexists; (split; [reflexivity|]); (split; [reflexivity|]).
  - unfold Qeq, Qplus, inject_Z; cbn [Qnum Qden]. lia.
  - ring.
  - destruct b; unfold Qeq, Qplus, inject_Z; cbn [Qnum Qden]; lia.
Qed.

Lemma flags_are_numeric c :
  forallb is_flag c = true ->
  forallb (fun x => is_number x || is_nan x) c = true.
Proof.
  intros H. rewrite forallb_forall in *. intros x Hx.
  pose proof (H x Hx) as F. now destruct x.
Qed.

(** X13.  When the table has a one-hot column [high_traffic_High] of
    flags (booleans, 0 or 1, or missing) and neither [high_traffic] nor
    [high_traffic_No_Traffic_Info], and the view has fewer than 2^53
    recipes (so that the sum of the flags is the same number in 64-bit
    integers, in doubles and here), the fallback pie chart has two
    slices: the sum of the one-hot column over the view, and the number
    of recipes of the view minus that sum; together they make the number
    of recipes of the view. *)
Theorem fallback_slices_add_up s df disp T V sfx :
  nth_error (heap s) df = Some T -> nth_error (heap s) disp = Some V ->
  view_of T V ->
  has_col "high_traffic" T = false -> has_col "high_traffic_High" T = true ->
  has_col "high_traffic_No_Traffic_Info" T = false ->
  flag_col "high_traffic_High" T = true ->
  (Z.of_nat (length (rows V)) < 2 ^ 53)%Z ->
  exists fs high hc nc p q,
    traffic_section df disp sfx s
    = (Ok tt,
       mkState (heap s ++ fs)
         (screen s ++ [Subheader ("High Traffic Distribution" +++ sfx);
                       Info traffic_notice;
                       PlotlyChart
                         (Pie ("Proportion of Recipe Traffic" +++ sfx)
                            [(VStr "High Traffic", hc);
                             (VStr "No Traffic Info", nc)])]))
    /\ column "high_traffic_High" V = Ok high
    /\ num_of hc = Some p /\ num_of nc = Some q
    /\ p == num_total high
    /\ p + q == inject_Z (Z.of_nat (length (rows V))).
Proof.
  destruct s as [h scr]. cbn [heap screen]. intros L LV W H1 H2 H3 F _.
  destruct (has_col_index _ _ H2) as [i Hi].
  pose proof (view_column _ _ _ _ W Hi) as C.
  destruct W as [WC WI].
  assert (N : numeric_col "high_traffic_High" T = true).
  { unfold flag_col in F. unfold numeric_col.
    destruct (column "high_traffic_High" T); [|discriminate].
    now apply flags_are_numeric. }
  pose proof (numeric_col_view _ V T WC WI N) as NV.
  unfold numeric_col in NV. rewrite C in NV.
  destruct (sum_from_value (dropna (map (cell_at i) (rows V))) (VInt 0)
              eq_refl (dropna_numbers _ NV))
    as (hc & p & a & S & Ph & Pa & E).
  cbn [num_of] in Pa. injection Pa as <-.
  destruct (sub_from_value (Z.of_nat (length (rows V))) hc p Ph)
    as (nc & q & Sn & Pn & En).
  assert (X : (if has_col "high_traffic_No_Traffic_Info" T
               then rbind (column "high_traffic_No_Traffic_Info" V) col_sum
               else sub_from (Z.of_nat (length (rows V))) hc) = Ok nc).
  { now rewrite H3. }
  destruct (traffic_section_onehot h scr df disp T V _ hc nc sfx
              L LV H1 H2 C S X) as [fs G].
  exists fs, (map (cell_at i) (rows V)), hc, nc, p, q.
  split; [exact G|]. split; [exact C|]. split; [exact Ph|].
  split; [exact Pn|]. split; [|exact En].
  rewrite E, num_total_dropna. change (inject_Z 0) with 0. ring.
Qed.

(** ** The layout of a page *)

Lemma headings_app a b : headings (a ++ b) = headings a ++ headings b.
Proof.
  apply flat_map_app.
Qed.

Lemma written_app a b : written (a ++ b) = written a ++ written b.
Proof.
  apply filter_app.
Qed.

Lemma select_view_page h scr df T sel :
  nth_error h df = Some T -> labels_str T = true ->
  exists disp V sfx fs,
    select_view df sel (mkState h scr) = (Ok (disp, sfx), mkState (h ++ fs) scr)
    /\ nth_error (h ++ fs) disp = Some V /\ view_of T V
    /\ (sfx = " (All Clusters)" \/
        sfx = " (Cluster " +++ py_str sel +++ ")").
Proof.
  intros L S. destruct (labels_str_column T S) as (labels & C & _).
  destruct (cell_eqb sel (VStr "All")) eqn:E.
  - exists df, T, " (All Clusters)", []. rewrite app_nil_r.
    split; [now apply select_view_all|]. split; [exact L|].
    split; [apply view_of_refl|now left].
  - exists (length h), (mask_select (series_eq labels sel) T).
    do 2 eexists. split; [now apply (select_view_one h scr df T labels)|].
    split; [apply lookup_new|]. split; [apply view_of_mask|now right].
Qed.

Lemma traffic_section_page h scr df disp T V sfx :
  nth_error h df = Some T -> nth_error h disp = Some V -> view_of T V ->
  optional_numeric "high_traffic_High" T = true ->
  optional_numeric "high_traffic_No_Traffic_Info" T = true ->
  exists fs rest,
    traffic_section df disp sfx (mkState h scr)
    = (Ok tt,
       mkState (h ++ fs)
         (scr ++ Subheader ("High Traffic Distribution" +++ sfx) :: rest))
    /\ headings rest = [] /\ written rest = [].
Proof.
  intros L LV W O1 O2.
  destruct (has_col "high_traffic" T) eqn:H1.
  - destruct (has_col_index _ _ H1) as [i Hi].
    destruct (traffic_section_column h scr df disp T V _ sfx L LV H1
                (view_column _ _ _ _ W Hi)) as [fs E].
    exists fs. eexists. split; [exact E|split; reflexivity].
  - destruct (has_col "high_traffic_High" T) eqn:H2.
    + destruct (has_col_index _ _ H2) as [i Hi].
      pose proof (view_column _ _ _ _ W Hi) as C.
      destruct (col_sum_numeric _ (optional_numeric_col _ _ _ _ W O1 H2 C))
        as (hc & S & Nh).
      assert (N : exists nc,
                (if has_col "high_traffic_No_Traffic_Info" T
                 then rbind (column "high_traffic_No_Traffic_Info" V) col_sum
                 else sub_from (Z.of_nat (length (rows V))) hc) = Ok nc).
      { destruct (has_col "high_traffic_No_Traffic_Info" T) eqn:H3.
        - destruct (has_col_index _ _ H3) as [j Hj].
          pose proof (view_column _ _ _ _ W Hj) as Cj. rewrite Cj. simpl.
          destruct (col_sum_numeric _
                      (optional_numeric_col _ _ _ _ W O2 H3 Cj))
            as (nc & -> & _). eauto.
        - now apply sub_from_number. }
      destruct N as [nc N].
      destruct (traffic_section_onehot h scr df disp T V _ hc nc sfx
                  L LV H1 H2 C S N) as [fs E].
      exists fs. eexists. split; [exact E|split; reflexivity].
    + exists []. eexists. rewrite app_nil_r.
      split; [apply (traffic_section_none h scr df disp T sfx L H1 H2)|].
      split; reflexivity.
Qed.

Lemma pca_section_page h scr df T :
  nth_error h df = Some T -> labels_str T = true ->
  forallb (fun n => numeric_col n T) nutrition_columns = true ->
  has_col "category" T = true ->
  exists out,
    pca_section df (mkState h scr) = (Ok tt, mkState h (scr ++ out))
    /\ headings out = [" Cluster Visualization (PCA)"]
    /\ written out
       = if has_col "PC1" T && has_col "PC2" T then []
         else [Write "Unique values in high_traffic for current display_data:"].
Proof.
  intros L S N C.
  destruct (has_col "PC1" T && has_col "PC2" T) eqn:E.
  - apply andb_prop in E. destruct E as [H1 H2].
    destruct (has_col_index _ _ H1) as [i1 I1].
    destruct (has_col_index _ _ H2) as [i2 I2].
    assert (HC : has_col "Cluster" T = true).
    { unfold labels_str, column in S. unfold has_col.
      now destruct (col_index "Cluster" (columns T)). }
    destruct (has_col_index _ _ HC) as [ic IC].
    destruct (px_scatter_rows T "PC1" "PC2" "Cluster"
                ["calories"; "protein"; "category"; "servings_numeric"]
                "Recipe Clusters Reduced with PCA" i1 i2 ic I1 I2 IC)
      as (pts & F & _).
    { rewrite forallb_forall in N. intros n [<-|[<-|[<-|[<-|[]]]]]; auto;
        unfold has_col;
        match goal with
        | |- context [col_index ?c _] =>
            pose proof (numeric_col_present c T (N c ltac:(simpl; tauto)));
            now destruct (col_index c (columns T))
        end. }
    eexists. split; [apply (pca_section_scatter h scr df T _ L H1 H2 F)|].
    split; reflexivity.
  - eexists. split; [apply (pca_section_missing h scr df T L E)|].
    split; reflexivity.
Qed.

Lemma traffic_dump_page h scr disp T V :
  nth_error h disp = Some V -> view_of T V ->
  exists out,
    traffic_dump disp (mkState h scr)
    = (if has_col "high_traffic" T then Ok tt
       else Raise (KeyError "high_traffic"),
       mkState h (scr ++ out))
    /\ headings out = []
    /\ ((has_col "high_traffic" T = true /\
         exists traffic, column "high_traffic" V = Ok traffic /\
           out = [WriteSeries (value_counts false traffic)])
        \/ (has_col "high_traffic" T = false /\ out = [])).
Proof.
  intros L W. destruct (has_col "high_traffic" T) eqn:H.
  - destruct (has_col_index _ _ H) as [i Hi].
    pose proof (view_column _ _ _ _ W Hi) as C. eexists.
    split; [apply (traffic_dump_column h scr disp V _ L C)|].
    split; [reflexivity|]. left. eauto.
  - exists []. rewrite app_nil_r. split; [|split; [reflexivity|now right]].
    apply (traffic_dump_missing h scr disp V L).
    destruct W as [C _]. now rewrite (has_col_same_columns _ V T C).
Qed.

Lemma app9 {A} (s a b c d e o3 o4 o5 : list A) (f : A) :
  (((((((s ++ a) ++ b) ++ c) ++ d) ++ e) ++ f :: o3) ++ o4) ++ o5
  = s ++ a ++ b ++ c ++ d ++ e ++ (f :: o3) ++ o4 ++ o5.
Proof.
  now rewrite <- !app_assoc.
Qed.

(** A run on a table that meets the input contract: the headings of
    the page and what [st.write] has put on it. *)
Lemma render_layout h scr df T choice :
  nth_error h df = Some T -> schema_ok T = true -> rows T <> [] ->
  exists sfx fs out dump,
    render df choice (mkState h scr)
    = (if has_col "high_traffic" T then Ok tt
       else Raise (KeyError "high_traffic"),
       mkState (h ++ fs) (scr ++ out))
    /\ (sfx = " (All Clusters)" \/ exists L, sfx = " (Cluster " +++ L +++ ")")
    /\ headings out
       = ["Tasty Bites - Recipe Segmentation Dashboard";
          "Detailed Cluster Analysis";
          "Average Nutritional Values" +++ sfx;
          "Category Distribution" +++ sfx;
          "High Traffic Distribution" +++ sfx;
          " Cluster Visualization (PCA)"]
    /\ written out
       = (if has_col "PC1" T && has_col "PC2" T then []
          else [Write "Unique values in high_traffic for current display_data:"])
         ++ dump
    /\ ((has_col "high_traffic" T = true /\ exists srs, dump = [WriteSeries srs])
        \/ (has_col "high_traffic" T = false /\ dump = [])).
Proof.
  intros L OK NE. destruct (schema_ok_parts T OK) as (S & N & C & O1 & O2).
  destruct (labels_str_column T S) as (labels & CL & SL).
  pose proof (labels_nonempty T labels CL NE) as LN.
  unfold render.
  rewrite (bind_run _ _ _ _ _ (page_intro_run h scr)).
  rewrite (bind_run _ _ _ _ _
             (cluster_summary_run h _ df T labels L CL SL LN)).
  rewrite (bind_run _ _ _ _ _
             (cluster_selector_run h _ df T labels choice L CL SL)).
  set (sel := nth _ _ VNaN).
  match goal with |- context [bind (select_view df sel) _ (mkState h ?p)] =>
    destruct (select_view_page h p df T sel L S)
      as (disp & V & sfx & fs0 & E0 & LV & W & SF)
  end.
  rewrite (bind_run _ _ _ _ _ E0). cbn [fst snd].
  pose proof (lookup_old h fs0 df T L) as L0.
  match goal with
  | |- context [bind (nutrition_section sel disp sfx) _ (mkState ?g ?p)] =>
    destruct (nutrition_section_run g p sel disp V sfx LV
                (view_numeric _ _ _ W N)) as (avg & fs1 & E1)
  end.
  rewrite (bind_run _ _ _ _ _ E1).
  pose proof (lookup_old _ fs1 _ _ L0) as L1.
  pose proof (lookup_old _ fs1 _ _ LV) as LV1.
  destruct (has_col_index _ _ C) as [ic Hic].
  match goal with
  | |- context [bind (category_section disp sfx) _ (mkState ?g ?p)] =>
    destruct (category_section_run g p disp V _ sfx LV1
                (view_column _ _ _ _ W Hic)) as (fs2 & E2)
  end.
  rewrite (bind_run _ _ _ _ _ E2).
  pose proof (lookup_old _ fs2 _ _ L1) as L2.
  pose proof (lookup_old _ fs2 _ _ LV1) as LV2.
  match goal with
  | |- context [bind (traffic_section df disp sfx) _ (mkState ?g ?p)] =>
    destruct (traffic_section_page g p df disp T V sfx L2 LV2 W O1 O2)
      as (fs3 & out3 & E3 & X3 & Y3)
  end.
  rewrite (bind_run _ _ _ _ _ E3).
  pose proof (lookup_old _ fs3 _ _ L2) as L3.
  pose proof (lookup_old _ fs3 _ _ LV2) as LV3.
  match goal with
  | |- context [bind (pca_section df) _ (mkState ?g ?p)] =>
    destruct (pca_section_page g p df T L3 S N C) as (out4 & E4 & X4 & Y4)
  end.
  rewrite (bind_run _ _ _ _ _ E4).
  match goal with |- context [traffic_dump disp (mkState ?g ?p)] =>
    destruct (traffic_dump_page g p disp T V LV3 W) as (out5 & E5 & X5 & Y5)
  end.
  exists sfx, (fs0 ++ fs1 ++ fs2 ++ fs3). eexists. exists out5.
  rewrite E5. split; [f_equal; f_equal; [apply app4|apply app9]|].
  split.
  { destruct SF as [->| ->]; [now left|right; eauto]. }
  split.
  { rewrite !headings_app.
    change (headings (Subheader ("High Traffic Distribution" +++ sfx) :: out3))
      with (("High Traffic Distribution" +++ sfx) :: headings out3).
    rewrite X3, X4, X5. reflexivity. }
  split.
  { rewrite !written_app.
    change (written (Subheader ("High Traffic Distribution" +++ sfx) :: out3))
      with (written out3).
    assert (WD : written out5 = out5).
    { destruct Y5 as [[_ (t & _ & ->)]|[_ ->]]; reflexivity. }
    rewrite Y3, Y4, WD. reflexivity. }
  destruct Y5 as [[H (t & _ & ->)]|[H ->]]; [left|right]; eauto.
Qed.

(** X14.  On a table that meets the input contract and has at least
    one row, the headings of a page come in one fixed order, and the
    three section headings of the current view carry the same suffix:
    [(All Clusters)], or [(Cluster L)] for some label [L]. *)
Theorem page_headings s df T choice :
  nth_error (heap s) df = Some T -> schema_ok T = true -> rows T <> [] ->
  exists sfx out,
    screen (snd (render df choice s)) = screen s ++ out
    /\ (sfx = " (All Clusters)" \/ exists L, sfx = " (Cluster " +++ L +++ ")")
    /\ headings out
       = ["Tasty Bites - Recipe Segmentation Dashboard";
          "Detailed Cluster Analysis";
          "Average Nutritional Values" +++ sfx;
          "Category Distribution" +++ sfx;
          "High Traffic Distribution" +++ sfx;
          " Cluster Visualization (PCA)"].
Proof.
  destruct s as [h scr]. cbn [heap screen]. intros L OK NE.
  destruct (render_layout h scr df T choice L OK NE)
    as (sfx & fs & out & dump & E & SF & H & _).
  exists sfx, out. rewrite E. auto.
Qed.

Lemma select_view_exact h scr df T labels sel :
  nth_error h df = Some T -> column "Cluster" T = Ok labels ->
  exists disp sfx fs,
    select_view df sel (mkState h scr) = (Ok (disp, sfx), mkState (h ++ fs) scr)
    /\ nth_error (h ++ fs) disp
       = Some (if cell_eqb sel (VStr "All") then T
               else mask_select (series_eq labels sel) T).
Proof.
  intros L C. destruct (cell_eqb sel (VStr "All")) eqn:E.
  - exists df, " (All Clusters)", []. rewrite app_nil_r.
    split; [now apply select_view_all|exact L].
  - exists (length h). do 2 eexists.
    split; [now apply (select_view_one h scr df T labels)|apply lookup_new].
Qed.

Lemma pca_section_tail h scr df T :
  nth_error h df = Some T -> labels_str T = true ->
  forallb (fun n => numeric_col n T) nutrition_columns = true ->
  has_col "category" T = true ->
  exists pre,
    pca_section df (mkState h scr)
    = (Ok tt,
       mkState h
         (scr ++ pre ++
          (if has_col "PC1" T && has_col "PC2" T then []
           else [Write "Unique values in high_traffic for current display_data:"])))
    /\ written pre = [].
Proof.
  intros L S N C.
  destruct (has_col "PC1" T && has_col "PC2" T) eqn:E.
  - apply andb_prop in E. destruct E as [H1 H2].
    destruct (has_col_index _ _ H1) as [i1 I1].
    destruct (has_col_index _ _ H2) as [i2 I2].
    assert (HC : has_col "Cluster" T = true).
    { unfold labels_str, column in S. unfold has_col.
      now destruct (col_index "Cluster" (columns T)). }
    destruct (has_col_index _ _ HC) as [ic IC].
    destruct (px_scatter_rows T "PC1" "PC2" "Cluster"
                ["calories"; "protein"; "category"; "servings_numeric"]
                "Recipe Clusters Reduced with PCA" i1 i2 ic I1 I2 IC)
      as (pts & F & _).
    { rewrite forallb_forall in N. intros n [<-|[<-|[<-|[<-|[]]]]]; auto;
        unfold has_col;
        match goal with
        | |- context [col_index ?c _] =>
            pose proof (numeric_col_present c T (N c ltac:(simpl; tauto)));
            now destruct (col_index c (columns T))
        end. }
    eexists. rewrite app_nil_r.
    split; [apply (pca_section_scatter h scr df T _ L H1 H2 F)|reflexivity].
  - exists [Header " Cluster Visualization (PCA)"; Markdown pca_text;
            Warning pca_warning].
    split; [apply (pca_section_missing h scr df T L E)|reflexivity].
Qed.

Lemma app10 {A} (s a b c d e o3 o4 c4 o5 : list A) (f : A) :
  (((((((s ++ a) ++ b) ++ c) ++ d) ++ e) ++ f :: o3) ++ o4 ++ c4) ++ o5
  = s ++ (a ++ b ++ c ++ d ++ e ++ (f :: o3) ++ o4) ++ c4 ++ o5.
Proof.
  now rewrite <- !app_assoc.
Qed.

(** The end of a run on a table that has a [high_traffic] column. *)
Lemma render_end h scr df T labels choice :
  nth_error h df = Some T -> schema_ok T = true -> rows T <> [] ->
  column "Cluster" T = Ok labels -> has_col "high_traffic" T = true ->
  let options := VStr "All" :: sort_by cell_leb (unique labels) in
  let i := if (choice <? length options)%nat then choice else O in
  let sel := nth i options VNaN in
  let V := if cell_eqb sel (VStr "All") then T
           else mask_select (series_eq labels sel) T in
  exists fs front traffic,
    column "high_traffic" V = Ok traffic /\
    render df choice (mkState h scr)
    = (Ok tt,
       mkState (h ++ fs)
         (scr ++ front ++
          (if has_col "PC1" T && has_col "PC2" T then []
           else [Write "Unique values in high_traffic for current display_data:"])
          ++ [WriteSeries (value_counts false traffic)]))
    /\ written front = [].
Proof.
  intros L OK NE CL HT options i sel V.
  destruct (schema_ok_parts T OK) as (S & N & C & O1 & O2).
  destruct (labels_str_column T S) as (labels' & CL' & SL).
  assert (labels' = labels) by congruence. subst labels'. clear CL'.
  pose proof (labels_nonempty T labels CL NE) as LN.
  assert (W : view_of T V).
  { unfold V. destruct (cell_eqb sel (VStr "All"));
      [apply view_of_refl|apply view_of_mask]. }
  destruct (has_col_index _ _ HT) as [it Hit].
  pose proof (view_column _ _ _ _ W Hit) as CT.
  unfold render.
  rewrite (bind_run _ _ _ _ _ (page_intro_run h scr)).
  rewrite (bind_run _ _ _ _ _
             (cluster_summary_run h _ df T labels L CL SL LN)).
  rewrite (bind_run _ _ _ _ _
             (cluster_selector_run h _ df T labels choice L CL SL)).
  fold options. fold i. fold sel.
  match goal with |- context [bind (select_view df sel) _ (mkState h ?p)] =>
    destruct (select_view_exact h p df T labels sel L CL)
      as (disp & sfx & fs0 & E0 & LV)
  end.
  fold V in LV.
  rewrite (bind_run _ _ _ _ _ E0). cbn [fst snd].
  pose proof (lookup_old h fs0 df T L) as L0.
  match goal with
  | |- context [bind (nutrition_section sel disp sfx) _ (mkState ?g ?p)] =>
    destruct (nutrition_section_run g p sel disp V sfx LV
                (view_numeric _ _ _ W N)) as (avg & fs1 & E1)
  end.
  rewrite (bind_run _ _ _ _ _ E1).
  pose proof (lookup_old _ fs1 _ _ L0) as L1.
  pose proof (lookup_old _ fs1 _ _ LV) as LV1.
  destruct (has_col_index _ _ C) as [ic Hic].
  match goal with
  | |- context [bind (category_section disp sfx) _ (mkState ?g ?p)] =>
    destruct (category_section_run g p disp V _ sfx LV1
                (view_column _ _ _ _ W Hic)) as (fs2 & E2)
  end.
  rewrite (bind_run _ _ _ _ _ E2).
  pose proof (lookup_old _ fs2 _ _ L1) as L2.
  pose proof (lookup_old _ fs2 _ _ LV1) as LV2.
  match goal with
  | |- context [bind (traffic_section df disp sfx) _ (mkState ?g ?p)] =>
    destruct (traffic_section_page g p df disp T V sfx L2 LV2 W O1 O2)
      as (fs3 & out3 & E3 & X3 & Y3)
  end.
  rewrite (bind_run _ _ _ _ _ E3).
  pose proof (lookup_old _ fs3 _ _ L2) as L3.
  pose proof (lookup_old _ fs3 _ _ LV2) as LV3.
  match goal with
  | |- context [bind (pca_section df) _ (mkState ?g ?p)] =>
    destruct (pca_section_tail g p df T L3 S N C) as (pre & E4 & Y4)
  end.
  rewrite (bind_run _ _ _ _ _ E4).
  match goal with |- context [traffic_dump disp (mkState ?g ?p)] =>
    rewrite (traffic_dump_column g p disp V _ LV3 CT)
  end.
  exists (fs0 ++ fs1 ++ fs2 ++ fs3). eexists.
  exists (map (cell_at it) (rows V)).
  split; [exact CT|]. split; [f_equal; f_equal; [apply app4|apply app10]|].
  rewrite !written_app.
  change (written (Subheader ("High Traffic Distribution" +++ sfx) :: out3))
    with (written out3).
  rewrite Y3, Y4. reflexivity.
Qed.

(** X15.  On a table that meets the input contract, has at least one
    row and has a [high_traffic] column, the last thing a run puts on
    the page is the value counts of that column in the current view.
    The caption that announces them is written, directly before them,
    only when [PC1] or [PC2] is missing: with both coordinates the counts
    come without it.  Nothing else on the page comes from [st.write]. *)
Theorem traffic_counts_without_caption s df T choice :
  nth_error (heap s) df = Some T -> schema_ok T = true -> rows T <> [] ->
  has_col "high_traffic" T = true ->
  exists sel V s1 traffic front,
    chosen_view df choice s = (Ok (sel, V), s1)
    /\ column "high_traffic" V = Ok traffic
    /\ screen (snd (render df choice s))
       = screen s ++ front ++
         (if has_col "PC1" T && has_col "PC2" T then []
          else [Write "Unique values in high_traffic for current display_data:"])
         ++ [WriteSeries (value_counts false traffic)]
    /\ written front = [].
Proof.
  destruct s as [h scr]. cbn [heap screen]. intros L OK NE HT.
  destruct (schema_ok_parts T OK) as (S & _).
  destruct (labels_str_column T S) as (labels & CL & SL).
  destruct (chosen_view_run h scr df T labels choice L CL SL) as [s1 E].
  destruct (render_end h scr df T labels choice L OK NE CL HT)
    as (fs & front & traffic & CT & R & W).
  do 2 eexists. exists s1, traffic, front.
  split; [exact E|]. split; [exact CT|]. rewrite R. auto.
Qed.

(** X16.  On a table that has a [Cluster] column but no row, a run
    shows the title, the introduction and the sidebar with an empty
    table of counts, and then ends in [ValueError]: the bar chart of the
    counts cannot be drawn from an empty series.  No section of the
    analysis is reached, and the tables in memory are unchanged. *)
Theorem empty_table_stops_at_bar_chart s df T choice :
  nth_error (heap s) df = Some T -> labels_str T = true -> rows T = [] ->
  render df choice s
  = (Raise ValueError,
     mkState (heap s)
       (screen s ++
        [Title "Tasty Bites - Recipe Segmentation Dashboard";
         Markdown intro_text;
         SidebarHeader "Visualization Options";
         SidebarSubheader "Cluster Summary";
         SidebarWrite "Number of Recipes per Cluster:";
         SidebarDataframe (mkNamed "Recipes" [])])).
Proof.
  destruct s as [h scr]. cbn [heap screen]. intros L S E.
  exact (render_empty_run h scr df T choice L S E).
Qed.

End Dashboard.

(** ** The theorems on the sample tables *)

Local Open Scope nat_scope.

(** On the sample table, the second option of the selector is cluster
    [0] and the view holds its two recipes. *)
Lemma chosen_view_rows_witness :
  exists V s',
    chosen_view sample_repr 0 1 (mkState [recipes] []) = (Ok (VStr "0", V), s')
    /\ length (rows V) = 2%nat.
Proof.
  destruct (chosen_view_rows sample_repr (mkState [recipes] []) 0 recipes 1)
    as (sel & V & s' & E & H); [reflexivity|reflexivity|].
  exists V, s'. vm_compute in E. injection E as <- <- <-.
  split; reflexivity.
Defined.

(** C1, counterexample.  In a table where one cluster carries the text
    [All] as its label, the selector offers that label as its third
    option; picking it gives the whole table, which also holds a recipe
    of cluster [0]. *)
Lemma label_All_selects_every_row :
  column "Cluster" recipes_all_label = Ok [VStr "All"; VStr "0"] /\
  fst (chosen_view sample_repr 0 2 (mkState [recipes_all_label] []))
  = Ok (VStr "All", recipes_all_label) /\
  rows recipes_all_label
  <> filter (fun row => cell_eqb (cluster_of recipes_all_label row)
                          (VStr "All"))
       (rows recipes_all_label).
Proof.
  split; [reflexivity|]. split; [reflexivity|]. vm_compute. discriminate.
Defined.

Lemma render_raises_without_high_traffic_witness :
  fst (render sample_repr 0 1 (mkState [recipes] []))
  = Raise (KeyError "high_traffic").
Proof.
  apply (render_raises_without_high_traffic sample_repr
           (mkState [recipes] []) 0 recipes 1); reflexivity.
Defined.

(** The whole script on a file with the required columns only. *)
Example script_on_sample_file :
  fst (script sample_repr sample_disk 0 fresh_run)
  = Raise (KeyError "high_traffic").
Proof.
  reflexivity.
Qed.

(** With the traffic column the run completes even though [PC2] is
    missing. *)
Example render_without_PC2 :
  fst (render sample_repr 0 0 (mkState [recipes_traffic] [])) = Ok tt.
Proof.
  apply (render_completes_with_high_traffic sample_repr
           (mkState [recipes_traffic] []) 0 recipes_traffic 0);
    [reflexivity|reflexivity|discriminate|reflexivity].
Qed.

Lemma traffic_section_cases_witness :
  exists fs,
    traffic_section 0 0 " (All Clusters)" (mkState [recipes_onehot] [])
    = (Ok tt,
       mkState ([recipes_onehot] ++ fs)
         [Subheader "High Traffic Distribution (All Clusters)";
          Info traffic_notice;
          PlotlyChart (Pie "Proportion of Recipe Traffic (All Clusters)"
                         [(VStr "High Traffic", VInt 2);
                          (VStr "No Traffic Info", VInt 1)])]).
Proof.
  destruct (traffic_section_cases (mkState [recipes_onehot] []) 0 0
              recipes_onehot recipes_onehot " (All Clusters)")
    as (fs & out & E & _ & H & _);
    [reflexivity|reflexivity|apply view_of_refl|reflexivity|reflexivity|].
  destruct H as (high & hc & nc & C & S & N & ->); [reflexivity|reflexivity|].
  exists fs. rewrite E. vm_compute in C. injection C as <-.
  vm_compute in S. injection S as <-. vm_compute in N. injection N as <-.
  reflexivity.
Defined.

(** C3, counterexample.  The table has no [high_traffic] column but has
    the one-hot column: the section shows the fallback chart, and the
    notice as well. *)
Lemma notice_shown_with_fallback_chart :
  has_col "high_traffic_High" recipes_onehot = true /\
  screen (snd (traffic_section 0 0 " (All Clusters)"
                 (mkState [recipes_onehot] [])))
  = [Subheader "High Traffic Distribution (All Clusters)";
     Info traffic_notice;
     PlotlyChart (Pie "Proportion of Recipe Traffic (All Clusters)"
                    [(VStr "High Traffic", VInt 2);
                     (VStr "No Traffic Info", VInt 1)])].
Proof.
  split; reflexivity.
Defined.

Lemma scatter_one_point_per_row_witness :
  exists out pts,
    screen (snd (render sample_repr 0 2 (mkState [recipes_full] []))) = out /\
    scatter_charts out = [pts] /\ length pts = 3%nat.
Proof.
  destruct (scatter_one_point_per_row sample_repr
              (mkState [recipes_full] []) 0 recipes_full 2)
    as (out & E & P & _); [reflexivity|reflexivity|discriminate|].
  destruct P as (pts & C & N & _); [reflexivity|reflexivity|].
  exists out, pts. split; [exact E|]. split; [exact C|exact N].
Defined.

Lemma traffic_notice_without_columns_witness :
  traffic_section 0 0 " (All Clusters)" (mkState [recipes] [])
  = (Ok tt,
     mkState [recipes]
       [Subheader "High Traffic Distribution (All Clusters)";
        Info traffic_notice]).
Proof.
  destruct (traffic_notice_without_columns (mkState [recipes] []) 0 0
              recipes " (All Clusters)")
    as (out & E & -> & _); [reflexivity|reflexivity|reflexivity|].
  exact E.
Defined.

Lemma missing_file_stops_witness :
  fst (script sample_repr empty_disk 0 fresh_run) = Raise StopException /\
  charts (screen (snd (script sample_repr empty_disk 0 fresh_run))) = [].
Proof.
  destruct (missing_file_stops sample_repr empty_disk fresh_run 0)
    as (out & E & -> & _); [reflexivity|].
  rewrite E. split; reflexivity.
Defined.

Lemma cluster_counts_of_full_table_witness :
  exists counts rest,
    screen (snd (render sample_repr 0 1 (mkState [recipes] [])))
    = [Title "Tasty Bites - Recipe Segmentation Dashboard";
       Markdown intro_text;
       SidebarHeader "Visualization Options";
       SidebarSubheader "Cluster Summary";
       SidebarWrite "Number of Recipes per Cluster:";
       SidebarDataframe (mkNamed "Recipes" counts);
       PlotlyChart (Bar "Distribution of Recipes by Cluster" counts)]
      ++ rest
    /\ NoDup (map fst counts).
Proof.
  destruct (cluster_counts_of_full_table sample_repr
              (mkState [recipes] []) 0 recipes)
    as (counts & _ & D & _ & _ & H); [reflexivity|reflexivity|discriminate|].
  destruct (H 1%nat) as [rest E]. exists counts, rest.
  split; [exact E|exact D].
Defined.

Lemma category_proportions_sum_to_one_witness :
  exists bars,
    charts (screen (snd (category_section 0 " (All Clusters)"
                           (mkState [recipes] []))))
    = [Bar "Proportion of Recipe Categories (All Clusters)" bars]
    /\ (bar_total bars == 1)%Q.
Proof.
  destruct (category_proportions_sum_to_one (mkState [recipes] []) 0 recipes
              [VStr "Potato"; VStr "Breakfast"; VStr "Beverages"]
              " (All Clusters)")
    as (fs & bars & E & _ & T);
    [reflexivity|reflexivity|discriminate|].
  exists bars. rewrite E. split; [reflexivity|exact T].
Defined.

(** C8, counterexample.  The view holds one recipe, and that recipe has
    no category: the chart has no bar and the proportions sum to 0. *)
Lemma no_category_no_proportion :
  rows recipes_no_category <> [] /\
  charts (screen (snd (category_section 0 " (All Clusters)"
                         (mkState [recipes_no_category] []))))
  = [Bar "Proportion of Recipe Categories (All Clusters)" []] /\
  ~ (bar_total [] == 1)%Q.
Proof.
  split; [discriminate|]. split; [reflexivity|]. discriminate.
Defined.

Lemma render_keeps_loaded_table_witness :
  nth_error (heap (snd (render sample_repr 0 1 (mkState [recipes] [])))) 0
  = Some recipes.
Proof.
  apply (render_keeps_loaded_table sample_repr (mkState [recipes] []) 0
           recipes 1).
  reflexivity.
Defined.

(** ** The further theorems on the sample tables *)

Lemma script_renders_text_labels_witness :
  exists T,
    script sample_repr sample_disk 1 fresh_run
    = render sample_repr 0 1
        (mkState [T]
           [PageConfig "Recipe Segmentation Dashboard" "wide" "expanded"])
    /\ column "Cluster" T = Ok [VStr "0"; VStr "1"; VStr "0"]
    /\ column "category" T = column "category" recipes_csv.
Proof.
  destruct (script_renders_text_labels sample_repr sample_disk fresh_run
              recipes_csv [VInt 0; VInt 1; VInt 0] 1)
    as (T & E & _ & _ & C & O); [reflexivity|reflexivity|].
  exists T. split; [exact E|]. split; [exact C|].
  apply O. discriminate.
Defined.

Lemma missing_cluster_column_raises_witness :
  script sample_repr no_cluster_disk 0 fresh_run
  = (Raise (KeyError "Cluster"),
     mkState [recipes_no_cluster]
       [PageConfig "Recipe Segmentation Dashboard" "wide" "expanded"]).
Proof.
  apply (missing_cluster_column_raises sample_repr no_cluster_disk fresh_run
           recipes_no_cluster 0); reflexivity.
Defined.

Lemma run_completes_iff_high_traffic_witness :
  fst (render sample_repr 0 0 (mkState [recipes_full] [])) = Ok tt.
Proof.
  apply (proj2 (run_completes_iff_high_traffic sample_repr
                  (mkState [recipes_full] []) 0 recipes_full 0
                  eq_refl eq_refl)).
  split; [reflexivity|discriminate].
Defined.

Lemma selector_offers_each_label_once_witness :
  exists all_clusters i,
    fst (cluster_selector sample_repr 0 2 (mkState [recipes] []))
    = Ok (nth i (VStr "All" :: all_clusters) VNaN)
    /\ NoDup all_clusters
    /\ In (VStr "1") all_clusters.
Proof.
  destruct (selector_offers_each_label_once sample_repr
              (mkState [recipes] []) 0 recipes
              [VStr "0"; VStr "1"; VStr "0"] 2)
    as (cl & i & E & _ & _ & D & _ & I);
    [reflexivity|reflexivity|reflexivity|].
  exists cl, i. rewrite E. split; [reflexivity|]. split; [exact D|].
  apply I. simpl. tauto.
Defined.

Lemma chosen_view_nonempty_witness :
  exists sel V s',
    chosen_view sample_repr 0 2 (mkState [recipes] []) = (Ok (sel, V), s')
    /\ rows V <> [].
Proof.
  apply (chosen_view_nonempty sample_repr (mkState [recipes] []) 0 recipes 2);
    [reflexivity|reflexivity|discriminate].
Defined.

Lemma cluster_counts_add_up_witness :
  exists counts,
    charts (screen (snd (cluster_summary 0 (mkState [recipes] []))))
    = [Bar "Distribution of Recipes by Cluster" counts]
    /\ (bar_total counts == 3)%Q.
Proof.
  destruct (cluster_counts_add_up (mkState [recipes] []) 0 recipes)
    as (counts & E & T); [reflexivity|reflexivity|discriminate|].
  exists counts. rewrite E. split; [reflexivity|exact T].
Defined.

Lemma nutrition_chart_bars_witness :
  exists avg,
    charts (screen (snd (nutrition_section (VStr "All") 0 " (All Clusters)"
                           (mkState [recipes] []))))
    = [Bar "Average Nutritional Values (All Clusters)" avg]
    /\ map fst avg = map VStr nutrition_columns.
Proof.
  destruct (nutrition_chart_bars (mkState [recipes] []) (VStr "All") 0
              recipes " (All Clusters)")
    as (avg & fs & E & K & _); [reflexivity|reflexivity|].
  exists avg. rewrite E. split; [reflexivity|exact K].
Defined.

Lemma nutrition_missing_column_raises_witness :
  exists k,
    nutrition_section (VStr "All") 0 " (All Clusters)"
      (mkState [recipes_no_protein] [])
    = (Raise (KeyError k),
       mkState [recipes_no_protein]
         [Subheader "Average Nutritional Values (All Clusters)"]).
Proof.
  destruct (nutrition_missing_column_raises
              (mkState [recipes_no_protein] []) (VStr "All") 0
              recipes_no_protein " (All Clusters)" "protein")
    as (k & _ & _ & E); [reflexivity|simpl; tauto|reflexivity|].
  exists k. exact E.
Defined.

Lemma category_bars_are_shares_witness :
  exists bars,
    charts (screen (snd (category_section 0 " (All Clusters)"
                           (mkState [recipes] []))))
    = [Bar "Proportion of Recipe Categories (All Clusters)" bars]
    /\ NoDup (map fst bars).
Proof.
  destruct (category_bars_are_shares (mkState [recipes] []) 0 recipes
              [VStr "Potato"; VStr "Breakfast"; VStr "Beverages"]
              " (All Clusters)")
    as (fs & bars & E & D & _); [reflexivity|reflexivity|reflexivity|].
  exists bars. rewrite E. split; [reflexivity|exact D].
Defined.

Lemma category_bars_decrease_witness :
  exists bars,
    charts (screen (snd (category_section 0 " (All Clusters)"
                           (mkState [recipes] []))))
    = [Bar "Proportion of Recipe Categories (All Clusters)" bars]
    /\ Sorted not_below bars.
Proof.
  destruct (category_bars_decrease (mkState [recipes] []) 0 recipes
              [VStr "Potato"; VStr "Breakfast"; VStr "Beverages"]
              " (All Clusters)")
    as (fs & bars & E & S); [reflexivity|reflexivity|].
  exists bars. rewrite E. split; [reflexivity|exact S].
Defined.

Lemma traffic_pie_slices_witness :
  exists slices,
    charts (screen (snd (traffic_section 0 0 " (All Clusters)"
                           (mkState [recipes_full] []))))
    = [Pie "Proportion of Recipe Traffic (All Clusters)" slices]
    /\ (bar_total slices == 1)%Q.
Proof.
  destruct (traffic_pie_slices (mkState [recipes_full] []) 0 0 recipes_full
              recipes_full [VStr "High"; VNaN; VStr "High"]
              " (All Clusters)")
    as (fs & slices & E & _ & _ & T & _);
    [reflexivity|reflexivity|reflexivity|reflexivity|].
  exists slices. rewrite E. split; [reflexivity|]. apply T. discriminate.
Defined.

Lemma fallback_slices_add_up_witness :
  exists hc nc p q,
    charts (screen (snd (traffic_section 0 0 " (All Clusters)"
                           (mkState [recipes_onehot] []))))
    = [Pie "Proportion of Recipe Traffic (All Clusters)"
         [(VStr "High Traffic", hc); (VStr "No Traffic Info", nc)]]
    /\ num_of hc = Some p /\ num_of nc = Some q /\ (p + q == 3)%Q.
Proof.
  destruct (fallback_slices_add_up (mkState [recipes_onehot] []) 0 0
              recipes_onehot recipes_onehot " (All Clusters)")
    as (fs & high & hc & nc & p & q & E & _ & P & Q & _ & T);
    [reflexivity|reflexivity|apply view_of_refl|reflexivity|reflexivity
    |reflexivity|reflexivity|reflexivity|].
  exists hc, nc, p, q. rewrite E. split; [reflexivity|].
  split; [exact P|]. split; [exact Q|exact T].
Defined.

Lemma page_headings_witness :
  exists sfx,
    headings (screen (snd (render sample_repr 0 1 (mkState [recipes_full] []))))
    = ["Tasty Bites - Recipe Segmentation Dashboard";
       "Detailed Cluster Analysis";
       String.append "Average Nutritional Values" sfx;
       String.append "Category Distribution" sfx;
       String.append "High Traffic Distribution" sfx;
       " Cluster Visualization (PCA)"].
Proof.
  destruct (page_headings sample_repr (mkState [recipes_full] []) 0
              recipes_full 1)
    as (sfx & out & E & _ & H); [reflexivity|reflexivity|discriminate|].
  exists sfx. rewrite E. exact H.
Defined.

Lemma traffic_counts_without_caption_witness :
  exists front,
    screen (snd (render sample_repr 0 0 (mkState [recipes_full] [])))
    = front ++
      [WriteSeries [(VStr "High", VInt 2)]]
    /\ written front = [].
Proof.
  destruct (traffic_counts_without_caption sample_repr
              (mkState [recipes_full] []) 0 recipes_full 0)
    as (sel & V & s1 & traffic & front & E & C & R & W);
    [reflexivity|reflexivity|discriminate|reflexivity|].
  vm_compute in E. injection E as <- <- <-.
  vm_compute in C. injection C as <-.
  exists front. split; [exact R|exact W].
Defined.

Lemma empty_table_stops_at_bar_chart_witness :
  render sample_repr 0 0 (mkState [recipes_header_only] [])
  = (Raise ValueError,
     mkState [recipes_header_only]
       [Title "Tasty Bites - Recipe Segmentation Dashboard";
        Markdown intro_text;
        SidebarHeader "Visualization Options";
        SidebarSubheader "Cluster Summary";
        SidebarWrite "Number of Recipes per Cluster:";
        SidebarDataframe (mkNamed "Recipes" [])]).
Proof.
  apply (empty_table_stops_at_bar_chart sample_repr
           (mkState [recipes_header_only] []) 0 recipes_header_only 0);
    reflexivity.
Defined.
